(** * Training orchestration of the speech-separation repository

    A shallow embedding of the orchestration code (sample provider,
    infinite data generator, evaluator, training loops, domain
    classifier construction) together with the properties the
    specification states about it.

    Conventions.
    - A Python call that can raise is a function into [result]; the
      exception raised is recorded.
    - Tensor and array contents are values of an abstract carrier [F]
      with the operations of [FloatOps]; no algebraic law is assumed
      about them, so every statement holds for any rounding behaviour.
      Exact rationals ([Q], normalised by [Qred]) serve as the concrete
      carrier in the examples.
    - Code outside the orchestration files (the networks, the loss
      engine, the saver, the gender mapper) enters as a parameter or as
      an already computed per-batch value. *)

From Stdlib Require Import ZArith QArith Lia.
From stdpp Require Import base option list strings gmap pretty.

Set Warnings "-register-all".

Local Open Scope Z_scope.

(* ================================================================== *)
(** * Part I: definitions                                              *)
(* ================================================================== *)

(** ** Python run-time notions shared by all source files *)
Module Py.

  (** The exceptions the modelled code can raise. *)
Inductive exn : Type :=
| ZeroDivisionError
| KeyError (key : string)
| NameError (name : string)
| AttributeError (attr : string)
| ValueError (msg : string)
| IndexError
| TypeError
| RuntimeError (msg : string)
| IOError (path : string)
| NotImplementedError
| SystemExit.

Inductive result (A : Type) : Type :=
| Ok (a : A)
| Raise (e : exn).
Arguments Ok {A} a.
Arguments Raise {A} e.

#[export] Instance result_ret : MRet result := @Ok.
#[export] Instance result_bind : MBind result := fun A B f m =>
  match m with
  | Ok a => f a
  | Raise e => Raise e
  end.

Definition is_ok {A} (r : result A) : bool :=
  match r with Ok _ => true | Raise _ => false end.

(** The exceptions the aggregation code can raise. *)
Definition zero_div_or_key (e : exn) : Prop :=
  e = ZeroDivisionError \/ exists k, e = KeyError k.

(** Arithmetic on array and tensor entries. *)
Class FloatOps (F : Type) : Type := {
  f0 : F;
  fadd : F -> F -> F;
  fsub : F -> F -> F;
  fmul : F -> F -> F;
  fdiv : F -> F -> F;
  fltb : F -> F -> bool;
  f_of_nat : nat -> F
}.

(** Exact rationals in lowest terms, the carrier of the examples. *)
Definition Q_ops : FloatOps Q := {|
  f0 := 0%Q;
  fadd x y := Qred (x + y);
  fsub x y := Qred (x - y);
  fmul x y := Qred (x * y);
  fdiv x y := Qred (x / y);
  fltb x y := negb (Qle_bool y x);
  f_of_nat n := inject_Z (Z.of_nat n)
|}.

(** [x / n] where [n] is a Python number holding a count: Python
    raises on a zero divisor, for ints and for floats alike. *)
Definition div_count `{FloatOps F} (x : F) (n : nat) : result F :=
  if (n =? 0)%nat then Raise ZeroDivisionError
  else Ok (fdiv x (f_of_nat n)).

(** [sum(xs)], accumulated from the left. *)
Definition fsum `{FloatOps F} (xs : list F) : F := foldl fadd f0 xs.

(** What a scalar returned by torch can be. *)
Inductive pyfloat (F : Type) : Type :=
| Finite (x : F)
| PosInf
| NegInf
| NaN.
Arguments Finite {F} x.
Arguments PosInf {F}.
Arguments NegInf {F}.
Arguments NaN {F}.

(** [math.isnan] *)
Definition isnan {F} (x : pyfloat F) : bool :=
  match x with NaN => true | _ => false end.

(** [math.isfinite] *)
Definition isfinite {F} (x : pyfloat F) : bool :=
  match x with Finite _ => true | _ => false end.

(** [int(x)]: truncation towards zero. *)
Definition py_int (x : Q) : Z := Z.quot (Qnum x) (Z.pos (Qden x)).

(** [random.randint(a, b)]: a draw from the closed range [a..b],
    [ValueError] on an empty range; [r] is the value supplied by the
    random source. *)
Definition randint (a b : Z) (r : nat) : result Z :=
  if a <=? b then Ok (a + Z.of_nat r mod (b - a + 1))
  else Raise (ValueError "empty range for randrange()").

(** [l[i]] on a list, negative indices counting from the end. *)
Definition getitem {A} (l : list A) (i : Z) : result A :=
  let n := Z.of_nat (length l) in
  let j := if i <? 0 then i + n else i in
  if j <? 0 then Raise IndexError
  else match l !! Z.to_nat j with
       | Some x => Ok x
       | None => Raise IndexError
       end.

(** Bound of a slice after Python's normalisation against length [n]. *)
Definition slice_bound (n i : Z) : Z :=
  if i <? 0 then Z.max 0 (i + n) else Z.min i n.

(** [l[s:e]] *)
Definition slice {A} (l : list A) (s e : Z) : list A :=
  let n := Z.of_nat (length l) in
  let lo := slice_bound n s in
  let hi := slice_bound n e in
  take (Z.to_nat (hi - lo)) (drop (Z.to_nat lo) l).

(** [range(n)] *)
Definition range (n : Z) : list Z := Z.of_nat <$> seq 0 (Z.to_nat n).

(** [range(a, b)] *)
Definition range2 (a b : Z) : list Z := (fun i => a + i) <$> range (b - a).

(** [os.path.join(a, b)] for two components. *)
Definition path_join (a b : string) : string :=
  if String.prefix "/" b then b
  else if String.eqb a "" then b
  else if String.eqb (String.substring (String.length a - 1) 1 a) "/"
       then a +:+ b
       else a +:+ "/" +:+ b.

(** Lookup in a dictionary kept in insertion order. *)
Fixpoint assoc {V} (k : string) (d : list (string * V)) : option V :=
  match d with
  | [] => None
  | (k', v) :: d' => if String.eqb k k' then Some v else assoc k d'
  end.

Definition dict_get {V} (d : list (string * V)) (k : string) : result V :=
  match assoc k d with
  | Some v => Ok v
  | None => Raise (KeyError k)
  end.

(** [d[k]] on a [gmap]-backed dictionary. *)
Definition map_get {V} (d : gmap string V) (k : string) : result V :=
  match d !! k with
  | Some v => Ok v
  | None => Raise (KeyError k)
  end.

End Py.
Import Py.

(** ** src/dataset.py *)
Module Dataset.
(** One manifest entry: speaker name to (path, length in samples). *)
Abbreviation utt := (gmap string (string * Z)).

Section WithFloat.
Context {F : Type} `{FloatOps F}.

(** The manifest loaded from [id_list_path], in iteration order. *)
Definition manifest : Type := list (string * utt).

(** What [sf.read] finds on disk. *)
Definition disk : Type := string -> option (list F).

(** [info struct: [ utt id, chunk id, start, end ]] *)
Record info : Type := MkInfo {
  i_uid : string;
  i_cid : string;
  i_s : Z;
  i_e : Z
}.

Inductive mode : Type := Tr | Cv | Tt.

Record wsj0 : Type := Wsj0 {
  data : manifest;
  sr : Z;
  seg_len : option Z;          (* unset when the argument is -1 *)
  pre_load : bool;
  one_chunk : bool;
  id_list : list info;
  audios : list (string * gmap string (list F))
}.

Definition get_seg_len (sl : option Z) : result Z :=
  match sl with
  | Some n => Ok n
  | None => Raise (AttributeError "seg_len")
  end.

Definition sf_read (fs : disk) (path : string) : result (list F) :=
  match fs path with
  | Some a => Ok a
  | None => Raise (IOError path)
  end.

(** The chunk list of one utterance: lines 47-56 and 62-71. *)
Definition split_chunks (uid : string) (utt_len sl : Z) : result (list info) :=
  if sl =? 0 then Raise ZeroDivisionError
  else
    let seg_num := utt_len / sl in
    let seg_num := if utt_len mod sl >? 0 then seg_num + 1 else seg_num in
    Ok ((fun i =>
           let s := i * sl in
           let e := (i + 1) * sl in
           let e := if i =? seg_num - 1 then Z.min e utt_len else e in
           MkInfo uid (uid +:+ "_" +:+ pretty i) s e) <$> range seg_num).

(** The body of the loop over [self.data] in [__init__]. *)
Definition init_entry (m : mode) (oc : bool) (sl : option Z)
    (uid : string) (u : utt) : result (list info) :=
  '(path, utt_len) ← map_get u "mix";
  match m with
  | Tr =>
      n ← get_seg_len sl;
      if utt_len >=? n then
        if oc then Ok [MkInfo uid uid (-1) (-1)]
        else split_chunks uid utt_len n
      else Ok []
  | _ =>
      n ← get_seg_len sl;
      split_chunks uid utt_len n
  end.

Fixpoint init_id_list (m : mode) (oc : bool) (sl : option Z)
    (d : manifest) : result (list info) :=
  match d with
  | [] => Ok []
  | (uid, u) :: d' =>
      infos ← init_entry m oc sl uid u;
      rest ← init_id_list m oc sl d';
      Ok (infos ++ rest)
  end.

(** Reading every speaker of one utterance (lines 84-88); the inner
    dictionary is read in key order. *)
Fixpoint load_speakers (fs : disk) (l : list (string * (string * Z)))
    : result (gmap string (list F)) :=
  match l with
  | [] => Ok ∅
  | (speaker, (path, _)) :: l' =>
      audio ← sf_read fs path;
      rest ← load_speakers fs l';
      Ok (<[speaker := audio]> rest)
  end.

Fixpoint preload (fs : disk) (d : manifest)
    : result (list (string * gmap string (list F))) :=
  match d with
  | [] => Ok []
  | (uid, u) :: d' =>
      a ← load_speakers fs (map_to_list u);
      rest ← preload fs d';
      Ok ((uid, a) :: rest)
  end.

(** [wsj0.__init__]; [seg_len_arg] is the argument in seconds. *)
Definition init (fs : disk) (d : manifest) (seg_len_arg : Q)
    (pl oc : bool) (m : mode) : result wsj0 :=
  let sr := 8000 in
  let sl := if Qeq_bool seg_len_arg (-1)
            then None
            else Some (py_int (seg_len_arg * inject_Z sr)) in
  ids ← init_id_list m oc sl d;
  au ← (if pl then preload fs d else Ok []);
  Ok (Wsj0 d sr sl pl oc ids au).

(** [wsj0.pad_audio]: [base[:ilen] = audio] needs [audio] to have the
    length of the target slice, or length one (broadcast). *)
Definition pad_audio (self : wsj0) (audio : list F) (ilen : Z)
    : result (list F) :=
  n ← get_seg_len (seg_len self);
  if n <? 0 then Raise (ValueError "negative dimensions are not allowed")
  else
    let tgt := Z.to_nat (slice_bound n ilen) in
    let tail := replicate (Z.to_nat n - tgt) f0 in
    if (length audio =? tgt)%nat then Ok (audio ++ tail)
    else match audio with
         | [x] => Ok (replicate tgt x ++ tail)
         | _ => Raise (ValueError "could not broadcast input array")
         end.

Record sample : Type := Sample {
  uid : string;
  cid : string;
  ilens : Z;
  mix : list F;
  ref : list (list F)
}.

(** Lines 103-118: the three channels of utterance [u]. *)
Definition load_channels (fs : disk) (self : wsj0) (u : string)
    : result (list F * list F * list F) :=
  if pre_load self then
    a ← dict_get (audios self) u;
    m ← map_get a "mix";
    s1 ← map_get a "s1";
    s2 ← map_get a "s2";
    Ok (m, s1, s2)
  else
    e ← dict_get (data self) u;
    pm ← map_get e "mix";
    p1 ← map_get e "s1";
    p2 ← map_get e "s2";
    m ← sf_read fs pm.1;
    s1 ← sf_read fs p1.1;
    s2 ← sf_read fs p2.1;
    Ok (m, s1, s2).

(** [np.stack([s1, s2], axis = 0)] *)
Definition stack2 (s1 s2 : list F) : result (list (list F)) :=
  if (length s1 =? length s2)%nat then Ok [s1; s2]
  else Raise (ValueError "all input arrays must have the same shape").

(** [wsj0.__getitem__]; [r] feeds [random.randint]. *)
Definition getitem (fs : disk) (self : wsj0) (idx : Z) (r : nat)
    : result sample :=
  i ← Py.getitem (id_list self) idx;
  '(mix_audio, s1_audio, s2_audio) ← load_channels fs self (i_uid i);
  '(s, e) ← (if one_chunk self then
               let L := Z.of_nat (length mix_audio) in
               n ← get_seg_len (seg_len self);
               let re := L - n in
               s ← randint 0 (re - 1) r;
               Ok (s, s + n)
             else Ok (i_s i, i_e i));
  let mix_audio := slice mix_audio s e in
  let s1_audio := slice s1_audio s e in
  let s2_audio := slice s2_audio s e in
  let ilen := Z.of_nat (length mix_audio) in
  n ← get_seg_len (seg_len self);
  '(mix_audio, s1_audio, s2_audio) ←
    (if ilen <? n then
       m ← pad_audio self mix_audio ilen;
       s1 ← pad_audio self s1_audio ilen;
       s2 ← pad_audio self s2_audio ilen;
       Ok (m, s1, s2)
     else Ok (mix_audio, s1_audio, s2_audio));
  sep_audio ← stack2 s1_audio s2_audio;
  Ok (Sample (i_uid i) (i_cid i) ilen mix_audio sep_audio).

(** The three channels of an utterance are equally long, as the
    mixing script writes them ([mix = s1 + s2]). *)
Definition aligned (fs : disk) (self : wsj0) (u : string) : Prop :=
  forall m s1 s2, load_channels fs self u = Ok (m, s1, s2) ->
    length s1 = length m /\ length s2 = length m.

(** An array of the padded length [sl] that is zero from [ilen] on. *)
Definition padded_to (sl ilen : Z) (a : list F) : Prop :=
  length a = Z.to_nat sl /\
  forall i : nat, ilen <= Z.of_nat i -> (i < Z.to_nat sl)%nat ->
                  a !! i = Some f0.

(** A chunk entry: a window of at most [sl] samples at a non-negative
    offset. *)
Definition chunk_ok (sl : Z) (i : info) : Prop :=
  0 <= i_s i /\ 0 <= i_e i /\ i_e i - i_s i <= sl.

End WithFloat.
Arguments wsj0 F : clear implicits.
Arguments sample F : clear implicits.
Arguments disk F : clear implicits.
End Dataset.

(** ** src/utils.py *)
Module Utils.
Section Gen.
Context {A : Type}.

(** A loader can be iterated any number of times; its [p]-th
    iteration yields the batches [ld p] (shuffling may make the passes
    differ). *)
Definition loader : Type := nat -> list A.

(** Where the suspended generator frame stands. *)
Inductive pc : Type :=
| AtWhile                       (* about to test [while True] *)
| InFor (rest : list A)         (* inside [for s in loader] *)
| Returned.                     (* the frame has finished *)

Record gen : Type := Gen {
  g_pc : pc;
  g_pass : nat                  (* iterations of the loader begun so far *)
}.

(** [inf_data_gen(loader)]: a fresh generator object. *)
Definition inf_data_gen : gen := Gen AtWhile 0.

Inductive step_result : Type :=
| Yield (s : A) (g : gen)
| Silent (g : gen)
| Stop.

(** One transition of the generator body. *)
Definition step (ld : loader) (g : gen) : step_result :=
  match g_pc g with
  | AtWhile => Silent (Gen (InFor (ld (g_pass g))) (S (g_pass g)))
  | InFor [] => Silent (Gen AtWhile (g_pass g))
  | InFor (s :: rest) => Yield s (Gen (InFor rest) (g_pass g))
  | Returned => Stop
  end.

Inductive next_result : Type :=
| Yielded (s : A) (g : gen)
| StopIteration
| Running.                      (* no yield within the given fuel *)

(** [gen.__next__()]: run the body up to its next [yield]. *)
Fixpoint next (fuel : nat) (ld : loader) (g : gen) : next_result :=
  match fuel with
  | O => Running
  | S fuel' =>
      match step ld g with
      | Yield s g' => Yielded s g'
      | Silent g' => next fuel' ld g'
      | Stop => StopIteration
      end
  end.

(** The outcome of the call number [k] (from zero) of [__next__]. *)
Fixpoint kth_next (fuel : nat) (ld : loader) (g : gen) (k : nat)
    : next_result :=
  match next fuel ld g with
  | Yielded s g' =>
      match k with
      | O => Yielded s g'
      | S k' => kth_next fuel ld g' k'
      end
  | r => r
  end.

Definition yielded_value (r : next_result) : option A :=
  match r with
  | Yielded s _ => Some s
  | _ => None
  end.

(** Where the frame stands after a whole number of passes over the
    batches [l] plus [j] more batches. *)
Definition at_offset (l : list A) (j : nat) (c : pc) : Prop :=
  c = InFor (drop j l) \/ (j = length l /\ c = AtWhile).

End Gen.
Arguments loader A : clear implicits.
Arguments gen A : clear implicits.
End Utils.

(** ** Per-gender accumulation shared by the evaluator and the
    validation passes *)
Module Gender.
Section WithFloat.
Context {F : Type} `{FloatOps F}.

(** [d[g] += x] *)
Definition dict_add (d : gmap string F) (g : string) (x : F)
    : result (gmap string F) :=
  v ← map_get d g;
  Ok (<[g := fadd v x]> d).

(** [d[g] += 1] *)
Definition dict_incr (d : gmap string nat) (g : string)
    : result (gmap string nat) :=
  v ← map_get d g;
  Ok (<[g := S v]> d).

(** [{ g: 0. for g in gs }] *)
Definition zeros (gs : list string) : gmap string F :=
  list_to_map ((fun g => (g, f0)) <$> gs).

Definition zero_counts (gs : list string) : gmap string nat :=
  list_to_map ((fun g => (g, O)) <$> gs).

End WithFloat.
End Gender.

(** ** src/test_baseline.py *)
Module TestBaseline.
Section WithFloat.
Context {F : Type} `{FloatOps F}.

(** One example of a batch with what [cal_SISNRi] and [cal_SDR]
    return for it. *)
Record example : Type := Example {
  e_uid : string;
  e_sisnri : F;
  e_sdr : F
}.

(** One batch of the loader with the loss [cal_loss] returns. *)
Record batch : Type := Batch {
  b_loss : F;
  b_examples : list example
}.

Record acc : Type := Acc {
  total_loss : F;
  total_SISNRi : F;
  total_SDR : F;
  total_cnt : nat;
  gender_SISNRi : gmap string F;
  gender_SDR : gmap string F;
  gender_cnt : gmap string nat
}.

Definition gs : list string := ["MM"; "FF"; "MF"].

Definition acc0 : acc :=
  Acc f0 f0 f0 O (Gender.zeros gs) (Gender.zeros gs) (Gender.zero_counts gs).

Section Evaluate.
Variable g_mapper : string -> string -> string.
Variable compute_sdr : bool.

(** Lines 195-210: the body of [for b in range(B)]. *)
Definition eval_example (dataset : string) (a : acc) (x : example)
    : result acc :=
  let g := g_mapper (e_uid x) dataset in
  cnt ← Gender.dict_incr (gender_cnt a) g;
  let tot := fadd (total_SISNRi a) (e_sisnri x) in
  gsi ← Gender.dict_add (gender_SISNRi a) g (e_sisnri x);
  if compute_sdr then
    let tsdr := fadd (total_SDR a) (e_sdr x) in
    gsdr ← Gender.dict_add (gender_SDR a) g (e_sdr x);
    Ok (Acc (total_loss a) tot tsdr (total_cnt a) gsi gsdr cnt)
  else
    Ok (Acc (total_loss a) tot (total_SDR a) (total_cnt a) gsi
          (gender_SDR a) cnt).

Fixpoint eval_examples (dataset : string) (a : acc) (l : list example)
    : result acc :=
  match l with
  | [] => Ok a
  | x :: l' => a' ← eval_example dataset a x; eval_examples dataset a' l'
  end.

(** Lines 169-210: the body of the loop over the loader. *)
Definition eval_batch (dataset : string) (a : acc) (b : batch)
    : result acc :=
  let a1 := Acc (fadd (total_loss a) (b_loss b)) (total_SISNRi a)
              (total_SDR a)
              (total_cnt a + length (b_examples b))%nat
              (gender_SISNRi a) (gender_SDR a) (gender_cnt a) in
  eval_examples dataset a1 (b_examples b).

Fixpoint eval_loader (dataset : string) (a : acc) (l : list batch)
    : result acc :=
  match l with
  | [] => Ok a
  | b :: l' => a' ← eval_batch dataset a b; eval_loader dataset a' l'
  end.

(** Lines 221-228: the loop [for g in gender_SISNRi], which visits
    the keys in insertion order. *)
Fixpoint gender_means (dset : string) (sdr0 : gmap string F) (a : acc)
    (keys : list string) (sisnri sdri : gmap string F)
    : result (gmap string F * gmap string F) :=
  match keys with
  | [] => Ok (sisnri, sdri)
  | g :: keys' =>
      s ← map_get sisnri g;
      c ← map_get (gender_cnt a) g;
      q ← div_count s c;
      let sisnri := <[g := q]> sisnri in
      if compute_sdr then
        x ← map_get (gender_SDR a) g;
        c' ← map_get (gender_cnt a) g;
        sdr ← div_count x c';
        base ← map_get sdr0 (dset +:+ "_" +:+ g);
        gender_means dset sdr0 a keys' sisnri (<[g := fsub sdr base]> sdri)
      else
        gender_means dset sdr0 a keys' sisnri (<[g := f0]> sdri)
  end.

Record eval_result : Type := EvalResult {
  r_total_loss : F;
  r_total_SDRi : F;
  r_total_SISNRi : F;
  r_gender_SDRi : gmap string F;
  r_gender_SISNRi : gmap string F
}.

(** [Tester.evaluate(loader, dset, dataset, sdr0)] *)
Definition evaluate (loader : list batch) (dset dataset : string)
    (sdr0 : gmap string F) : result eval_result :=
  a ← eval_loader dataset acc0 loader;
  tl ← div_count (total_loss a) (total_cnt a);
  ts ← div_count (total_SISNRi a) (total_cnt a);
  sdri ← (if compute_sdr then
            t ← div_count (total_SDR a) (total_cnt a);
            base ← map_get sdr0 dset;
            Ok (fsub t base)
          else Ok f0);
  '(gsi, gsdri) ← gender_means dset sdr0 a gs (gender_SISNRi a) ∅;
  Ok (EvalResult tl sdri ts gsdri gsi).

(** How many examples of [l] the mapper puts in category [g]. *)
Definition in_gender (dataset g : string) (l : list example) : nat :=
  length (filter (fun x => g_mapper (e_uid x) dataset = g) l).

(** The same count over a whole loader. *)
Definition gender_count (dataset : string) (loader : list batch)
    (g : string) : nat :=
  in_gender dataset g (concat (b_examples <$> loader)).

End Evaluate.
End WithFloat.
Arguments example F : clear implicits.
Arguments batch F : clear implicits.
Arguments acc F : clear implicits.
Arguments eval_result F : clear implicits.
End TestBaseline.

(** ** Checkpoint records and models shared by the training loops *)
Module Ckpt.
(** A [state_dict]: parameter name to value. *)
Abbreviation state_dict F := (gmap string F).

Section WithFloat.
Context {F : Type} `{FloatOps F}.

(** The values an [info_dict] holds. *)
Inductive ckval : Type :=
| VInt (z : Z)
| VState (sd : state_dict F)
| VOptim (o : nat)
| VScore (x : F)
| VConfig.

(** The checkpoint files [torch.load] can read. *)
Definition store : Type := string -> option (gmap string ckval).

Definition torch_load (st : store) (path : string)
    : result (gmap string ckval) :=
  match st path with
  | Some d => Ok d
  | None => Raise (IOError path)
  end.

Definition as_int (v : ckval) : result Z :=
  match v with VInt z => Ok z | _ => Raise TypeError end.

Definition as_state (v : ckval) : result (state_dict F) :=
  match v with VState sd => Ok sd | _ => Raise TypeError end.

Definition as_optim (v : ckval) : result nat :=
  match v with VOptim o => Ok o | _ => Raise TypeError end.

Inductive module_name : Type := Encoder | Separator | Decoder.

(** One parameter of a network; the tensor is one entry of [F]. *)
Record param : Type := Param {
  p_name : string;
  p_module : module_name;
  p_value : F;
  requires_grad : bool;
  grad : option F
}.

Definition module_eqb (a b : module_name) : bool :=
  match a, b with
  | Encoder, Encoder | Separator, Separator | Decoder, Decoder => true
  | _, _ => false
  end.

(** [model.load_state_dict(sd, strict)] *)
Definition load_state_dict (strict : bool) (sd : state_dict F)
    (ps : list param) : result (list param) :=
  let known := forallb (fun p => bool_decide (is_Some (sd !! p_name p))) ps in
  let expected :=
    bool_decide (dom sd ⊆ list_to_set (C := gset string) (p_name <$> ps)) in
  if strict && negb (known && expected)
  then Raise (RuntimeError "Error(s) in loading state_dict")
  else Ok ((fun p =>
              match sd !! p_name p with
              | Some v => Param (p_name p) (p_module p) v
                            (requires_grad p) (grad p)
              | None => p
              end) <$> ps).

End WithFloat.
Arguments ckval F : clear implicits.
Arguments store F : clear implicits.
Arguments param F : clear implicits.

(** What [torch.load(path)] returns: the checkpoint record. *)
Abbreviation info_dict F := (gmap string (ckval F)).
End Ckpt.
Import Ckpt.

(** ** src/train_cmvn.py *)
Module TrainCmvn.
Section WithFloat.
Context {F : Type} `{FloatOps F}.

Record config : Type := Config {
  c_epochs : Z;
  c_start_epoch : Z;
  c_save_freq : Z;
  c_pretrained : string;
  c_resume_optim : bool;
  c_optim_type : string;
  c_root : string                (* config['data'][f'{d}_root'] *)
}.

Record trainer : Type := Trainer {
  resume_model : bool;
  save_dir : string;
  epochs : Z;
  start_epoch : Z;
  save_freq : Z;
  step : Z;
  model : list (param F);
  norm_stat : option (list F * list F);       (* set by [set_mv] *)
  opt : option nat;                           (* loaded optimizer state *)
  dash_epoch : option Z;                      (* [writer.set_epoch] *)
  dash_step : option Z                        (* [writer.set_step] *)
}.

(** The state [__init__] has built when it calls [set_model]. *)
Definition init_trainer (cfg : config) (resume : bool) (dir : string)
    (net : list (param F)) : trainer :=
  Trainer resume dir (c_epochs cfg) (c_start_epoch cfg) (c_save_freq cfg)
    0 net None None None None.

(** [freeze_module(m)]: lines 274-276. *)
Definition freeze_module (md : module_name) (ps : list (param F))
    : list (param F) :=
  (fun p => if module_eqb (p_module p) md
            then Param (p_name p) (p_module p) (p_value p) false (grad p)
            else p) <$> ps.

(** Lines 204-228: the resume block. *)
Definition resume_block (cfg : config) (st : store F) (t : trainer)
    : result (trainer * option nat) :=
  if resume_model t then
    info ← torch_load st (path_join (save_dir t) "latest.pth");
    _ ← map_get info "valid_score";
    e ← map_get info "epoch" ≫= as_int;
    let start_epoch := e + 1 in
    stp ← (match info !! "step" with
           | Some v => as_int v
           | None => Ok (step t)
           end);
    sd ← map_get info "state_dict" ≫= as_state;
    m ← load_state_dict true sd (model t);
    optim_dict ← (if c_resume_optim cfg
                  then o ← map_get info "optim" ≫= as_optim; Ok (Some o)
                  else Ok None);
    Ok (Trainer (resume_model t) (save_dir t) (epochs t) start_epoch
          (save_freq t) stp m (norm_stat t) (opt t)
          (Some (start_epoch + 1)) (Some (stp + 1)),
        optim_dict)
  else Ok (t, None).

(** [Trainer.set_model] *)
Definition set_model (cfg : config) (st : store F) (t : trainer)
    : result trainer :=
  t ← (if String.eqb (c_pretrained cfg) "" then Raise SystemExit
       else
         info ← torch_load st (c_pretrained cfg);
         sd ← map_get info "state_dict" ≫= as_state;
         m ← load_state_dict false sd (model t);
         _ ← map_get info "valid_score";
         Ok (Trainer (resume_model t) (save_dir t) (epochs t)
               (start_epoch t) (save_freq t) (step t) m (norm_stat t)
               (opt t) (dash_epoch t) (dash_step t)));
  '(t, optim_dict) ← resume_block cfg st t;
  _ ← (if bool_decide (c_optim_type cfg ∈ ["SGD"; "Adam"; "ranger"])
       then Ok tt else Raise SystemExit);
  let m := freeze_module Decoder (freeze_module Encoder (model t)) in
  Ok (Trainer (resume_model t) (save_dir t) (epochs t) (start_epoch t)
        (save_freq t) (step t) m (norm_stat t)
        (match optim_dict with Some o => Some o | None => opt t end)
        (dash_epoch t) (dash_step t)).

(** *** The feature-statistics pass *)

(** [x.mean(dim = -1)] on one row. *)
Definition row_mean (r : list F) : F :=
  fdiv (fsum r) (f_of_nat (length r)).

(** [spec.size(-1)] of a [N, T] tensor kept as [N] rows. *)
Definition size_last (spec : list (list F)) : nat :=
  match spec with
  | [] => O
  | r :: _ => length r
  end.

(** [torch.stack(rows, dim = 0)]: the rows must agree in shape. *)
Definition stack (rows : list (list F)) : result (list (list F)) :=
  match rows with
  | [] => Raise (RuntimeError "stack expects a non-empty TensorList")
  | r :: _ =>
      if forallb (fun r' => (length r' =? length r)%nat) rows
      then Ok rows
      else Raise (RuntimeError "stack expects each tensor to be equal size")
  end.

(** [t.sum(dim = 0)] of a [U, N] tensor. *)
Definition sum_dim0 (rows : list (list F)) : list F :=
  foldl (zip_with fadd) (replicate (size_last rows) f0) rows.

(** Lines 336-339 and 357-360:
    [(mm * ss.unsqueeze(-1)).sum(dim = 0) / ss.sum()]. *)
Definition weighted (stats : list (list F * nat)) : result (list F) :=
  match stats with
  | [] => Raise (ValueError "not enough values to unpack")
  | _ =>
      mm ← stack (fst <$> stats);
      let ss := (fun s => f_of_nat (snd s)) <$> stats in
      let scaled := zip_with (fun (r : list F) (w : F) => (fun x : F => fmul x w) <$> r) mm ss in
      Ok ((fun x : F => fdiv x (fsum ss)) <$> sum_dim0 scaled)
  end.

(** [(spec - m.unsqueeze(-1))] : row [c] minus entry [c] of [m], a
    single row or a single entry being broadcast. *)
Definition sub_rows (spec : list (list F)) (m : list F)
    : result (list (list F)) :=
  if (length spec =? length m)%nat || (length m =? 1)%nat then
    Ok (imap (fun (c : nat) (r : list F) =>
                let mc := default f0 (if (length m =? 1)%nat
                                      then m !! O else m !! c) in
                (fun x : F => fsub x mc) <$> r) spec)
  else match spec with
       | [r] => Ok ((fun mc : F => (fun x : F => fsub x mc) <$> r) <$> m)
       | _ => Raise (RuntimeError "The size of tensor a must match the size of tensor b")
       end.

(** The frame-count-weighted average the specification describes: each
    value counts with the number of frames of its utterance. *)
Definition weighted_average (xs : list (F * nat)) : F :=
  fdiv (fsum ((fun xw : F * nat => fmul xw.1 (f_of_nat xw.2)) <$> xs))
       (fsum ((fun xw : F * nat => f_of_nat xw.2) <$> xs)).

(** The squared deviation of one feature from a fixed mean. *)
Definition sq_dev (mean x : F) : F := fmul (fsub x mean) (fsub x mean).

(** Entry [c] of a row. *)
Definition column (c : nat) (r : list F) : F := default f0 (r !! c).

(** Channel [c] of an encoded utterance. *)
Definition channel (spec : list (list F)) (c : nat) : list F :=
  default [] (spec !! c).

(** What the second pass keeps for the utterance [spec], against the
    mean [m]: its number of frames and, per channel, the mean squared
    deviation from the entry of [m] for that channel. *)
Definition second_entry (m : list F) (s : list F * nat)
    (spec : list (list F)) : Prop :=
  s.2 = size_last spec /\
  length s.1 = length spec /\
  forall (c : nat) (mc : F) (r : list F),
    m !! c = Some mc -> spec !! c = Some r ->
    s.1 !! c = Some (row_mean (sq_dev mc <$> r)).

(** The parameters [freeze_module] is applied to. *)
Definition is_frozen (p : param F) : bool :=
  module_eqb (p_module p) Encoder || module_eqb (p_module p) Decoder.

Section Stat.
Variable encoder : list (param F) -> list F -> list (list F).
Variable fs : Dataset.disk F.

(** Reading and encoding one utterance: lines 322-331. *)
Definition encode_utt (t : trainer) (root : string) (u : Dataset.utt)
    : result (list (list F)) :=
  e ← map_get u "mix";
  audio ← Dataset.sf_read fs (path_join root e.1);
  Ok (encoder (model t) audio).

(** The encoder features of every utterance of the training list. *)
Fixpoint encode_all (t : trainer) (root : string) (l : Dataset.manifest)
    : result (list (list (list F))) :=
  match l with
  | [] => Ok []
  | (_, u) :: l' =>
      spec ← encode_utt t root u;
      rest ← encode_all t root l';
      Ok (spec :: rest)
  end.

Fixpoint first_pass (t : trainer) (root : string) (l : Dataset.manifest)
    : result (list (list F * nat)) :=
  match l with
  | [] => Ok []
  | (_, u) :: l' =>
      spec ← encode_utt t root u;
      rest ← first_pass t root l';
      Ok ((row_mean <$> spec, size_last spec) :: rest)
  end.

Fixpoint second_pass (t : trainer) (root : string) (m : list F)
    (l : Dataset.manifest) : result (list (list F * nat)) :=
  match l with
  | [] => Ok []
  | (_, u) :: l' =>
      spec ← encode_utt t root u;
      d ← sub_rows spec m;
      let v := (fun r : list F => row_mean ((fun x : F => fmul x x) <$> r))
                 <$> (d : list (list F)) in
      rest ← second_pass t root m l';
      Ok ((v, size_last spec) :: rest)
  end.

(** [Trainer.comp_norm_stat] *)
Definition comp_norm_stat (cfg : config) (tr_list : Dataset.manifest)
    (t : trainer) : result trainer :=
  mean ← first_pass t (c_root cfg) tr_list;
  m ← weighted mean;
  var ← second_pass t (c_root cfg) m tr_list;
  v ← weighted var;
  Ok (Trainer (resume_model t) (save_dir t) (epochs t) (start_epoch t)
        (save_freq t) (step t) (model t) (Some (m, v)) (opt t)
        (dash_epoch t) (dash_step t)).
End Stat.

(** *** Validation *)

(** One batch of the held-out loader with what [cal_loss] and [SISNR]
    return for it: the loss and, per example, the utterance id and the
    entry of [max_sisnri]. *)
Record vbatch : Type := VBatch {
  vb_loss : F;
  vb_items : list (string * F)
}.

Record vacc : Type := VAcc {
  total_loss : F;
  total_sisnri : F;
  cnt : nat;
  gender_sisnri : gmap string F;
  gender_cnt : gmap string nat
}.

Definition genders : list string := ["MF"; "MM"; "FF"].

Definition vacc0 : vacc :=
  VAcc f0 f0 O (Gender.zeros ["MF"; "FF"; "MM"])
    (Gender.zero_counts ["MF"; "FF"; "MM"]).

Record valid_out : Type := ValidOut {
  v_meta : list (string * F);
  v_saved : list string          (* names handed to the saver *)
}.

Section Valid.
Variable gender_mapper : string -> string -> string.

(** Lines 444-447. *)
Fixpoint valid_items (dset : string) (a : vacc) (l : list (string * F))
    : result vacc :=
  match l with
  | [] => Ok a
  | (u, x) :: l' =>
      let g := gender_mapper u dset in
      gsi ← Gender.dict_add (gender_sisnri a) g x;
      gc ← Gender.dict_incr (gender_cnt a) g;
      valid_items dset
        (VAcc (total_loss a) (total_sisnri a) (cnt a) gsi gc) l'
  end.

(** Lines 420-447. *)
Definition valid_batch (dset : string) (a : vacc) (b : vbatch)
    : result vacc :=
  let B := length (vb_items b) in
  let a1 := VAcc (fadd (total_loss a) (fmul (vb_loss b) (f_of_nat B)))
              (fadd (total_sisnri a) (fsum (snd <$> vb_items b)))
              (cnt a + B)%nat (gender_sisnri a) (gender_cnt a) in
  valid_items dset a1 (vb_items b).

Fixpoint valid_loader (dset : string) (a : vacc) (l : list vbatch)
    : result vacc :=
  match l with
  | [] => Ok a
  | b :: l' => a' ← valid_batch dset a b; valid_loader dset a' l'
  end.

(** Lines 455-457. *)
Fixpoint gender_meta (prefix : string) (a : vacc) (keys : list string)
    (meta : list (string * F)) : result (list (string * F)) :=
  match keys with
  | [] => Ok meta
  | g :: keys' =>
      s ← map_get (gender_sisnri a) g;
      c ← map_get (gender_cnt a) g;
      q ← div_count s c;
      gender_meta prefix a keys'
        (meta ++ [(prefix +:+ "_epoch_" +:+ g +:+ "_sisnri", q)])
  end.

(** [Trainer.valid] *)
Definition valid (loader : list vbatch) (dset : string) (epoch : Z)
    (no_save : bool) (prefix : string) (force_save : bool)
    : result valid_out :=
  a ← valid_loader dset vacc0 loader;
  ts ← div_count (total_sisnri a) (cnt a);
  tl ← div_count (total_loss a) (cnt a);
  let meta := [(prefix +:+ "_epoch_loss", tl);
               (prefix +:+ "_epoch_sisnri", ts)] in
  meta ← gender_meta prefix a genders meta;
  if no_save then Ok (ValidOut meta [])
  else
    Ok (ValidOut meta
          ([pretty epoch +:+ ".pth"]
           ++ (if force_save then [pretty epoch +:+ "_force.pth"] else [])
           ++ ["latest.pth"])).

(** How many items of [l] the mapper puts in category [g]. *)
Definition in_gender (dset g : string) (l : list (string * F)) : nat :=
  length (filter (fun it => gender_mapper it.1 dset = g) l).

Definition gender_count (dset : string) (loader : list vbatch)
    (g : string) : nat :=
  in_gender dset g (concat (vb_items <$> loader)).
End Valid.

(** *** Training *)
Section Train.
Variable TB : Type.                         (* a training batch *)
(** [loss.backward()] followed by [clip_grad_norm_]: the loss and the
    gradient of every parameter that takes part. *)
Variable backward : list (param F) -> TB -> F * (string -> F).
(** The update rule of the optimizer. *)
Variable upd : F -> F -> F.

(** [self.opt.zero_grad(); loss.backward()]: only parameters with
    [requires_grad] receive a gradient. *)
Definition store_grad (g : string -> F) (p : param F) : param F :=
  if requires_grad p
  then Param (p_name p) (p_module p) (p_value p) true (Some (g (p_name p)))
  else p.

(** [self.opt.step()]: parameters without gradient are skipped. *)
Definition opt_step (p : param F) : param F :=
  match grad p with
  | Some g => Param (p_name p) (p_module p) (upd (p_value p) g)
                (requires_grad p) (grad p)
  | None => p
  end.

(** Lines 373-400: one iteration of the loop over [tr_loader]. *)
Definition train_batch (t : trainer) (b : TB) : trainer :=
  let '(_, g) := backward (model t) b in
  let m := opt_step <$> (store_grad g <$> model t) in
  Trainer (resume_model t) (save_dir t) (epochs t) (start_epoch t)
    (save_freq t) (step t + 1) m (norm_stat t) (opt t)
    (dash_epoch t) (dash_step t).

(** [Trainer.train_one_epoch] *)
Definition train_one_epoch (t : trainer) (tr_loader : list TB) : trainer :=
  foldl train_batch t tr_loader.

Variable gender_mapper : string -> string -> string.
Variable encoder : list (param F) -> list F -> list (list F).
Variable fs : Dataset.disk F.
(** The batches of the training loader in a given epoch. *)
Variable tr_loader : Z -> list TB.
(** The held-out loader as the current model scores it. *)
Variable cv_eval : trainer -> list vbatch.

(** The body of the loop over epochs: lines 288-302. *)
Definition exec_epoch (dset : string) (st : trainer * list (Z * valid_out))
    (epoch : Z) : result (trainer * list (Z * valid_out)) :=
  let '(t, log) := st in
  let t := train_one_epoch t (tr_loader epoch) in
  let force_save :=
    (save_freq t >? 0) && ((epoch + 1) mod save_freq t =? 0) in
  v ← valid gender_mapper (cv_eval t) dset epoch false dset force_save;
  Ok (t, log ++ [(epoch, v)]).

Fixpoint exec_epochs (dset : string) (st : trainer * list (Z * valid_out))
    (l : list Z) : result (trainer * list (Z * valid_out)) :=
  match l with
  | [] => Ok st
  | e :: l' => st' ← exec_epoch dset st e; exec_epochs dset st' l'
  end.

(** [Trainer.exec] *)
Definition exec (cfg : config) (dset : string)
    (tr_list : Dataset.manifest) (t : trainer)
    : result (trainer * list (Z * valid_out)) :=
  t ← comp_norm_stat encoder fs cfg tr_list t;
  exec_epochs dset (t, []) (range2 (start_epoch t) (epochs t)).

(** The epochs [exec] runs, in order. *)
Definition epochs_run (t : trainer) : list Z :=
  range2 (start_epoch t) (epochs t).
End Train.

End WithFloat.
Arguments trainer F : clear implicits.
Arguments vbatch F : clear implicits.
Arguments vacc F : clear implicits.
Arguments valid_out F : clear implicits.
End TrainCmvn.

(** ** Tensor operations used by the adversarial loops *)
Module Tensor.
Section WithFloat.
Context {F : Type} `{FloatOps F}.

(** [y1, y2 = torch.chunk(x, 2, dim = 0)]: pieces of [ceil(B / 2)]
    rows; a single piece cannot be unpacked into two names. *)
Definition chunk2 {A} (x : list A) : result (list A * list A) :=
  match x with
  | [] => Ok ([], [])
  | _ =>
      let cs := ((length x + 1) / 2)%nat in
      match drop cs x with
      | [] => Raise (ValueError "not enough values to unpack (expected 2, got 1)")
      | y2 => Ok (take cs x, y2)
      end
  end.

(** Entry-wise sum of two [C, T] slices. *)
Definition add2 (a b : list (list F)) : list (list F) :=
  zip_with (zip_with fadd) a b.

(** [y1 + y2] on [*, C, T] tensors, broadcasting along [dim 0]. *)
Definition add3 (y1 y2 : list (list (list F)))
    : result (list (list (list F))) :=
  if (length y1 =? length y2)%nat then Ok (zip_with add2 y1 y2)
  else match y1, y2 with
       | _, [e] => Ok ((fun a : list (list F) => add2 a e) <$> y1)
       | [e], _ => Ok ((fun b : list (list F) => add2 e b) <$> y2)
       | _, _ => Raise (RuntimeError "The size of tensor a must match the size of tensor b")
       end.

(** [t.view(-1, T)] on a [*, C, T] tensor. *)
Definition view2 (t : list (list (list F))) : list (list F) := concat t.

(** [y.flip(dims = [1])] *)
Definition flip1 (y : list (list (list F))) : list (list (list F)) :=
  reverse <$> y.

(** The remix the specification describes: row [j] is the sum of the two
    estimated sources of example [j]. *)
Definition own_sources_remix (estimate_source : list (list (list F)))
    : list (list F) :=
  (fun ex : list (list F) =>
     zip_with fadd (default [] (ex !! O)) (default [] (ex !! 1%nat)))
  <$> estimate_source.

(** Lines 199-201 and 245-246 of train_uns.py. *)
Definition remix_of (estimate_source : list (list (list F)))
    : result (list (list F)) :=
  '(y1, y2) ← chunk2 estimate_source;
  r ← add3 y1 y2;
  Ok (view2 r).

End WithFloat.
End Tensor.

(** ** src/train_uns.py *)
Module TrainUns.
Section WithFloat.
Context {F : Type} `{FloatOps F}.

Record config : Type := Config {
  c_total_steps : Z;
  c_start_step : Z;
  c_valid_step : Z;
  c_g_iters : nat;
  c_d_iters : nat;
  c_Lc_lambda : F;
  c_Le_lambda : F;
  c_resume : string;
  c_resume_optim : bool
}.

Record trainer : Type := Trainer {
  total_steps : Z;
  start_step : Z;
  valid_step : Z;
  valid_time : Z;
  g_iters : nat;
  d_iters : nat;
  Lc_lambda : F;
  Le_lambda : F;
  start_epoch : option Z;            (* assigned on resume only *)
  G : state_dict F;
  D : state_dict F;
  g_optim : nat;
  d_optim : nat;
  gen_pos : nat;                     (* draws taken from [data_gen] *)
  tr_loader_len : nat;               (* [len(self.tr_loader)] *)
  stdout : list string;
  writer : list (string * F * Z);
  saved : list (string * F * info_dict F)   (* handed to the saver *)
}.

Definition init_trainer (cfg : config) (g d : state_dict F) (n : nat)
    : trainer :=
  Trainer (c_total_steps cfg) (c_start_step cfg) (c_valid_step cfg) 0
    (c_g_iters cfg) (c_d_iters cfg) (c_Lc_lambda cfg) (c_Le_lambda cfg)
    None g d O O O n [] [] [].

(** [net.load_state_dict(sd)] on a network kept as its state. *)
Definition load_net (sd net : state_dict F) : result (state_dict F) :=
  if bool_decide (dom sd = dom net) then Ok sd
  else Raise (RuntimeError "Error(s) in loading state_dict").

(** [Trainer.set_model]: lines 133-154. *)
Definition set_model (cfg : config) (st : store F) (t : trainer)
    : result trainer :=
  if String.eqb (c_resume cfg) "" then Ok t
  else
    info ← torch_load st (c_resume cfg);
    _ ← map_get info "valid_score";
    e ← map_get info "epoch" ≫= as_int;
    gsd ← map_get info "state_dict" ≫= as_state;
    g ← load_net gsd (G t);
    dsd ← map_get info "D_state_dict" ≫= as_state;
    d ← load_net dsd (D t);
    o ← (if c_resume_optim cfg then
           go ← map_get info "g_optim" ≫= as_optim;
           do ← map_get info "d_optim" ≫= as_optim;
           Ok (go, do)
         else Ok (g_optim t, d_optim t));
    Ok (Trainer (total_steps t) (start_step t) (valid_step t) (valid_time t)
          (g_iters t) (d_iters t) (Lc_lambda t) (Le_lambda t)
          (Some (e + 1)) g d o.1 o.2 (gen_pos t) (tr_loader_len t)
          (stdout t) (writer t) (saved t)).

Definition nan_message (step : Z) : string :=
  "Error : grad norm is NaN @ step " +:+ pretty step.

(** What the guard of lines 222-225 makes of an optimizer and of the
    standard output: on a NaN norm the state is kept and the message
    printed, on any other norm the state is the stepped one. *)
Definition guard_outcome {S : Type} (grad_norm : pyfloat F) (step : Z)
    (before stepped after : S) (out out' : list string) : Prop :=
  if isnan grad_norm
  then after = before /\ out' = out ++ [nan_message step]
  else after = stepped /\ out' = out.

(** What the generator pass of one iteration produces. *)
Record gen_feedback : Type := GenFeedback {
  gf_g_loss : F;
  gf_gan_loss : F;
  gf_Le : F;
  gf_Lc : F;
  gf_grad_norm : pyfloat F
}.

Section Loop.
  (** The stream [self.data_gen] yields ([sample['mix']] of each draw). *)
Variable data_gen : nat -> list (list F).
(** [self.G(padded_mixture)] *)
Variable G_forward : state_dict F -> list (list F) -> list (list (list F)).
(** The hinge loss of the discriminator on (remix, real mixture) and
    the norm [clip_grad_norm_] returns after [d_loss.backward()]. *)
Variable dis_backward :
  state_dict F -> list (list F) -> list (list F) -> F * pyfloat F.
(** [self.d_optim.step()] with the gradients of that iteration. *)
Variable d_step :
  state_dict F * nat -> list (list F) -> list (list F) -> state_dict F * nat.
(** The generator losses on (mixture, remix, re-remixes) and the norm
    after [g_loss.backward()]. *)
Variable gen_backward :
  state_dict F -> state_dict F -> list (list F) -> list (list F) ->
  option (list (list F) * list (list F)) -> gen_feedback.
Variable g_step :
  state_dict F * nat -> state_dict F -> list (list F) -> state_dict F * nat.
(** The losses [cal_loss] returns over the held-out loader. *)
Variable cv_losses : state_dict F -> list F.

Definition set_dis (t : trainer) (d : state_dict F * nat) (pos : nat)
    (out : list string) : trainer :=
  Trainer (total_steps t) (start_step t) (valid_step t) (valid_time t)
    (g_iters t) (d_iters t) (Lc_lambda t) (Le_lambda t) (start_epoch t)
    (G t) d.1 (g_optim t) d.2 pos (tr_loader_len t) out (writer t)
    (saved t).

Definition set_gen (t : trainer) (g : state_dict F * nat) (pos : nat)
    (out : list string) : trainer :=
  Trainer (total_steps t) (start_step t) (valid_step t) (valid_time t)
    (g_iters t) (d_iters t) (Lc_lambda t) (Le_lambda t) (start_epoch t)
    g.1 (D t) g.2 (d_optim t) pos (tr_loader_len t) out (writer t)
    (saved t).

Definition log_scalar (t : trainer) (tag : string) (v : F) (step : Z)
    : trainer :=
  Trainer (total_steps t) (start_step t) (valid_step t) (valid_time t)
    (g_iters t) (d_iters t) (Lc_lambda t) (Le_lambda t) (start_epoch t)
    (G t) (D t) (g_optim t) (d_optim t) (gen_pos t) (tr_loader_len t)
    (stdout t) (writer t ++ [(tag, v, step)]) (saved t).

(** Lines 190-227: one iteration of the discriminator loop. *)
Definition dis_iter (step : Z) (t : trainer) : result (trainer * F) :=
  let padded_mixture := data_gen (gen_pos t) in
  let estimate_source := G_forward (G t) padded_mixture in
  remix ← Tensor.remix_of estimate_source;
  let real := data_gen (S (gen_pos t)) in
  let '(d_loss, grad_norm) := dis_backward (D t) remix real in
  let pos := S (S (gen_pos t)) in
  if isnan grad_norm
  then Ok (set_dis t (D t, d_optim t) pos
             (stdout t ++ [nan_message step]), d_loss)
  else Ok (set_dis t (d_step (D t, d_optim t) remix real) pos (stdout t),
           d_loss).

Fixpoint dis_iters (n : nat) (step : Z) (t : trainer) (total : F)
    : result (trainer * F) :=
  match n with
  | O => Ok (t, total)
  | S n' =>
      '(t', d_loss) ← dis_iter step t;
      dis_iters n' step t' (fadd total d_loss)
  end.

(** [Trainer.train_dis_once] *)
Definition train_dis_once (step : Z) (t : trainer) : result trainer :=
  '(t', total) ← dis_iters (d_iters t) step t f0;
  total ← div_count total (d_iters t');
  Ok (log_scalar t' "train/d_loss" total step).

(** Lines 257-263: the two re-remixes of the cyclic term, computed only
    when [Lc_lambda > 0]. *)
Definition re_remixes (t : trainer) (remix : list (list F))
    : result (option (list (list F) * list (list F))) :=
  if fltb f0 (Lc_lambda t) then
    '(y1, y2) ← Tensor.chunk2 (G_forward (G t) remix);
    r1 ← Tensor.add3 y1 y2;
    r2 ← Tensor.add3 y1 (Tensor.flip1 y2);
    Ok (Some (Tensor.view2 r1, Tensor.view2 r2))
  else Ok None.

(** Lines 238-280: one iteration of the generator loop. [Lc] stays the
    Python float [0.] unless [Lc_lambda > 0], and a float has no
    [item]. *)
Definition gen_iter (step : Z) (t : trainer)
    : result (trainer * gen_feedback) :=
  let padded_mixture := data_gen (gen_pos t) in
  let estimate_source := G_forward (G t) padded_mixture in
  remix ← Tensor.remix_of estimate_source;
  rr ← re_remixes t remix;
  let fb := gen_backward (G t) (D t) padded_mixture remix rr in
  let pos := S (gen_pos t) in
  let t' := if isnan (gf_grad_norm fb)
            then set_gen t (G t, g_optim t) pos
                   (stdout t ++ [nan_message step])
            else set_gen t (g_step (G t, g_optim t) (D t) padded_mixture)
                   pos (stdout t) in
  match rr with
  | Some _ => Ok (t', fb)
  | None => Raise (AttributeError "item")
  end.

Fixpoint gen_iters (n : nat) (step : Z) (t : trainer) (tot : F * F * F * F)
    : result (trainer * (F * F * F * F)) :=
  match n with
  | O => Ok (t, tot)
  | S n' =>
      '(t', fb) ← gen_iter step t;
      let '(a, b, c, d) := tot in
      gen_iters n' step t'
        (fadd a (gf_g_loss fb), fadd b (gf_gan_loss fb),
         fadd c (gf_Le fb), fadd d (gf_Lc fb))
  end.

(** [Trainer.train_gen_once] *)
Definition train_gen_once (step : Z) (t : trainer) : result trainer :=
  '(t', (a, b, c, d)) ← gen_iters (g_iters t) step t (f0, f0, f0, f0);
  let t' := log_scalar t' "train/total_g_loss" a step in
  let t' := log_scalar t' "train/g_loss" b step in
  let t' := log_scalar t' "train/Le_loss" c step in
  Ok (log_scalar t' "train/Lc_loss" d step).

(** [Trainer.valid(loader, step)]; [losses] are the values
    [loss.item()] over [loader]. *)
Definition valid (losses : list F) (step : Z) (t : trainer)
    : result trainer :=
  let total_loss := foldl fadd f0 losses in
  total_loss ← div_count total_loss (tr_loader_len t);
  let t := log_scalar t "valid/pit_loss" total_loss (valid_time t) in
  let info : info_dict F :=
    <["D_state_dict" := VState (D t)]>
    (<["d_optim" := VOptim (d_optim t)]>
    (<["g_optim" := VOptim (g_optim t)]>
    (<["config" := VConfig]>
    (<["valid_score" := VScore total_loss]>
    (<["step" := VInt step]> ∅))))) in
  Ok (Trainer (total_steps t) (start_step t) (valid_step t)
        (valid_time t + 1) (g_iters t) (d_iters t) (Lc_lambda t)
        (Le_lambda t) (start_epoch t) (G t) (D t) (g_optim t) (d_optim t)
        (gen_pos t) (tr_loader_len t) (stdout t) (writer t)
        (saved t ++ [(pretty step +:+ ".pth", total_loss, info);
                     ("latest.pth", total_loss, info)])).

(** The value [valid] logs and hands to the saver. *)
Definition valid_loss (losses : list F) (t : trainer) : result F :=
  div_count (foldl fadd f0 losses) (tr_loader_len t).

(** The mean the specification describes: the accumulated loss over the
    number of batches of the held-out loader itself. *)
Definition held_out_mean (losses : list F) : result F :=
  div_count (foldl fadd f0 losses) (length losses).

(** The body of the loop of [exec]: lines 178-184. *)
Definition exec_step (t : trainer) (step : Z) : result trainer :=
  t ← train_dis_once step t;
  t ← train_gen_once step t;
  if valid_step t =? 0 then Raise ZeroDivisionError
  else if (step mod valid_step t =? 0) && negb (step =? 0)
       then valid (cv_losses (G t)) step t
       else Ok t.

Fixpoint exec_steps (t : trainer) (l : list Z) : result trainer :=
  match l with
  | [] => Ok t
  | s :: l' => t' ← exec_step t s; exec_steps t' l'
  end.

(** The steps [exec] runs, in order. *)
Definition steps_run (t : trainer) : list Z :=
  range2 (start_step t) (total_steps t).

(** [Trainer.exec] *)
Definition exec (t : trainer) : result trainer :=
  exec_steps t (steps_run t).
End Loop.

End WithFloat.
Arguments trainer F : clear implicits.
Arguments config F : clear implicits.
Arguments gen_feedback F : clear implicits.
End TrainUns.

(** ** src/train_dagan.py *)
Module TrainDagan.
Section WithFloat.
Context {F : Type} `{FloatOps F}.

Record config : Type := Config {
  c_total_steps : Z;
  c_start_step : Z;
  c_valid_step : Z;
  c_pretrain_d_step : Z;
  c_g_iters : nat;
  c_d_iters : nat;
  c_adv_loss : string;
  c_gp_lambda : F;
  c_resume : string;
  c_resume_optim : bool
}.

Record trainer : Type := Trainer {
  total_steps : Z;
  start_step : Z;
  valid_step : Z;
  valid_time : Z;
  pretrain_d_step : Z;
  g_iters : nat;
  d_iters : nat;
  adv_loss : string;
  G : state_dict F;
  D : state_dict F;
  g_optim : nat;
  d_optim : nat;
  src_pos : nat;                     (* draws taken from [wsj0_gen] *)
  tgt_pos : nat;                     (* draws taken from [vctk_gen] *)
  stdout : list string;
  writer : list (string * F * Z);
  saved : list (string * F * info_dict F)
}.

Definition init_trainer (cfg : config) (g d : state_dict F) : trainer :=
  Trainer (c_total_steps cfg) (c_start_step cfg) (c_valid_step cfg) 0
    (c_pretrain_d_step cfg) (c_g_iters cfg) (c_d_iters cfg)
    (c_adv_loss cfg) g d O O O O [] [] [].

(** [Trainer.set_model]: lines 189-210. *)
Definition set_model (cfg : config) (st : store F) (t : trainer)
    : result trainer :=
  if String.eqb (c_resume cfg) "" then Ok t
  else
    info ← torch_load st (c_resume cfg);
    _ ← map_get info "valid_score";
    gsd ← map_get info "state_dict" ≫= as_state;
    g ← TrainUns.load_net gsd (G t);
    dsd ← map_get info "D_state_dict" ≫= as_state;
    d ← TrainUns.load_net dsd (D t);
    o ← (if c_resume_optim cfg then
           go ← map_get info "g_optim" ≫= as_optim;
           do ← map_get info "d_optim" ≫= as_optim;
           Ok (go, do)
         else Ok (g_optim t, d_optim t));
    Ok (Trainer (total_steps t) (start_step t) (valid_step t) (valid_time t)
          (pretrain_d_step t) (g_iters t) (d_iters t) (adv_loss t)
          g d o.1 o.2 (src_pos t) (tgt_pos t) (stdout t) (writer t)
          (saved t)).

(** What one adversarial pass computes before the optimizer acts. *)
Record feedback : Type := Feedback {
  fb_loss : F;                       (* [d_loss] / [g_loss] *)
  fb_weighted : F;                   (* [_d_loss] / [_g_loss] *)
  fb_gp : F;
  fb_src_hits : F;  fb_src_numel : nat;  fb_src_acc : F;
  fb_tgt_hits : F;  fb_tgt_numel : nat;  fb_tgt_acc : F;
  fb_grad_norm : pyfloat F
}.

Record tally : Type := Tally {
  ty_loss : F;
  ty_weighted : F;
  ty_gp : F;
  ty_acc : F;
  ty_cnt : nat
}.

Section Loop.
Variable src_gen tgt_gen : nat -> list (list F).
Variable dis_backward :
  string -> Z -> state_dict F -> state_dict F ->
  list (list F) -> list (list F) -> feedback.
Variable d_step :
  state_dict F * nat -> state_dict F ->
  list (list F) -> list (list F) -> state_dict F * nat.
Variable gen_backward :
  string -> Z -> state_dict F -> state_dict F ->
  list (list F) -> list (list F) -> feedback.
Variable g_step :
  state_dict F * nat -> state_dict F ->
  list (list F) -> list (list F) -> state_dict F * nat.
(** [train_sup_once]: the supervised update of the generator. *)
Variable sup_step : state_dict F * nat -> list (list F) -> state_dict F * nat.
(** The held-out loaders as the current networks score them: per
    batch the loss, the mean of [max_snr], the number of domain
    predictions and how many of them are right. *)
Variable cv_eval :
  string -> state_dict F -> state_dict F -> list (F * F * nat * F).

Definition update (t : trainer) (g d : state_dict F * nat)
    (sp tp : nat) (out : list string) (w : list (string * F * Z))
    : trainer :=
  Trainer (total_steps t) (start_step t) (valid_step t) (valid_time t)
    (pretrain_d_step t) (g_iters t) (d_iters t) (adv_loss t)
    g.1 d.1 g.2 d.2 sp tp out w (saved t).

Definition known_adv (a : string) : bool :=
  String.eqb a "wgan-gp" || String.eqb a "gan".

(** Lines 312-372: one iteration of the discriminator loop. *)
Definition dis_iter (step : Z) (prefix : string) (t : trainer) (y : tally)
    : result (trainer * tally) :=
  let src_mixture := src_gen (src_pos t) in
  let tgt_mixture := tgt_gen (tgt_pos t) in
  let fb := dis_backward (adv_loss t) step (D t) (G t)
              src_mixture tgt_mixture in
  if negb (known_adv (adv_loss t)) then Raise (NameError "d_real_loss")
  else
    let gan := String.eqb (adv_loss t) "gan" in
    let w := if gan
             then writer t
                  ++ [("train/" +:+ prefix +:+ "dis_src_domain_acc",
                       fb_src_acc fb, step);
                      ("train/" +:+ prefix +:+ "dis_tgt_domain_acc",
                       fb_tgt_acc fb, step)]
             else writer t in
    let y' := Tally (fadd (ty_loss y) (fb_loss fb))
                (fadd (ty_weighted y) (fb_weighted fb))
                (if gan then ty_gp y else fadd (ty_gp y) (fb_gp fb))
                (if gan
                 then fadd (fadd (ty_acc y) (fb_src_hits fb)) (fb_tgt_hits fb)
                 else ty_acc y)
                (if gan
                 then (ty_cnt y + fb_src_numel fb + fb_tgt_numel fb)%nat
                 else ty_cnt y) in
    let sp := S (src_pos t) in
    let tp := S (tgt_pos t) in
    if isnan (fb_grad_norm fb)
    then Ok (update t (G t, g_optim t) (D t, d_optim t) sp tp
               (stdout t ++ [TrainUns.nan_message step]) w, y')
    else Ok (update t (G t, g_optim t)
               (d_step (D t, d_optim t) (G t) src_mixture tgt_mixture)
               sp tp (stdout t) w, y').

Fixpoint dis_iters (n : nat) (step : Z) (prefix : string) (t : trainer)
    (y : tally) : result (trainer * tally) :=
  match n with
  | O => Ok (t, y)
  | S n' =>
      '(t', y') ← dis_iter step prefix t y;
      dis_iters n' step prefix t' y'
  end.

Definition log_scalar (t : trainer) (tag : string) (v : F) (step : Z)
    : trainer :=
  update t (G t, g_optim t) (D t, d_optim t) (src_pos t) (tgt_pos t)
    (stdout t) (writer t ++ [(tag, v, step)]).

(** [Trainer.train_dis_once] *)
Definition train_dis_once (step : Z) (pretrain : bool) (t : trainer)
    : result trainer :=
  let prefix := if pretrain then "pretrain_" else "" in
  '(t', y) ← dis_iters (d_iters t) step prefix t (Tally f0 f0 f0 f0 O);
  total_d_loss ← div_count (ty_loss y) (d_iters t');
  _ ← div_count (ty_weighted y) (d_iters t');
  total_gp ← div_count (ty_gp y) (d_iters t');
  let t' := log_scalar t' ("train/" +:+ prefix +:+ "d_loss")
              total_d_loss step in
  if String.eqb (adv_loss t') "wgan-gp" then
    Ok (log_scalar t' ("train/" +:+ prefix +:+ "gradient_penalty")
          total_gp step)
  else if String.eqb (adv_loss t') "gan" then
    acc ← div_count (ty_acc y) (ty_cnt y);
    Ok (log_scalar t' ("train/" +:+ prefix +:+ "dis_domain_acc") acc step)
  else Ok t'.

(** Lines 392-441: one iteration of the generator loop. *)
Definition gen_iter (step : Z) (t : trainer) (y : tally)
    : result (trainer * tally) :=
  let src_mixture := src_gen (src_pos t) in
  let tgt_mixture := tgt_gen (tgt_pos t) in
  let fb := gen_backward (adv_loss t) step (G t) (D t)
              src_mixture tgt_mixture in
  if negb (known_adv (adv_loss t)) then Raise (NameError "g_real_loss")
  else
    let gan := String.eqb (adv_loss t) "gan" in
    let sp := S (src_pos t) in
    let tp := S (tgt_pos t) in
    let t' := if isnan (fb_grad_norm fb)
              then update t (G t, g_optim t) (D t, d_optim t) sp tp
                     (stdout t ++ [TrainUns.nan_message step]) (writer t)
              else update t
                     (g_step (G t, g_optim t) (D t) src_mixture tgt_mixture)
                     (D t, d_optim t) sp tp (stdout t) (writer t) in
    Ok (t', Tally (fadd (ty_loss y) (fb_loss fb))
              (fadd (ty_weighted y) (fb_weighted fb)) (ty_gp y)
              (if gan
               then fadd (fadd (ty_acc y) (fb_src_hits fb)) (fb_tgt_hits fb)
               else ty_acc y)
              (if gan
               then (ty_cnt y + fb_src_numel fb + fb_tgt_numel fb)%nat
               else ty_cnt y)).

Fixpoint gen_iters (n : nat) (step : Z) (t : trainer) (y : tally)
    : result (trainer * tally) :=
  match n with
  | O => Ok (t, y)
  | S n' => '(t', y') ← gen_iter step t y; gen_iters n' step t' y'
  end.

(** [Trainer.train_gen_once] *)
Definition train_gen_once (step : Z) (t : trainer) : result trainer :=
  '(t', y) ← gen_iters (g_iters t) step t (Tally f0 f0 f0 f0 O);
  total_g_loss ← div_count (ty_loss y) (g_iters t');
  weighted ← div_count (ty_weighted y) (g_iters t');
  let t' := log_scalar t' "train/g_loss" total_g_loss step in
  let t' := log_scalar t' "train/weighted_g_loss" weighted step in
  if String.eqb (adv_loss t') "gan" then
    acc ← div_count (ty_acc y) (ty_cnt y);
    Ok (log_scalar t' "train/gen_domain_acc" acc step)
  else Ok t'.

(** [Trainer.train_sup_once] *)
Definition train_sup_once (step : Z) (t : trainer) : trainer :=
  update t (sup_step (G t, g_optim t) (src_gen (src_pos t)))
    (D t, d_optim t) (S (src_pos t)) (tgt_pos t) (stdout t) (writer t).

(** [Trainer.valid(loader, label)]: the [valid_loss], [valid_snr]
    and [valid_domain_acc] entries of [meta]. *)
Definition valid (loader : list (F * F * nat * F)) (t : trainer)
    : result (F * F * F) :=
  let count := negb (String.eqb (adv_loss t) "wgan-gp") in
  let total_loss := foldl (fun a (b : F * F * nat * F) => fadd a b.1.1.1)
                      f0 loader in
  let total_snr := foldl (fun a (b : F * F * nat * F) => fadd a b.1.1.2)
                     f0 loader in
  let cnt := foldl (fun a (b : F * F * nat * F) =>
                      if count then (a + b.1.2)%nat else a) O loader in
  let domain_acc := foldl (fun a (b : F * F * nat * F) =>
                             if count then fadd a b.2 else a) f0 loader in
  total_loss ← div_count total_loss (length loader);
  total_snr ← div_count total_snr (length loader);
  domain_acc ← div_count domain_acc cnt;
  Ok (total_loss, total_snr, domain_acc).

(** Lines 250-278: validation and saving inside [exec]. *)
Definition validate (step : Z) (t : trainer) : result trainer :=
  wsj0_meta ← valid (cv_eval "wsj0" (G t) (D t)) t;
  vctk_meta ← valid (cv_eval "vctk" (G t) (D t)) t;
  let vt := valid_time t in
  let log (d : string) (m : F * F * F) : list (string * F * Z) :=
    [("valid/" +:+ d +:+ "_valid_loss", m.1.1, vt);
     ("valid/" +:+ d +:+ "_valid_snr", m.1.2, vt);
     ("valid/" +:+ d +:+ "_valid_domain_acc", m.2, vt)] in
  let save_crit := vctk_meta.1.1 in
  let info : info_dict F :=
    <["D_state_dict" := VState (D t)]>
    (<["d_optim" := VOptim (d_optim t)]>
    (<["g_optim" := VOptim (g_optim t)]>
    (<["valid_score" := VScore save_crit]>
    (<["step" := VInt step]> ∅)))) in
  Ok (Trainer (total_steps t) (start_step t) (valid_step t)
        (valid_time t + 1)
        (pretrain_d_step t) (g_iters t) (d_iters t) (adv_loss t)
        (G t) (D t) (g_optim t) (d_optim t) (src_pos t) (tgt_pos t)
        (stdout t)
        (writer t ++ log "wsj0" wsj0_meta ++ log "vctk" vctk_meta)
        (saved t ++ [(pretty step +:+ ".pth", save_crit, info);
                     ("latest.pth", save_crit, info)])).

Definition exec_step (t : trainer) (step : Z) : result trainer :=
  let t := train_sup_once step t in
  t ← train_dis_once step false t;
  t ← train_gen_once step t;
  if valid_step t =? 0 then Raise ZeroDivisionError
  else if (step mod valid_step t =? 0) && negb (step =? 0)
       then validate step t
       else Ok t.

Fixpoint run (body : trainer -> Z -> result trainer) (t : trainer)
    (l : list Z) : result trainer :=
  match l with
  | [] => Ok t
  | s :: l' => t' ← body t s; run body t' l'
  end.

(** The steps of the main loop of [exec], in order. *)
Definition steps_run (t : trainer) : list Z :=
  range2 (start_step t) (total_steps t).

(** [Trainer.exec] *)
Definition exec (t : trainer) : result trainer :=
  t ← run (fun t s => train_dis_once s true t) t
         (range2 0 (pretrain_d_step t));
  run exec_step t (steps_run t).
End Loop.

End WithFloat.
Arguments trainer F : clear implicits.
Arguments config F : clear implicits.
Arguments feedback F : clear implicits.
End TrainDagan.

(** ** src/domain_cls.py *)
Module DomainCls.

  (** Configuration values as YAML loads them, and module-level objects. *)
Inductive pyval : Type :=
| PNone
| PBool (b : bool)
| PInt (z : Z)
| PFloat (q : Q)
| PStr (s : string)
| PList (l : list pyval)
| PDict (d : list (string * pyval))
| PGlobal (name : string).

(** The names bound at module level: the imports (lines 1-4), [acts]
    and the classes the file defines. *)
Definition module_globals : list string :=
  ["torch"; "nn"; "apply_norm"; "TemporalConvNet"; "GlobalLayerNorm"; "EPS";
   "acts"; "AvgLayer"; "LSTMClassifer"; "ConvPatchClassifier";
   "DomainClassifier"; "GLN_2D"; "CDAN_Dis"].

(** The built-in names the file uses. *)
Definition builtins : list string :=
  ["super"; "enumerate"; "len"; "range"; "NotImplementedError"].

(** Name resolution inside a method: locals, then globals, then
    built-ins. *)
Definition resolve (locals : list (string * pyval)) (x : string)
    : result pyval :=
  match assoc x locals with
  | Some v => Ok v
  | None =>
      if bool_decide (x ∈ module_globals ++ builtins) then Ok (PGlobal x)
      else Raise (NameError x)
  end.

(** [d[k]] and [d.get(k, dflt)] on a configuration value. *)
Definition subscript (d : pyval) (k : string) : result pyval :=
  match d with
  | PDict l => dict_get l k
  | _ => Raise TypeError
  end.

Definition get_default (d : pyval) (k : string) (dflt : pyval)
    : result pyval :=
  match d with
  | PDict l => Ok (default dflt (assoc k l))
  | _ => Raise (AttributeError "get")
  end.

Definition iterate (v : pyval) : result (list pyval) :=
  match v with
  | PList l => Ok l
  | PDict d => Ok (PStr <$> d.*1)
  | _ => Raise TypeError
  end.

Definition truthy (v : pyval) : bool :=
  match v with
  | PNone | PBool false | PInt 0 | PStr "" | PList [] | PDict [] => false
  | PFloat q => negb (Qeq_bool q 0)
  | _ => true
  end.

(** The layers the constructors assemble; the [torch.nn] constructors
    and [apply_norm] are recorded with their arguments. *)
Inductive layer : Type :=
| Conv1d (in_channel out_channel kernel stride padding norm_type : pyval)
| GlobalLayerNorm (channel : pyval)
| LeakyReLU
| Act (act : pyval)
| AvgLayer
| Linear (in_features : pyval)
| LSTM (in_dim hidden_size : pyval)
| Dropout (p : pyval)
| LayerNorm (n : pyval).

Inductive network : Type :=
| Sequential (ls : list layer)
| ConvPatch (ls : list layer)
| LSTMNet (rnns drops norms : list layer) (out : layer).

(** The loop of [ConvPatchClassifier.__init__], lines 72-91. *)
Fixpoint conv_patch_layers (norm_type : pyval) (use_layernorm : bool)
    (n : nat) (in_channel : pyval) (l : nat) (layers : list pyval)
    : result (list layer) :=
  match layers with
  | [] => Ok []
  | lconf :: rest =>
      out_channel ← subscript lconf "filters";
      kernel ← subscript lconf "kernel";
      stride ← subscript lconf "stride";
      padding ← get_default lconf "padding" (PInt 0);
      let conv := Conv1d in_channel out_channel kernel stride padding
                    norm_type in
      let last := (l =? n - 1)%nat in
      let norm := if use_layernorm && negb last
                  then [GlobalLayerNorm out_channel] else [] in
      let act := if negb last then [LeakyReLU] else [] in
      more ← conv_patch_layers norm_type use_layernorm n out_channel
                (S l) rest;
      Ok (conv :: norm ++ act ++ more)
  end.

(** [ConvPatchClassifier.__init__] *)
Definition ConvPatchClassifier (B : pyval) (config : pyval)
    : result network :=
  norm_type ← subscript config "norm_type";
  layers ← subscript config "layers";
  use_layernorm ← get_default config "layernorm" (PBool false);
  ls ← iterate layers;
  net ← conv_patch_layers norm_type (truthy use_layernorm) (length ls) B O ls;
  Ok (ConvPatch net).

(** [LSTMClassifer.__init__] *)
Definition LSTMClassifer (B : pyval) (config : pyval) : result network :=
  num_layers ← subscript config "layers";
  hidden_size ← subscript config "hidden_size";
  dropout ← subscript config "dropout";
  n ← (match num_layers with
       | PInt z => Ok z
       | PBool b => Ok (if b then 1 else 0)
       | _ => Raise TypeError
       end);
  twice ← (match hidden_size with
           | PInt h => Ok (PInt (h * 2))
           | PFloat q => Ok (PFloat (q * 2))
           | _ => Raise TypeError
           end);
  let in_dim (l : Z) := if l =? 0 then B else twice in
  Ok (LSTMNet ((fun l => LSTM (in_dim l) hidden_size) <$> range n)
        ((fun _ => Dropout dropout) <$> range n)
        ((fun _ => LayerNorm twice) <$> range n)
        (Linear twice)).

(** The loop of the ['conv'] branch, lines 110-125, under the local
    names bound when it starts. *)
Fixpoint conv_layers (locals : list (string * pyval)) (n : nat)
    (in_channel : pyval) (l : nat) (layers : list pyval)
    : result (list layer * pyval) :=
  match layers with
  | [] => Ok ([], in_channel)
  | lconf :: rest =>
      out_channel ← subscript lconf "filters";
      kernel ← subscript lconf "kernel";
      stride ← subscript lconf "stride";
      norm_type ← resolve locals "norm_type";
      let conv := Conv1d in_channel out_channel kernel stride (PInt 0)
                    norm_type in
      act ← (if negb (l =? n - 1)%nat
             then a ← resolve locals "act"; Ok [Act a]
             else Ok []);
      '(more, final) ← conv_layers locals n out_channel (S l) rest;
      Ok (conv :: act ++ more, final)
  end.

Record classifier : Type := Classifier {
  cls_B : pyval;
  cls_mtype : pyval;
  cls_network : option network       (* [self.network], when assigned *)
}.

Definition is_str (v : pyval) (s : string) : bool :=
  match v with
  | PStr s' => String.eqb s' s
  | _ => false
  end.

(** [DomainClassifier.__init__] *)
Definition DomainClassifier (B : pyval) (config : pyval)
    : result classifier :=
  mtype ← subscript config "type";
  let locals := [("self", PNone); ("B", B); ("config", config);
                 ("mtype", mtype)] in
  net ← (if is_str mtype "conv" then
           let locals := ("network", PList []) :: ("in_channel", B)
                         :: locals in
           _ ← resolve locals "enumerate";
           layers ← resolve locals "layers";
           ls ← iterate layers;
           '(net, in_channel) ← conv_layers locals (length ls) B O ls;
           Ok (Some (Sequential (net ++ [AvgLayer; Linear in_channel])))
         else if is_str mtype "conv-patch" then
           _ ← resolve locals "ConvPatchClassifier";
           n ← ConvPatchClassifier B config;
           Ok (Some n)
         else if is_str mtype "conv2d-patch" then
           _ ← resolve locals "Conv2dClassifier";
           Raise (NameError "Conv2dClassifier")
         else if is_str mtype "LSTM" then
           _ ← resolve locals "LSTMClassifer";
           n ← LSTMClassifer B config;
           Ok (Some n)
         else if is_str mtype "linear" then
           _ ← resolve locals "NotImplementedError";
           Raise NotImplementedError
         else Ok None);
  Ok (Classifier B mtype net).

End DomainCls.

(** ** src/dataset.py: what the training filter keeps *)
Module DatasetAux.

(** The test [utt_len >= self.seg_len] of line 42 on a manifest entry. *)
Definition long_enough (sl : Z) (e : string * Dataset.utt) : bool :=
  match e.2 !! "mix" with
  | Some (_, utt_len) => sl <=? utt_len
  | None => false
  end.

(** The entry [[ uid, uid, -1, -1 ]] of line 44. *)
Definition one_chunk_entry (e : string * Dataset.utt) : Dataset.info :=
  Dataset.MkInfo e.1 e.1 (-1) (-1).

End DatasetAux.

(** ** src/utils.py: [read_config] *)
Module UtilsConfig.
Import DomainCls.

(** [d[k] = v] on a dictionary kept in insertion order: an existing key
    keeps its place, a new one goes last. *)
Fixpoint dict_set (d : list (string * pyval)) (k : string) (v : pyval)
    : list (string * pyval) :=
  match d with
  | [] => [(k, v)]
  | (k', v') :: d' =>
      if String.eqb k k' then (k', v) :: d'
      else (k', v') :: dict_set d' k v
  end.

(** Lines 26-28, the body of the loop after [path] is read: only a
    mapping supports the membership test followed by an item assignment
    under a string key, and only a mapping under ['data'] supports the
    second assignment. *)
Definition set_path (config : pyval) (key : string) (path : pyval)
    : result pyval :=
  match config with
  | PDict c =>
      let c := match assoc "data" c with
               | Some _ => c
               | None => dict_set c "data" (PDict [])
               end in
      data ← dict_get c "data";
      match data with
      | PDict d => Ok (PDict (dict_set c "data" (PDict (dict_set d key path))))
      | _ => Raise TypeError
      end
  | _ => Raise TypeError
  end.

(** The loop [for key in path_conf], lines 24-28. *)
Fixpoint merge (path_conf : list (string * pyval)) (keys : list string)
    (config : pyval) : result pyval :=
  match keys with
  | [] => Ok config
  | key :: keys' =>
      path ← dict_get path_conf key;
      config ← set_path config key path;
      merge path_conf keys' config
  end.

(** [read_config(path, local_path)] on the two documents [yaml.load]
    returns, the second one a mapping. *)
Definition read_config (config : pyval) (path_conf : list (string * pyval))
    : result pyval :=
  merge path_conf path_conf.*1 config.

(** The mapping under ['data'], empty when there is none. *)
Definition data_of (c : list (string * pyval)) : list (string * pyval) :=
  match assoc "data" c with
  | Some (PDict d) => d
  | _ => []
  end.

(** A configuration [read_config] can extend: no ['data'] section yet,
    or one that is a mapping. *)
Definition mergeable (c : list (string * pyval)) : Prop :=
  assoc "data" c = None \/ exists d, assoc "data" c = Some (PDict d).

End UtilsConfig.

(** ** src/test_baseline.py: [Tester.set_model] and [Tester.exec] *)
Module TestBaselineExec.
Import DomainCls.

(** The names bound at module level: the imports (lines 1-20) and the
    class the file defines. *)
Definition module_globals : list string :=
  ["os"; "time"; "yaml"; "json"; "datetime"; "torch"; "tqdm"; "DataLoader";
   "Solver"; "DEV"; "DEBUG"; "NCOL"; "read_scale"; "ConvTasNet"; "cal_loss";
   "wsj0_eval"; "wham_eval"; "cal_SDR"; "cal_SISNRi"; "remove_pad";
   "load_mix_sdr"; "GenderMapper"; "Tester"].

(** Resolution of a name that is no local and no built-in. *)
Definition resolve (x : string) : result pyval :=
  if bool_decide (x ∈ module_globals) then Ok (PGlobal x)
  else Raise (NameError x).

Section WithFloat.
Context {F : Type} `{FloatOps F}.

(** [Tester.set_model(state_dict)]; [ConvTasNet] builds the network
    from the model section of the training configuration. *)
Definition set_model (ConvTasNet : pyval -> list (param F))
    (tr_config : pyval) (sd : state_dict F) : result (list (param F)) :=
  mconf ← subscript tr_config "model";
  model_type ← get_default mconf "type" (PStr "convtasnet");
  net ← (if is_str model_type "adanet" then
           _ ← resolve "ADANet"; Raise (NameError "ADANet")
         else if is_str model_type "slim" then
           _ ← resolve "MyConvTasNet"; Raise (NameError "MyConvTasNet")
         else
           _ ← resolve "ConvTasNet"; Ok (ConvTasNet mconf));
  load_state_dict true sd net.

Definition splts : list string := ["cv"; "tt"].

(** Lines 133-138: the keys asked of [load_mix_sdr]. *)
Definition sdr_keys : list string :=
  splts ++ concat ((fun splt : string =>
                      (fun g : string => splt +:+ "_" +:+ g)
                      <$> TestBaseline.gs) <$> splts).

(** What [result_dict] holds under a key. *)
Inductive entry : Type :=
| DsetResult (cv tt : TestBaseline.eval_result F)
| TrConfig.

Section Exec.
Variable g_mapper : string -> string -> string.
Variable compute_sdr : bool.
(** [self.load_dset(dset)]: the two loaders as the model scores them. *)
Variable load_dset :
  string -> result (list (TestBaseline.batch F) * list (TestBaseline.batch F)).
Variable load_mix_sdr : string -> list string -> gmap string F.

(** The loop over [dsets], lines 140-150. *)
Fixpoint exec_dsets (dsets : list string) (result_dict : gmap string entry)
    : result (gmap string entry) :=
  match dsets with
  | [] => Ok result_dict
  | dset :: rest =>
      loaders ← load_dset dset;
      let sdr0 := load_mix_sdr ("./data/" +:+ dset +:+ "/mix_sdr/") sdr_keys in
      r_cv ← TestBaseline.evaluate g_mapper compute_sdr loaders.1 "cv" dset sdr0;
      r_tt ← TestBaseline.evaluate g_mapper compute_sdr loaders.2 "tt" dset sdr0;
      exec_dsets rest (<[dset := DsetResult r_cv r_tt]> result_dict)
  end.

(** [Tester.exec]: the dictionary written to [result.json]. *)
Definition exec (dsets : list string) : result (gmap string entry) :=
  result_dict ← exec_dsets dsets ∅;
  Ok (<["tr_config" := TrConfig]> result_dict).

(** The SI-SNRi values of the examples of category [g], in the order
    the loader serves them. *)
Definition gender_sisnri (dataset g : string)
    (loader : list (TestBaseline.batch F)) : list F :=
  TestBaseline.e_sisnri
  <$> filter (fun x => g_mapper (TestBaseline.e_uid x) dataset = g)
        (concat (TestBaseline.b_examples <$> loader)).

(** The SDR values of the same examples. *)
Definition gender_sdr (dataset g : string)
    (loader : list (TestBaseline.batch F)) : list F :=
  TestBaseline.e_sdr
  <$> filter (fun x => g_mapper (TestBaseline.e_uid x) dataset = g)
        (concat (TestBaseline.b_examples <$> loader)).
End Exec.
End WithFloat.
Arguments entry F : clear implicits.
End TestBaselineExec.

(** ** src/train_dagan.py: [Trainer.set_optim] *)
Module DaganOptim.
Import DomainCls.

(** The names bound at module level: the imports (lines 1-26) and the
    class the file defines. *)
Definition module_globals : list string :=
  ["os"; "time"; "yaml"; "math"; "random"; "datetime"; "np"; "torch"; "nn";
   "F"; "tqdm"; "SummaryWriter"; "DataLoader"; "Solver"; "Saver"; "DEV";
   "DEBUG"; "NCOL"; "inf_data_gen"; "ConvTasNet"; "DAConvTasNet";
   "DomainClassifier"; "cal_loss"; "cal_norm"; "wsj0"; "VCTK";
   "RampScheduler"; "ConstantScheduler"; "DANNScheduler";
   "calc_gradient_penalty"; "Trainer"].

(** Name resolution inside [set_optim]: locals, then globals. *)
Definition resolve (locals : list (string * pyval)) (x : string)
    : result pyval :=
  match assoc x locals with
  | Some v => Ok v
  | None =>
      if bool_decide (x ∈ module_globals) then Ok (PGlobal x)
      else Raise (NameError x)
  end.

(** The optimizer constructed, with the arguments it is given. *)
Inductive optimizer : Type :=
| SGD (lr momentum weight_decay : pyval)
| Adam (lr weight_decay : pyval).

(** [Trainer.set_optim(models, opt_config)]: lines 135-165. *)
Definition set_optim (models : pyval) (opt_config : pyval)
    : result optimizer :=
  lr ← subscript opt_config "lr";
  weight_decay ← subscript opt_config "weight_decay";
  optim_type ← subscript opt_config "type";
  let locals := [("self", PNone); ("models", models);
                 ("opt_config", opt_config); ("params", PList []);
                 ("lr", lr); ("weight_decay", weight_decay);
                 ("optim_type", optim_type)] in
  if is_str optim_type "SGD" then
    momentum ← subscript opt_config "momentum";
    Ok (SGD lr momentum weight_decay)
  else if is_str optim_type "Adam" then
    Ok (Adam lr weight_decay)
  else if is_str optim_type "ranger" then
    _ ← resolve locals "Ranger";
    _ ← resolve locals "model";
    Raise (NameError "model")
  else Raise SystemExit.

End DaganOptim.

(** ** main.py: the choice of the solver *)
Module Main.

(** Lines 44-72: the module [Solver] is imported from. *)
Definition select_solver (mode : string) (test : bool) : result string :=
  if String.eqb mode "baseline" then
    if negb test then Ok "src.train_baseline" else Ok "src.test_baseline"
  else if String.eqb mode "dagan" then
    if negb test then Ok "src.train_dagan" else Ok "src.test_dagan"
  else if String.eqb mode "pimt" then Ok "src.train_pimt"
  else if String.eqb mode "freeze" then Ok "src.train_freeze"
  else if String.eqb mode "perturb" then Ok "src.train_perturb"
  else if String.eqb mode "augm" then Ok "src.train_augm"
  else if String.eqb mode "limit" then Ok "src.train_limit"
  else if String.eqb mode "dacluster" then
    if negb test then Raise SystemExit else Ok "src.test_dacluster"
  else Raise SystemExit.

(** The trainers of this repository [main.py] has no mode for. *)
Definition unreachable_trainers : list string :=
  ["src.train_uns"; "src.train_cmvn"; "src.train_transnorm"].

End Main.

(** ** src/domain_cls.py: the shape of a patch classifier *)
Module ConvPatchShape.
Import DomainCls.

(** Input and output channels of a convolution. *)
Definition conv_io (l : layer) : option (pyval * pyval) :=
  match l with
  | Conv1d i o _ _ _ _ => Some (i, o)
  | _ => None
  end.

(** The convolutions of a network, in order. *)
Definition convs (net : list layer) : list (pyval * pyval) :=
  omap conv_io net.

(** Every convolution reads what the one before it writes, the first
    one reading [in_channel]. *)
Fixpoint chained (in_channel : pyval) (cs : list (pyval * pyval)) : Prop :=
  match cs with
  | [] => True
  | (i, o) :: cs' => i = in_channel /\ chained o cs'
  end.

Definition is_leaky (l : layer) : bool :=
  match l with LeakyReLU => true | _ => false end.

End ConvPatchShape.

(** ** data/make_mix/create_wsj0vctk_2mix.py: mixing one pair *)
Module MakeMix.
Section WithFloat.
Context {F : Type} `{FloatOps F}.

(** Lines 116-128: bringing the two sources to one length. *)
Definition align (min_max : string) (s1 s2 : list F) : list F * list F :=
  let T1 := length s1 in
  let T2 := length s2 in
  if String.eqb min_max "max" then
    if (T1 <? T2)%nat then (s1 ++ replicate (T2 - T1) f0, s2)
    else if (T2 <? T1)%nat then (s1, s2 ++ replicate (T1 - T2) f0)
    else (s1, s2)
  else
    if (T1 <? T2)%nat then (s1, take T1 s2)
    else if (T2 <? T1)%nat then (take T2 s1, s2)
    else (s1, s2).

(** The length both sources are brought to. *)
Definition common_length (min_max : string) (T1 T2 : nat) : nat :=
  if String.eqb min_max "max" then Nat.max T1 T2 else Nat.min T1 T2.

(** An array cut, or padded with zeros, to [T] samples. *)
Definition fit (T : nat) (s : list F) : list F :=
  take T s ++ replicate (T - length s) f0.

Section Mix.
Variable fabs : F -> F.
(** [np.max], which raises on an empty array. *)
Variable np_max : list F -> result F.
Variable one nine_tenths : F.

(** Lines 111-136 for one pair, from the normalised sources and the
    two gains [10 ** (snr / 20)] to the three arrays written. *)
Definition mix_pair (min_max : string) (w1 w2 : F) (s1 s2 : list F)
    : result (list F * list F * list F) :=
  let s1 := fmul w1 <$> s1 in
  let s2 := fmul w1 <$> s2 in
  let '(s1, s2) := align min_max s1 s2 in
  let mix := zip_with fadd s1 s2 in
  max_amp ← np_max ((fabs <$> s1) ++ (fabs <$> s2) ++ (fabs <$> mix));
  let mix_scaling := fmul (fdiv one max_amp) nine_tenths in
  Ok ((fun x : F => fmul x mix_scaling) <$> s1,
      (fun x : F => fmul x mix_scaling) <$> s2,
      (fun x : F => fmul x mix_scaling) <$> mix).
End Mix.

End WithFloat.
End MakeMix.

(** ** src/train_transnorm.py: [Trainer.change_eval_domain] *)
Module TransNorm.

(** One block of the separator: the domain of its two normalisation
    layers ([net[2]] and [net[3].net[2]]) and the rest of it. *)
Record block (A : Type) : Type := Block {
  norm1_source : bool;
  norm2_source : bool;
  rest : A
}.
Arguments Block {A} _ _ _.
Arguments norm1_source {A} _.
Arguments norm2_source {A} _.
Arguments rest {A} _.

Section Net.
Context {A : Type}.

(** [source_mode()] or [target_mode()] on both layers of a block. *)
Definition set_mode (source : bool) (b : block A) : block A :=
  Block source source (rest b).

(** The position a Python index denotes in a list of length [n]. *)
Definition position (n : nat) (i : Z) : nat :=
  Z.to_nat (if i <? 0 then i + Z.of_nat n else i).

(** The body of the loop, lines 334-346, on
    [self.model.separator.network[2]]. *)
Definition switch (source : bool) (X : Z) (net : list (list (block A)))
    (l : Z) : result (list (list (block A))) :=
  if X =? 0 then Raise ZeroDivisionError
  else
    let r := l / X in
    let x := l mod X in
    row ← Py.getitem net r;
    b ← Py.getitem row x;
    Ok (<[position (length net) r :=
            <[position (length row) x := set_mode source b]> row]> net).

Fixpoint switch_all (source : bool) (X : Z) (net : list (list (block A)))
    (ls : list Z) : result (list (list (block A))) :=
  match ls with
  | [] => Ok net
  | l :: ls' => net' ← switch source X net l; switch_all source X net' ls'
  end.

(** [Trainer.change_eval_domain(source)] *)
Definition change_eval_domain (source : bool) (X R : Z)
    (net : list (list (block A))) : result (list (list (block A))) :=
  switch_all source X net (range (X * R)).

(** The blocks of the first [k] positions, row by row, switched. *)
Definition switched_upto (source : bool) (X : nat) (k : nat)
    (net : list (list (block A))) : list (list (block A)) :=
  imap (fun r row =>
          imap (fun x b => if (r * X + x <? k)%nat
                           then set_mode source b else b) row) net.

End Net.
End TransNorm.

(** ** src/train_cmvn.py: the checkpoints of one epoch *)
Module CmvnNames.

(** The names [Trainer.valid] hands to the saver for [epoch] when it
    is called from [exec] (lines 291-295 and 468-480). *)
Definition saved_names (save_freq epoch : Z) : list string :=
  [pretty epoch +:+ ".pth"]
  ++ (if (save_freq >? 0) && ((epoch + 1) mod save_freq =? 0)
      then [pretty epoch +:+ "_force.pth"] else [])
  ++ ["latest.pth"].

End CmvnNames.

(** ** Concrete inputs used by the examples *)
Module Runs.

  (** One utterance of five samples on disk, its two sources, and the
      manifest that lists it. *)
Definition disk1 : Dataset.disk Q := fun path =>
  if String.eqb path "mix/a.wav" then Some [5; 7; 9; 11; 13]%Q
  else if String.eqb path "s1/a.wav" then Some [1; 2; 3; 4; 5]%Q
  else if String.eqb path "s2/a.wav" then Some [4; 5; 6; 7; 8]%Q
  else None.

Definition utt_a : Dataset.utt :=
  list_to_map [("mix", ("mix/a.wav", 5)); ("s1", ("s1/a.wav", 5));
               ("s2", ("s2/a.wav", 5))].

Definition manifest1 : Dataset.manifest := [("a", utt_a)].

(** The held-out dataset over it with segments of three samples. *)
Definition ds_cv : Dataset.wsj0 Q :=
  Dataset.Wsj0 manifest1 8000 (Some 3) false false
    [Dataset.MkInfo "a" "a_0" 0 3; Dataset.MkInfo "a" "a_1" 3 5] [].

(** The training dataset over it with segments of five samples. *)
Definition ds_tr : Dataset.wsj0 Q :=
  Dataset.Wsj0 manifest1 8000 (Some 5) false true
    [Dataset.MkInfo "a" "a" (-1) (-1)] [].

(** A split whose only example is a male-male mixture, for the
    evaluator and for the validation pass. *)
Definition mapper_mm : string -> string -> string := fun _ _ => "MM".

Definition loader_mm : list (TestBaseline.batch Q) :=
  [TestBaseline.Batch 1%Q [TestBaseline.Example "u1" 4%Q 0%Q]].

Definition vloader_mm : list (TrainCmvn.vbatch Q) :=
  [TrainCmvn.VBatch 1%Q [("u1", 4%Q)]].

(** A batch of two mixtures, the estimates a generator returns for it,
    and a discriminator whose optimizer step writes the weight [w]. *)
Definition mix2 : list (list Q) := [[1]; [2]]%Q.

Definition est2 : list (list (list Q)) := [[[1]; [2]]; [[10]; [20]]]%Q.

Definition uns_cfg : TrainUns.config Q :=
  TrainUns.Config 10 0 5 1 1 1%Q 1%Q "" false.

Definition uns_t0 : TrainUns.trainer Q := TrainUns.init_trainer uns_cfg ∅ ∅ 4.

Definition gen2 : nat -> list (list Q) := fun _ => mix2.

Definition G2 : gmap string Q -> list (list Q) -> list (list (list Q)) :=
  fun _ _ => est2.

Definition backward_with (gn : pyfloat Q)
    : gmap string Q -> list (list Q) -> list (list Q) -> Q * pyfloat Q :=
  fun _ _ _ => (1%Q, gn).

Definition d_step2
    : gmap string Q * nat -> list (list Q) -> list (list Q) -> gmap string Q * nat :=
  fun d _ _ => (<["w" := 1%Q]> d.1, S d.2).

Definition gen_backward_with (gn : pyfloat Q)
    : gmap string Q -> gmap string Q -> list (list Q) -> list (list Q) ->
      option (list (list Q) * list (list Q)) -> TrainUns.gen_feedback Q :=
  fun _ _ _ _ _ => TrainUns.GenFeedback 3%Q 1%Q 1%Q 1%Q gn.

Definition g_step2
    : gmap string Q * nat -> gmap string Q -> list (list Q) ->
      gmap string Q * nat :=
  fun g _ _ => (<["w" := 1%Q]> g.1, S g.2).

Definition da_cfg : TrainDagan.config Q :=
  TrainDagan.Config 10 0 5 0 1 1 "gan" 1%Q "" false.

Definition da_u0 : TrainDagan.trainer Q := TrainDagan.init_trainer da_cfg ∅ ∅.

Definition da_backward_with (gn : pyfloat Q)
    : string -> Z -> gmap string Q -> gmap string Q ->
      list (list Q) -> list (list Q) -> TrainDagan.feedback Q :=
  fun _ _ _ _ _ _ =>
    TrainDagan.Feedback 1%Q 1%Q 0%Q 1%Q 2 (1 # 2)%Q 1%Q 2 (1 # 2)%Q gn.

Definition da_d_step2
    : gmap string Q * nat -> gmap string Q ->
      list (list Q) -> list (list Q) -> gmap string Q * nat :=
  fun d _ _ _ => (<["w" := 1%Q]> d.1, S d.2).

(** A training list of two utterances of two and four frames, an
    encoder with one channel that copies its input, a network with one
    parameter per module and the checkpoint it is initialised from. *)
Definition disk2 : Dataset.disk Q := fun path =>
  if String.eqb path "root/mix/a.wav" then Some [1; 3]%Q
  else if String.eqb path "root/mix/b.wav" then Some [5; 5; 5; 5]%Q
  else None.

Definition manifest2 : Dataset.manifest :=
  [("a", {["mix" := ("mix/a.wav", 2)]}); ("b", {["mix" := ("mix/b.wav", 4)]})].

Definition copy_encoder : list (param Q) -> list Q -> list (list Q) :=
  fun _ audio => [audio].

Definition net0 : list (param Q) :=
  [Param "enc.w" Encoder 0%Q true None;
   Param "sep.w" Separator 0%Q true None;
   Param "dec.w" Decoder 0%Q true None].

Definition cmvn_cfg : TrainCmvn.config :=
  TrainCmvn.Config 2 0 (-1) "pre.pth" false "Adam" "root".

Definition cmvn_store : store Q := fun path =>
  if String.eqb path "pre.pth"
  then Some (<["state_dict" := VState {["enc.w" := 1%Q]}]>
             {["valid_score" := VScore 0%Q]})
  else None.

Definition cmvn_t0 : TrainCmvn.trainer Q :=
  TrainCmvn.init_trainer cmvn_cfg false "dir" net0.

Definition net1 : list (param Q) :=
  [Param "enc.w" Encoder 1%Q false None;
   Param "sep.w" Separator 0%Q true None;
   Param "dec.w" Decoder 0%Q false None].

Definition cmvn_t1 : TrainCmvn.trainer Q :=
  TrainCmvn.Trainer false "dir" 2 0 (-1) 0 net1 None None None None.

Definition cmvn_t2 : TrainCmvn.trainer Q :=
  TrainCmvn.Trainer false "dir" 2 0 (-1) 0 net1
    (Some ([4%Q], [(7 # 3)%Q])) None None None.

(** A checkpoint written at step 100 and a run configured to resume
    from it. *)
Definition da_store : store Q := fun path =>
  if String.eqb path "exp/100.pth"
  then Some (<["step" := VInt 100]>
             (<["valid_score" := VScore 0%Q]>
             (<["state_dict" := VState ∅]>
             (<["D_state_dict" := VState ∅]>
             (<["g_optim" := VOptim 7]>
             {["d_optim" := VOptim 9]})))))
  else None.

Definition da_resume_cfg : TrainDagan.config Q :=
  TrainDagan.Config 200 0 50 0 1 1 "gan" 1%Q "exp/100.pth" true.

Definition da_resume_t0 : TrainDagan.trainer Q :=
  TrainDagan.init_trainer da_resume_cfg ∅ ∅.

(** The same for the cmvn loop, resumed after epoch 3. *)
Definition cmvn_resume_store : store Q := fun path =>
  if String.eqb path "pre.pth"
  then Some (<["state_dict" := VState {["enc.w" := 1%Q]}]>
             {["valid_score" := VScore 0%Q]})
  else if String.eqb path "dir/latest.pth"
  then Some (<["epoch" := VInt 3]>
             (<["valid_score" := VScore 0%Q]>
             (<["optim" := VOptim 5]>
             {["state_dict" :=
                 VState (<["enc.w" := 2%Q]>
                         (<["sep.w" := 2%Q]> {["dec.w" := 2%Q]}))]})))
  else None.

Definition cmvn_resume_cfg : TrainCmvn.config :=
  TrainCmvn.Config 10 0 (-1) "pre.pth" true "Adam" "root".

Definition cmvn_resume_t0 : TrainCmvn.trainer Q :=
  TrainCmvn.init_trainer cmvn_resume_cfg true "dir" net0.

(** A training manifest with one utterance of five samples and one of
    three. *)
Definition manifest_short : Dataset.manifest :=
  [("a", utt_a); ("b", {["mix" := ("mix/b.wav", 3)]})].

(** A configuration with a data section and a path file that adds one
    root and overrides another. *)
Definition config_yaml : list (string * DomainCls.pyval) :=
  [("data", DomainCls.PDict [("segment", DomainCls.PFloat 4);
                             ("wsj_root", DomainCls.PStr "/old")]);
   ("solver", DomainCls.PDict [("epochs", DomainCls.PInt 100)])].

Definition path_yaml : list (string * DomainCls.pyval) :=
  [("wsj_root", DomainCls.PStr "/corpus/wsj0");
   ("vctk_root", DomainCls.PStr "/corpus/vctk")].

(** A split in which every gender category occurs, the category being
    the first two letters of the utterance id. *)
Definition mapper_prefix : string -> string -> string :=
  fun uid _ => String.substring 0 2 uid.

Definition loader3 : list (TestBaseline.batch Q) :=
  [TestBaseline.Batch 1%Q [TestBaseline.Example "MM_1" 4%Q 0%Q;
                           TestBaseline.Example "FF_1" 2%Q 0%Q];
   TestBaseline.Batch 3%Q [TestBaseline.Example "MF_1" 6%Q 0%Q;
                           TestBaseline.Example "MM_2" 8%Q 0%Q]].

(** The held-out loader of the cmvn loop over the same split. *)
Definition vloader3 : list (TrainCmvn.vbatch Q) :=
  [TrainCmvn.VBatch 1%Q [("MM_1", 4%Q); ("FF_1", 2%Q)];
   TrainCmvn.VBatch 3%Q [("MF_1", 6%Q)]].

(** The unsupervised trainer with the cyclic term switched off. *)
Definition uns_t_nocyc : TrainUns.trainer Q :=
  TrainUns.init_trainer (TrainUns.Config 10 0 5 1 1 0%Q 1%Q "" false) ∅ ∅ 4.

(** The domain-adversarial trainer under the Wasserstein loss and
    under a loss name the loop does not know. *)
Definition da_wgan_t0 : TrainDagan.trainer Q :=
  TrainDagan.init_trainer
    (TrainDagan.Config 10 0 5 0 1 1 "wgan-gp" 1%Q "" false) ∅ ∅.

Definition da_lsgan_t0 : TrainDagan.trainer Q :=
  TrainDagan.init_trainer
    (TrainDagan.Config 10 0 5 0 1 1 "lsgan" 1%Q "" false) ∅ ∅.

(** A patch classifier of two layers without layer norm. *)
Definition patch_config : DomainCls.pyval :=
  DomainCls.PDict
    [("type", DomainCls.PStr "conv-patch");
     ("norm_type", DomainCls.PStr "spectral");
     ("layers",
      DomainCls.PList
        [DomainCls.PDict [("filters", DomainCls.PInt 64);
                          ("kernel", DomainCls.PInt 3);
                          ("stride", DomainCls.PInt 2)];
         DomainCls.PDict [("filters", DomainCls.PInt 1);
                          ("kernel", DomainCls.PInt 3);
                          ("stride", DomainCls.PInt 1)]])].

End Runs.

(* ================================================================== *)
(** * Part II: properties                                              *)
(* ================================================================== *)

(** Exact rationals are the carrier of every concrete run below. *)
#[local] Existing Instance Q_ops.

(** ** Reasoning about [result] *)

Lemma bind_Ok {A B} (m : result A) (f : A -> result B) (b : B) :
  m ≫= f = Ok b -> exists a, m = Ok a /\ f a = Ok b.
Proof. destruct m as [a|e]; simpl; [eauto | discriminate]. Qed.

Lemma bind_Raise {A B} (m : result A) (f : A -> result B) (e : exn) :
  m = Raise e -> m ≫= f = Raise e.
Proof. intros ->. reflexivity. Qed.

(** Splits a hypothesis [x ← m; k = Ok v] into its two halves. *)
Ltac inv_bind H :=
  let a := fresh "a" in
  let Ha := fresh "Ha" in
  apply bind_Ok in H; destruct H as (a & Ha & H).

(** ** Slices *)

Lemma slice_bound_range (n i : Z) :
  0 <= n -> 0 <= slice_bound n i <= n.
Proof. unfold slice_bound. destruct (i <? 0) eqn:E; lia. Qed.

Lemma slice_length {A} (l : list A) (s e : Z) :
  length (slice l s e)
  = Z.to_nat (slice_bound (Z.of_nat (length l)) e
              - slice_bound (Z.of_nat (length l)) s).
Proof.
  unfold slice. rewrite length_take, length_drop.
  pose proof (slice_bound_range (Z.of_nat (length l)) s ltac:(lia)).
  pose proof (slice_bound_range (Z.of_nat (length l)) e ltac:(lia)).
  lia.
Qed.

Lemma slice_length_eq {A B} (l : list A) (l' : list B) (s e : Z) :
  length l = length l' -> length (slice l s e) = length (slice l' s e).
Proof. intros E. rewrite !slice_length, E. reflexivity. Qed.

Lemma slice_length_le {A} (l : list A) (s e : Z) :
  0 <= s -> 0 <= e -> Z.of_nat (length (slice l s e)) <= Z.max 0 (e - s).
Proof.
  intros Hs He. rewrite slice_length. unfold slice_bound.
  destruct (e <? 0) eqn:E1; destruct (s <? 0) eqn:E2; lia.
Qed.

(** ** The sample provider (src/dataset.py) *)

Section DatasetProps.
Context {F : Type} `{FloatOps F}.

(** What [__init__] fixes in the object it builds. *)
Lemma init_fields (fs : Dataset.disk F) d sl_arg pl oc m ds :
  Dataset.init fs d sl_arg pl oc m = Ok ds ->
  Dataset.data ds = d /\ Dataset.pre_load ds = pl /\
  Dataset.one_chunk ds = oc /\
  Dataset.init_id_list m oc (Dataset.seg_len ds) d = Ok (Dataset.id_list ds).
Proof.
  unfold Dataset.init. intros Hi.
  inv_bind Hi. inv_bind Hi. injection Hi as <-. simpl. auto.
Qed.

(** In training mode with one chunk per utterance, every utterance at
    least as long as the segment gets the entry [[uid, uid, -1, -1]]. *)
Lemma init_id_list_keeps_long (sl : Z) (d : Dataset.manifest) ids
    uid u path len :
  Dataset.init_id_list Dataset.Tr true (Some sl) d = Ok ids ->
  (uid, u) ∈ d -> u !! "mix" = Some (path, len) -> sl <= len ->
  Dataset.MkInfo uid uid (-1) (-1) ∈ ids.
Proof.
  revert ids. induction d as [|[uid' u'] d IH]; intros ids Hi Hin Hm Hl.
  - inversion Hin.
  - simpl in Hi. inv_bind Hi. inv_bind Hi. injection Hi as <-.
    apply elem_of_cons in Hin as [Heq | Hin].
    + injection Heq as <- <-. apply elem_of_app. left.
      unfold Dataset.init_entry, map_get in Ha. rewrite Hm in Ha.
      simpl in Ha.
      destruct (len >=? sl) eqn:E; [|lia].
      injection Ha as <-. apply list_elem_of_here.
    + apply elem_of_app. right. eapply IH; eauto.
Qed.

(** [random.randint(0, re - 1)] has nothing to draw from when the
    utterance is exactly one segment long. *)
Lemma getitem_one_chunk_exact (fs : Dataset.disk F) ds idx r i sl m s1 s2 :
  Dataset.one_chunk ds = true ->
  Dataset.seg_len ds = Some sl ->
  Py.getitem (Dataset.id_list ds) idx = Ok i ->
  Dataset.load_channels fs ds (Dataset.i_uid i) = Ok (m, s1, s2) ->
  Z.of_nat (length m) = sl ->
  Dataset.getitem fs ds idx r
  = Raise (ValueError "empty range for randrange()").
Proof.
  intros Hoc Hsl Hget Hload Hlen.
  unfold Dataset.getitem. rewrite Hget. simpl. rewrite Hload. simpl.
  rewrite Hoc, Hsl. simpl. unfold randint.
  destruct (0 <=? Z.of_nat (length m) - sl - 1) eqn:E; [lia|]. reflexivity.
Qed.

Lemma getitem_needs_channels (fs : Dataset.disk F) ds idx r i e :
  Py.getitem (Dataset.id_list ds) idx = Ok i ->
  Dataset.load_channels fs ds (Dataset.i_uid i) = Raise e ->
  Dataset.getitem fs ds idx r = Raise e.
Proof.
  intros Hget Hload. unfold Dataset.getitem. rewrite Hget. simpl.
  rewrite Hload. reflexivity.
Qed.

Lemma range_elem (n i : Z) : i ∈ range n -> 0 <= i < n.
Proof.
  unfold range. intros Hi. apply list_elem_of_fmap in Hi as (k & -> & Hk).
  apply elem_of_seq in Hk. lia.
Qed.

Lemma split_chunks_ok (uid : string) (len sl : Z) infos :
  0 <= sl ->
  Dataset.split_chunks uid len sl = Ok infos ->
  Forall (Dataset.chunk_ok sl) infos.
Proof.
  unfold Dataset.split_chunks. intros Hsl.
  destruct (sl =? 0) eqn:E0; [discriminate|]. intros [= <-].
  apply Forall_fmap, Forall_forall. intros i Hi%range_elem.
  unfold Dataset.chunk_ok, compose. simpl.
  assert (Hpos : 0 < sl) by lia.
  assert (Hlen : 0 < len).
  { destruct (Z_lt_le_dec 0 len) as [|Hneg]; [assumption|exfalso].
    assert (len / sl <= 0) by (apply Z.div_le_upper_bound; lia).
    pose proof (Z.mod_pos_bound len sl Hpos).
    destruct (Z.eq_dec len 0) as [->|Hne].
    - rewrite Z.mod_0_l in Hi by lia. simpl in Hi. lia.
    - assert (len / sl < 0) by (apply Z.div_lt_upper_bound; lia).
      destruct (len mod sl >? 0); lia. }
  split; [nia|].
  destruct (i =? _); split; nia.
Qed.

Lemma init_entry_ok m sl uid (u : Dataset.utt) infos :
  0 <= sl ->
  Dataset.init_entry m false (Some sl) uid u = Ok infos ->
  Forall (Dataset.chunk_ok sl) infos.
Proof.
  intros Hsl Hi. unfold Dataset.init_entry in Hi.
  inv_bind Hi. destruct a as [path len]. simpl in Hi.
  destruct m; simpl in Hi.
  - destruct (len >=? sl).
    + eapply split_chunks_ok; eauto.
    + injection Hi as <-. constructor.
  - eapply split_chunks_ok; eauto.
  - eapply split_chunks_ok; eauto.
Qed.

Lemma init_id_list_ok m sl (d : Dataset.manifest) ids :
  0 <= sl ->
  Dataset.init_id_list m false (Some sl) d = Ok ids ->
  Forall (Dataset.chunk_ok sl) ids.
Proof.
  intros Hsl. revert ids. induction d as [|[uid u] d IH]; intros ids Hi.
  - injection Hi as <-. constructor.
  - simpl in Hi. inv_bind Hi. inv_bind Hi. injection Hi as <-.
    apply Forall_app. split; [eapply init_entry_ok; eauto | eauto].
Qed.

Lemma py_getitem_elem {A} (l : list A) (idx : Z) (x : A) :
  Py.getitem l idx = Ok x -> x ∈ l.
Proof.
  unfold Py.getitem.
  destruct (_ <? 0); [discriminate|].
  destruct (l !! _) eqn:E; [|discriminate].
  intros [= <-]. eapply list_elem_of_lookup_2; eauto.
Qed.

Lemma randint_lower (a b : Z) (r : nat) (x : Z) :
  randint a b r = Ok x -> a <= x <= b.
Proof.
  unfold randint. destruct (a <=? b) eqn:E; [|discriminate].
  intros [= <-]. pose proof (Z.mod_pos_bound (Z.of_nat r) (b - a + 1)). lia.
Qed.

(** [pad_audio] returns an array of the segment length whose entries
    from [ilen] on are zero. *)
Lemma pad_audio_padded (self : Dataset.wsj0 F) (sl ilen : Z) (a b : list F) :
  Dataset.seg_len self = Some sl ->
  0 <= ilen < sl ->
  Dataset.pad_audio self a ilen = Ok b ->
  Dataset.padded_to sl ilen b.
Proof.
  intros Hsl Hil. unfold Dataset.pad_audio. rewrite Hsl. simpl.
  destruct (sl <? 0) eqn:E; [lia|].
  assert (Ht : Z.to_nat (slice_bound sl ilen) = Z.to_nat ilen).
  { unfold slice_bound. destruct (ilen <? 0) eqn:E'; lia. }
  rewrite Ht.
  assert (Hgen : forall pre : list F, length pre = Z.to_nat ilen ->
            Dataset.padded_to sl ilen
              (pre ++ replicate (Z.to_nat sl - Z.to_nat ilen) f0)).
  { intros pre Hp. split.
    - rewrite length_app, length_replicate. lia.
    - intros i Hi Hlt. rewrite lookup_app_r by lia.
      apply lookup_replicate_2. lia. }
  destruct (length a =? Z.to_nat ilen)%nat eqn:El.
  - intros [= <-]. apply Hgen. apply Nat.eqb_eq, El.
  - destruct a as [|x [|y a']]; try discriminate.
    intros [= <-]. apply Hgen. apply length_replicate.
Qed.

Lemma stack2_inv (s1 s2 : list F) r :
  Dataset.stack2 s1 s2 = Ok r -> r = [s1; s2].
Proof.
  unfold Dataset.stack2. destruct (_ =? _)%nat; [|discriminate].
  intros [= <-]. reflexivity.
Qed.

End DatasetProps.

(** C9. In training mode with [one_chunk_in_utt], the length filter
    [utt_len >= seg_len] keeps an utterance whose length equals the
    segment length: its entry is in [id_list]. Indexing such an entry
    never returns a sample: whenever the mixture read for it has that
    length, [random.randint(0, re - 1)] is called with [re = 0] and raises
    [ValueError], whatever the random source supplies; if the channels
    cannot be read the call fails earlier. *)
Theorem exact_length_utt_kept_but_never_served
    {F : Type} `{FloatOps F} (fs : Dataset.disk F) (d : Dataset.manifest)
    (sl_arg : Q) (pl : bool) (ds : Dataset.wsj0 F) (sl : Z)
    (uid : string) (u : Dataset.utt) (path : string) :
  Dataset.init fs d sl_arg pl true Dataset.Tr = Ok ds ->
  Dataset.seg_len ds = Some sl ->
  (uid, u) ∈ d ->
  u !! "mix" = Some (path, sl) ->
  (forall m s1 s2, Dataset.load_channels fs ds uid = Ok (m, s1, s2) ->
                   Z.of_nat (length m) = sl) ->
  Dataset.MkInfo uid uid (-1) (-1) ∈ Dataset.id_list ds /\
  forall (idx : Z) (r : nat) (i : Dataset.info),
    Py.getitem (Dataset.id_list ds) idx = Ok i ->
    Dataset.i_uid i = uid ->
    is_ok (Dataset.getitem fs ds idx r) = false /\
    (is_ok (Dataset.load_channels fs ds uid) = true ->
     Dataset.getitem fs ds idx r
     = Raise (ValueError "empty range for randrange()")).
Proof.
  intros Hinit Hsl Hin Hmix Hlen.
  destruct (init_fields _ _ _ _ _ _ _ Hinit) as (Hd & Hpl & Hoc & Hids).
  rewrite Hsl in Hids. split.
  - eapply init_id_list_keeps_long; eauto. lia.
  - intros idx r i Hget Hu.
    destruct (Dataset.load_channels fs ds uid) as [[[m s1] s2]|e] eqn:Hload.
    + assert (Hg : Dataset.getitem fs ds idx r
                   = Raise (ValueError "empty range for randrange()")).
      { apply (getitem_one_chunk_exact fs ds idx r i sl m s1 s2 Hoc Hsl Hget).
        - rewrite Hu. exact Hload.
        - exact (Hlen m s1 s2 eq_refl). }
      rewrite Hg. simpl. auto.
    + assert (Hg : Dataset.getitem fs ds idx r = Raise e).
      { eapply getitem_needs_channels; eauto. rewrite Hu. exact Hload. }
      rewrite Hg. simpl. split; [reflexivity | discriminate].
Qed.



Lemma exact_length_utt_witness :
  Dataset.MkInfo "a" "a" (-1) (-1) ∈ Dataset.id_list Runs.ds_tr /\
  Dataset.getitem Runs.disk1 Runs.ds_tr 0 7
  = Raise (ValueError "empty range for randrange()").
Proof.
  destruct (exact_length_utt_kept_but_never_served Runs.disk1 Runs.manifest1
              (5 # 8000) false Runs.ds_tr 5 "a" Runs.utt_a "mix/a.wav")
    as [Hin Hget].
  - vm_compute. reflexivity.
  - reflexivity.
  - apply list_elem_of_here.
  - vm_compute. reflexivity.
  - intros m s1 s2. vm_compute. intros [= <- <- <-]. reflexivity.
  - split; [exact Hin|].
    apply (Hget 0 7%nat (Dataset.MkInfo "a" "a" (-1) (-1))).
    + vm_compute. reflexivity.
    + reflexivity.
    + vm_compute. reflexivity.
Defined.

(** ** The infinite data generator (src/utils.py) *)

Section GenProps.
Context {A : Type}.
Variable l : list A.
Variable ld : Utils.loader A.
Hypothesis Hfixed : forall p, ld p = l.
Hypothesis Hne : (1 <= length l)%nat.

Local Open Scope nat_scope.
Abbreviation at_offset := (Utils.at_offset l).

(** From offset [j], one call of [__next__] yields the batch at
    [j mod n] and leaves the frame at the next offset. *)
Lemma next_at_offset (fuel j p : nat) (c : Utils.pc) :
  (3 <= fuel)%nat -> (j <= length l)%nat -> at_offset j c ->
  exists x p',
    Utils.next fuel ld (Utils.Gen c p)
    = Utils.Yielded x (Utils.Gen (Utils.InFor (drop (S (j mod length l)) l)) p')
    /\ l !! (j mod length l) = Some x.
Proof.
  intros Hf Hj Hat.
  destruct fuel as [|[|[|fuel]]]; try lia.
  destruct (decide (j = length l)) as [->|Hlt].
  - (* the pass is over: the loader is iterated again *)
    rewrite Nat.Div0.mod_same.
    destruct l as [|x rest] eqn:El; [simpl in Hne; lia|].
    exists x, (S p). split; [|reflexivity].
    destruct Hat as [-> | [_ ->]].
    + rewrite drop_all. simpl. unfold Utils.step. simpl.
      rewrite Hfixed. reflexivity.
    + simpl. unfold Utils.step. simpl. rewrite Hfixed. reflexivity.
  - assert (Hj' : (j < length l)%nat) by lia.
    rewrite Nat.mod_small by lia.
    destruct Hat as [-> | [? _]]; [|lia].
    destruct (lookup_lt_is_Some_2 l j Hj') as [x Hx].
    exists x, p. split; [|exact Hx].
    rewrite (drop_S l x j Hx). reflexivity.
Qed.

Lemma kth_next_at_offset (fuel k j p : nat) (c : Utils.pc) :
  (3 <= fuel)%nat -> (j <= length l)%nat -> at_offset j c ->
  exists x g,
    Utils.kth_next fuel ld (Utils.Gen c p) k = Utils.Yielded x g
    /\ l !! ((j + k) mod length l) = Some x.
Proof.
  intros Hf. revert j p c. induction k as [|k IH]; intros j p c Hj Hat.
  - destruct (next_at_offset fuel j p c Hf Hj Hat) as (x & p' & Hn & Hx).
    exists x. eexists. simpl. rewrite Hn. split; [reflexivity|].
    rewrite Nat.add_0_r. exact Hx.
  - destruct (next_at_offset fuel j p c Hf Hj Hat) as (x & p' & Hn & _).
    simpl. rewrite Hn.
    assert (Hlt : (j mod length l < length l)%nat)
      by (apply Nat.mod_upper_bound; lia).
    destruct (IH (S (j mod length l)) p' _ ltac:(lia) (or_introl eq_refl))
      as (y & g & Hk & Hy).
    exists y, g. split; [exact Hk|].
    replace ((j + S k) mod length l)
      with ((S (j mod length l) + k) mod length l); [exact Hy|].
    replace (S (j mod length l) + k)%nat with (j mod length l + S k)%nat by lia.
    rewrite Nat.Div0.add_mod_idemp_l. reflexivity.
Qed.

End GenProps.

(** C5. Over a loader that yields the same [n >= 1] batches on every
    iteration, each call of [__next__] on [inf_data_gen(loader)] returns a
    batch, never [StopIteration] and never without yielding, and call
    number [k] returns batch [k mod n] of one pass. *)
Theorem inf_data_gen_cycles
    {A : Type} (l : list A) (ld : Utils.loader A) (fuel k : nat) :
  (forall p, ld p = l) ->
  (1 <= length l)%nat ->
  (3 <= fuel)%nat ->
  exists x g,
    Utils.kth_next fuel ld Utils.inf_data_gen k = Utils.Yielded x g /\
    l !! (k mod length l)%nat = Some x.
Proof.
  intros Hfixed Hne Hf.
  destruct (kth_next_at_offset l ld Hfixed Hne fuel k (length l) 0
              Utils.AtWhile Hf (le_n _) (or_intror (conj eq_refl eq_refl)))
    as (x & g & Hk & Hx).
  exists x, g. split; [exact Hk|].
  rewrite <- Hx. f_equal.
  rewrite <- Nat.Div0.add_mod_idemp_l, Nat.Div0.mod_same. reflexivity.
Qed.

Lemma inf_data_gen_cycles_witness :
  exists x g,
    Utils.kth_next 3 (fun _ => [10; 20; 30]%nat) Utils.inf_data_gen 7
    = Utils.Yielded x g /\
    [10; 20; 30]%nat !! (7 mod 3)%nat = Some x.
Proof.
  apply (inf_data_gen_cycles [10; 20; 30]%nat (fun _ => [10; 20; 30]%nat) 3 7).
  - reflexivity.
  - simpl. lia.
  - lia.
Defined.

(** ** Per-gender averages (src/test_baseline.py, src/train_cmvn.py) *)

#[local] Hint Unfold zero_div_or_key : core.

Lemma map_get_exn {V} (d : gmap string V) (k : string) (e : exn) :
  map_get d k = Raise e -> zero_div_or_key e.
Proof.
  unfold map_get. destruct (d !! k); [discriminate|].
  intros [= <-]. right. eauto.
Qed.

Lemma div_count_exn {F} `{FloatOps F} (x : F) (n : nat) (e : exn) :
  div_count x n = Raise e -> zero_div_or_key e.
Proof.
  unfold div_count. destruct (n =? 0)%nat; [|discriminate].
  intros [= <-]. left. reflexivity.
Qed.

Lemma div_count_Ok {F} `{FloatOps F} (x : F) (n : nat) (q : F) :
  div_count x n = Ok q -> n <> O.
Proof.
  unfold div_count. destruct (n =? 0)%nat eqn:E; [discriminate|].
  intros _. apply Nat.eqb_neq, E.
Qed.

Lemma bind_exn {A B} (P : exn -> Prop) (m : result A) (f : A -> result B)
    (e : exn) :
  (forall e', m = Raise e' -> P e') ->
  (forall a e', m = Ok a -> f a = Raise e' -> P e') ->
  m ≫= f = Raise e -> P e.
Proof.
  destruct m as [a|e']; simpl; intros H1 H2 H3.
  - eapply H2; eauto.
  - injection H3 as <-. apply H1. reflexivity.
Qed.

(** Case analysis on the first call of a sequence that raised. *)
Ltac exn_step :=
  match goal with
  | |- _ ≫= _ = Raise _ -> _ =>
      apply bind_exn; [ try (intro; first [apply map_get_exn | apply div_count_exn]) | intros ? ? ? ]
  end.

Section GenderDict.
Context {F : Type} `{FloatOps F}.

Lemma dict_incr_lookup (d d' : gmap string nat) (g0 g : string) :
  Gender.dict_incr d g0 = Ok d' ->
  d' !! g = if decide (g = g0) then S <$> d !! g else d !! g.
Proof.
  unfold Gender.dict_incr, map_get.
  destruct (d !! g0) as [v|] eqn:E; [|discriminate]. simpl.
  intros [= <-]. destruct (decide (g = g0)) as [->|Hne].
  - rewrite lookup_insert_eq, E. reflexivity.
  - rewrite lookup_insert_ne by congruence. reflexivity.
Qed.

Lemma dict_incr_exn (d : gmap string nat) (g : string) (e : exn) :
  Gender.dict_incr d g = Raise e -> zero_div_or_key e.
Proof.
  unfold Gender.dict_incr. exn_step. discriminate.
Qed.

Lemma dict_add_exn (d : gmap string F) (g : string) (x : F) (e : exn) :
  Gender.dict_add d g x = Raise e -> zero_div_or_key e.
Proof.
  unfold Gender.dict_add. exn_step. discriminate.
Qed.

Lemma zero_counts_lookup (keys : list string) (g : string) :
  g ∈ keys -> Gender.zero_counts keys !! g = Some O.
Proof.
  intros Hg. unfold Gender.zero_counts.
  induction keys as [|k keys IH]; [inversion Hg|].
  simpl. destruct (decide (g = k)) as [->|Hne].
  - apply lookup_insert_eq.
  - rewrite lookup_insert_ne by congruence.
    apply IH. apply elem_of_cons in Hg as [?|?]; [contradiction|assumption].
Qed.

End GenderDict.

Lemma fmap_add_add (o : option nat) (m n : nat) :
  (fun c => (c + n)%nat) <$> ((fun c => (c + m)%nat) <$> o)
  = (fun c => (c + (m + n))%nat) <$> o.
Proof. destruct o; simpl; f_equal; lia. Qed.

Lemma fmap_add_0 (o : option nat) : (fun c => (c + 0)%nat) <$> o = o.
Proof. destruct o; simpl; f_equal; lia. Qed.

Section EvaluateProps.
Context {F : Type} `{FloatOps F}.
Variable g_mapper : string -> string -> string.
Variable compute_sdr : bool.

Abbreviation eval_example := (TestBaseline.eval_example g_mapper compute_sdr).
Abbreviation eval_examples := (TestBaseline.eval_examples g_mapper compute_sdr).
Abbreviation eval_loader := (TestBaseline.eval_loader g_mapper compute_sdr).
Abbreviation gender_means := (TestBaseline.gender_means compute_sdr).

Abbreviation in_gender := (TestBaseline.in_gender (F := F) g_mapper).

Lemma eval_example_cnt dataset a x a' g :
  eval_example dataset a x = Ok a' ->
  TestBaseline.gender_cnt a' !! g
  = (fun c => (c + in_gender dataset g [x])%nat)
      <$> TestBaseline.gender_cnt a !! g.
Proof.
  unfold TestBaseline.eval_example, TestBaseline.in_gender. intros He.
  inv_bind He. inv_bind He.
  assert (Hc : TestBaseline.gender_cnt a' = a0).
  { destruct compute_sdr.
    - inv_bind He. injection He as <-. reflexivity.
    - injection He as <-. reflexivity. }
  rewrite Hc, (dict_incr_lookup _ _ _ g Ha).
  rewrite filter_cons, filter_nil.
  destruct (TestBaseline.gender_cnt a !! g) as [c|]; simpl;
    repeat case_decide; simpl; try congruence; f_equal; lia.
Qed.

Lemma eval_example_exn dataset a x e :
  eval_example dataset a x = Raise e -> zero_div_or_key e.
Proof.
  unfold TestBaseline.eval_example.
  apply bind_exn; [apply dict_incr_exn|intros ? ? _].
  apply bind_exn; [apply dict_add_exn|intros ? ? _].
  destruct compute_sdr; [|discriminate].
  apply bind_exn; [apply dict_add_exn|intros ? ? _]. discriminate.
Qed.

Lemma in_gender_app dataset g l1 l2 :
  in_gender dataset g (l1 ++ l2)
  = (in_gender dataset g l1 + in_gender dataset g l2)%nat.
Proof.
  unfold TestBaseline.in_gender. rewrite filter_app, length_app. reflexivity.
Qed.

Lemma eval_examples_cnt dataset l a a' g :
  eval_examples dataset a l = Ok a' ->
  TestBaseline.gender_cnt a' !! g
  = (fun c => (c + in_gender dataset g l)%nat)
      <$> TestBaseline.gender_cnt a !! g.
Proof.
  revert a. induction l as [|x l IH]; intros a He; simpl in He.
  - injection He as <-. symmetry. apply fmap_add_0.
  - inv_bind He. rewrite (IH _ He), (eval_example_cnt _ _ _ _ g Ha).
    change (x :: l) with ([x] ++ l).
    rewrite in_gender_app. apply fmap_add_add.
Qed.

Lemma eval_examples_exn dataset l a e :
  eval_examples dataset a l = Raise e -> zero_div_or_key e.
Proof.
  revert a e. induction l as [|x l IH]; intros a e; simpl; [discriminate|].
  apply bind_exn; [apply eval_example_exn|intros ? ? _; apply IH].
Qed.

Lemma eval_loader_cnt dataset l a a' g :
  eval_loader dataset a l = Ok a' ->
  TestBaseline.gender_cnt a' !! g
  = (fun c => (c + in_gender dataset g
                     (concat (TestBaseline.b_examples <$> l)))%nat)
      <$> TestBaseline.gender_cnt a !! g.
Proof.
  revert a. induction l as [|b l IH]; intros a He; simpl in He.
  - injection He as <-. symmetry. apply fmap_add_0.
  - inv_bind He. rewrite (IH _ He).
    unfold TestBaseline.eval_batch in Ha.
    rewrite (eval_examples_cnt _ _ _ _ g Ha).
    rewrite fmap_cons, concat_cons, in_gender_app. apply fmap_add_add.
Qed.

Lemma eval_loader_exn dataset l a e :
  eval_loader dataset a l = Raise e -> zero_div_or_key e.
Proof.
  revert a e. induction l as [|b l IH]; intros a e; simpl; [discriminate|].
  apply bind_exn; [|intros ? ? _; apply IH].
  intros e'. apply eval_examples_exn.
Qed.

Lemma gender_means_exn dset sdr0 a keys si sd e :
  gender_means dset sdr0 a keys si sd = Raise e -> zero_div_or_key e.
Proof.
  revert si sd e. induction keys as [|g keys IH]; intros si sd e; simpl;
    [discriminate|].
  repeat exn_step. destruct compute_sdr; [|apply IH].
  repeat exn_step. apply IH.
Qed.

(** The loop over the categories only finishes when it has divided by
    the count of each of them, none of which was zero. *)
Lemma gender_means_Ok dset sdr0 a keys si sd r g :
  gender_means dset sdr0 a keys si sd = Ok r ->
  g ∈ keys ->
  exists c, TestBaseline.gender_cnt a !! g = Some c /\ c <> O.
Proof.
  revert si sd. induction keys as [|k keys IH]; intros si sd Hm Hg;
    [inversion Hg|].
  simpl in Hm. inv_bind Hm. inv_bind Hm. inv_bind Hm.
  assert (Hk : exists c, TestBaseline.gender_cnt a !! k = Some c /\ c <> O).
  { exists a1. split; [|eapply div_count_Ok; eauto].
    unfold map_get in Ha0.
    destruct (TestBaseline.gender_cnt a !! k); [|discriminate].
    injection Ha0 as <-. reflexivity. }
  apply elem_of_cons in Hg as [->|Hg]; [exact Hk|].
  destruct compute_sdr.
  - do 4 inv_bind Hm. eapply IH; eauto.
  - eapply IH; eauto.
Qed.

Lemma evaluate_exn loader dset dataset sdr0 e :
  TestBaseline.evaluate g_mapper compute_sdr loader dset dataset sdr0
  = Raise e ->
  zero_div_or_key e.
Proof.
  unfold TestBaseline.evaluate.
  apply bind_exn; [intros e'; apply eval_loader_exn|intros a e' _].
  apply bind_exn; [intros e2; apply div_count_exn|intros ? ? _].
  apply bind_exn; [intros e2; apply div_count_exn|intros ? ? _].
  apply bind_exn; [|intros ? ? _].
  - intros e2. destruct compute_sdr; [|discriminate].
    apply bind_exn; [intros e3; apply div_count_exn|intros ? ? _].
    apply bind_exn; [intros e3; apply map_get_exn|intros ? ? _].
    discriminate.
  - apply bind_exn; [intros e2; apply gender_means_exn|].
    intros [? ?] ? _. discriminate.
Qed.

Lemma evaluate_Ok_counts loader dset dataset sdr0 res g :
  TestBaseline.evaluate g_mapper compute_sdr loader dset dataset sdr0
  = Ok res ->
  g ∈ TestBaseline.gs ->
  TestBaseline.gender_count g_mapper dataset loader g <> O.
Proof.
  unfold TestBaseline.evaluate. intros He Hg.
  inv_bind He. rename a into acc, Ha into Hloop.
  do 3 inv_bind He. inv_bind He. destruct a2 as [gsi gsd].
  destruct (gender_means_Ok _ _ _ _ _ _ _ g Ha2 Hg) as (c & Hc & Hnz).
  rewrite (eval_loader_cnt _ _ _ _ g Hloop) in Hc.
  simpl in Hc. rewrite (zero_counts_lookup _ _ Hg) in Hc. simpl in Hc.
  injection Hc as <-. exact Hnz.
Qed.

End EvaluateProps.

Section ValidProps.
Context {F : Type} `{FloatOps F}.
Variable gender_mapper : string -> string -> string.

Abbreviation valid_items := (TrainCmvn.valid_items gender_mapper).
Abbreviation valid_loader := (TrainCmvn.valid_loader gender_mapper).
Abbreviation in_gender_v := (TrainCmvn.in_gender (F := F) gender_mapper).

Lemma in_gender_v_app dset g l1 l2 :
  in_gender_v dset g (l1 ++ l2)
  = (in_gender_v dset g l1 + in_gender_v dset g l2)%nat.
Proof.
  unfold TrainCmvn.in_gender. rewrite filter_app, length_app. reflexivity.
Qed.

Lemma valid_items_cnt dset l a a' g :
  valid_items dset a l = Ok a' ->
  TrainCmvn.gender_cnt a' !! g
  = (fun c => (c + in_gender_v dset g l)%nat) <$> TrainCmvn.gender_cnt a !! g.
Proof.
  revert a. induction l as [|[u x] l IH]; intros a Hv; simpl in Hv.
  - injection Hv as <-. symmetry. apply fmap_add_0.
  - inv_bind Hv. inv_bind Hv. rewrite (IH _ Hv). simpl.
    rewrite (dict_incr_lookup _ _ _ g Ha0).
    change ((u, x) :: l) with ([(u, x)] ++ l). rewrite in_gender_v_app.
    rewrite <- fmap_add_add. f_equal.
    unfold TrainCmvn.in_gender. rewrite filter_cons, filter_nil. simpl.
    destruct (TrainCmvn.gender_cnt a !! g); simpl;
      repeat case_decide; simpl; try congruence; f_equal; lia.
Qed.

Lemma valid_items_exn dset l a e :
  valid_items dset a l = Raise e -> zero_div_or_key e.
Proof.
  revert a e. induction l as [|[u x] l IH]; intros a e; simpl;
    [discriminate|].
  apply bind_exn; [apply dict_add_exn|intros ? ? _].
  apply bind_exn; [apply dict_incr_exn|intros ? ? _]. apply IH.
Qed.

Lemma valid_loader_cnt dset l a a' g :
  valid_loader dset a l = Ok a' ->
  TrainCmvn.gender_cnt a' !! g
  = (fun c => (c + in_gender_v dset g
                     (concat (TrainCmvn.vb_items <$> l)))%nat)
      <$> TrainCmvn.gender_cnt a !! g.
Proof.
  revert a. induction l as [|b l IH]; intros a Hv; simpl in Hv.
  - injection Hv as <-. symmetry. apply fmap_add_0.
  - inv_bind Hv. rewrite (IH _ Hv).
    unfold TrainCmvn.valid_batch in Ha.
    rewrite (valid_items_cnt _ _ _ _ g Ha).
    rewrite fmap_cons, concat_cons, in_gender_v_app. apply fmap_add_add.
Qed.

Lemma valid_loader_exn dset l a e :
  valid_loader dset a l = Raise e -> zero_div_or_key e.
Proof.
  revert a e. induction l as [|b l IH]; intros a e; simpl; [discriminate|].
  apply bind_exn; [|intros ? ? _; apply IH].
  intros e'. apply valid_items_exn.
Qed.

Lemma gender_meta_exn prefix a keys meta e :
  TrainCmvn.gender_meta prefix a keys meta = Raise e -> zero_div_or_key e.
Proof.
  revert meta e. induction keys as [|g keys IH]; intros meta e; simpl;
    [discriminate|].
  apply bind_exn; [intros ?; apply map_get_exn|intros ? ? _].
  apply bind_exn; [intros ?; apply map_get_exn|intros ? ? _].
  apply bind_exn; [intros ?; apply div_count_exn|intros ? ? _].
  apply IH.
Qed.

Lemma gender_meta_Ok prefix a keys meta r g :
  TrainCmvn.gender_meta prefix a keys meta = Ok r ->
  g ∈ keys ->
  exists c, TrainCmvn.gender_cnt a !! g = Some c /\ c <> O.
Proof.
  revert meta. induction keys as [|k keys IH]; intros meta Hm Hg;
    [inversion Hg|].
  simpl in Hm. inv_bind Hm. inv_bind Hm. inv_bind Hm.
  apply elem_of_cons in Hg as [->|Hg]; [|eapply IH; eauto].
  exists a1. split; [|eapply div_count_Ok; eauto].
  unfold map_get in Ha0.
  destruct (TrainCmvn.gender_cnt a !! k); [|discriminate].
  injection Ha0 as <-. reflexivity.
Qed.

Lemma valid_exn loader dset epoch no_save prefix force_save e :
  TrainCmvn.valid gender_mapper loader dset epoch no_save prefix force_save
  = Raise e ->
  zero_div_or_key e.
Proof.
  unfold TrainCmvn.valid.
  apply bind_exn; [intros e1; apply valid_loader_exn|intros a e1 _].
  apply bind_exn; [intros e2; apply div_count_exn|intros ? ? _].
  apply bind_exn; [intros e2; apply div_count_exn|intros ? ? _].
  apply bind_exn; [intros e2; apply gender_meta_exn|intros ? ? _].
  destruct no_save; discriminate.
Qed.

Lemma valid_Ok_counts loader dset epoch no_save prefix force_save out g :
  TrainCmvn.valid gender_mapper loader dset epoch no_save prefix force_save
  = Ok out ->
  g ∈ TrainCmvn.genders ->
  TrainCmvn.gender_count gender_mapper dset loader g <> O.
Proof.
  unfold TrainCmvn.valid. intros Hv Hg.
  inv_bind Hv. rename a into acc, Ha into Hloop.
  do 3 inv_bind Hv.
  destruct (gender_meta_Ok _ _ _ _ _ g Ha1 Hg) as (c & Hc & Hnz).
  rewrite (valid_loader_cnt _ _ _ _ g Hloop) in Hc.
  simpl in Hc. rewrite zero_counts_lookup in Hc.
  - simpl in Hc. injection Hc as <-. exact Hnz.
  - unfold TrainCmvn.genders in Hg.
    rewrite !elem_of_cons in Hg. rewrite !elem_of_cons. tauto.
Qed.

End ValidProps.

(** C1, as stated, fails: on a split with one male-male example the
    category FF has no sample, and [Tester.evaluate] divides its sum by
    its zero count and raises instead of returning averages that leave
    the category out. *)
Lemma evaluate_absent_gender_raises :
  TestBaseline.gender_count Runs.mapper_mm "wsj0" Runs.loader_mm "FF" = O /\
  TestBaseline.evaluate Runs.mapper_mm false Runs.loader_mm "cv" "wsj0" ∅
  = Raise ZeroDivisionError /\
  TrainCmvn.valid Runs.mapper_mm Runs.vloader_mm "wsj0" 0 false "wsj0" false
  = Raise ZeroDivisionError.
Proof. repeat split; vm_compute; reflexivity. Qed.

(** C1, amended. [Tester.evaluate] and [Trainer.valid] divide the sum of
    every gender category by the count of that category without a guard:
    when one of the three categories has no sample in the split, the call
    raises ([ZeroDivisionError], or a [KeyError] met before the division)
    and returns no averaged metrics. *)
Theorem gender_average_unguarded
    {F : Type} `{FloatOps F}
    (g_mapper : string -> string -> string) (compute_sdr : bool)
    (loader : list (TestBaseline.batch F)) (dset dataset : string)
    (sdr0 : gmap string F) (g : string)
    (vloader : list (TrainCmvn.vbatch F)) (vdset : string) (epoch : Z)
    (no_save : bool) (prefix : string) (force_save : bool) (g' : string) :
  g ∈ TestBaseline.gs ->
  TestBaseline.gender_count g_mapper dataset loader g = O ->
  g' ∈ TrainCmvn.genders ->
  TrainCmvn.gender_count g_mapper vdset vloader g' = O ->
  (exists e,
     TestBaseline.evaluate g_mapper compute_sdr loader dset dataset sdr0
     = Raise e /\ zero_div_or_key e) /\
  (exists e,
     TrainCmvn.valid g_mapper vloader vdset epoch no_save prefix force_save
     = Raise e /\ zero_div_or_key e).
Proof.
  intros Hg Hz Hg' Hz'. split.
  - destruct (TestBaseline.evaluate g_mapper compute_sdr loader dset dataset
                sdr0) as [res|e] eqn:He.
    + exfalso. exact (evaluate_Ok_counts _ _ _ _ _ _ _ _ He Hg Hz).
    + exists e. split; [reflexivity|]. eapply evaluate_exn; eauto.
  - destruct (TrainCmvn.valid g_mapper vloader vdset epoch no_save prefix
                force_save) as [out|e] eqn:Hv.
    + exfalso. exact (valid_Ok_counts _ _ _ _ _ _ _ _ _ Hv Hg' Hz').
    + exists e. split; [reflexivity|]. eapply valid_exn; eauto.
Qed.

Lemma gender_average_unguarded_witness :
  (exists e,
     TestBaseline.evaluate Runs.mapper_mm false Runs.loader_mm "cv" "wsj0" ∅
     = Raise e /\ zero_div_or_key e) /\
  (exists e,
     TrainCmvn.valid Runs.mapper_mm Runs.vloader_mm "wsj0" 0 false "wsj0" false
     = Raise e /\ zero_div_or_key e).
Proof.
  apply (gender_average_unguarded Runs.mapper_mm false Runs.loader_mm "cv"
           "wsj0" ∅ "FF" Runs.vloader_mm "wsj0" 0 false "wsj0" false "FF").
  - unfold TestBaseline.gs. rewrite !elem_of_cons. tauto.
  - vm_compute. reflexivity.
  - unfold TrainCmvn.genders. rewrite !elem_of_cons. tauto.
  - vm_compute. reflexivity.
Defined.

(** ** The NaN guard of the adversarial loops (src/train_uns.py,
    src/train_dagan.py) *)

Section NanGuard.
Context {F : Type} `{FloatOps F}.

(** The collaborators of the unsupervised loop. *)
Variable data_gen : nat -> list (list F).
Variable G_forward : state_dict F -> list (list F) -> list (list (list F)).
Variable dis_backward :
  state_dict F -> list (list F) -> list (list F) -> F * pyfloat F.
Variable d_step :
  state_dict F * nat -> list (list F) -> list (list F) -> state_dict F * nat.
Variable gen_backward :
  state_dict F -> state_dict F -> list (list F) -> list (list F) ->
  option (list (list F) * list (list F)) -> TrainUns.gen_feedback F.
Variable g_step :
  state_dict F * nat -> state_dict F -> list (list F) -> state_dict F * nat.

(** The collaborators of the domain-adversarial loop. *)
Variable src_gen tgt_gen : nat -> list (list F).
Variable da_dis_backward da_gen_backward :
  string -> Z -> state_dict F -> state_dict F ->
  list (list F) -> list (list F) -> TrainDagan.feedback F.
Variable da_d_step da_g_step :
  state_dict F * nat -> state_dict F ->
  list (list F) -> list (list F) -> state_dict F * nat.

Abbreviation uns_dis_iter :=
  (TrainUns.dis_iter data_gen G_forward dis_backward d_step).
Abbreviation uns_dis_iters :=
  (TrainUns.dis_iters data_gen G_forward dis_backward d_step).
Abbreviation uns_gen_iter :=
  (TrainUns.gen_iter data_gen G_forward gen_backward g_step).
Abbreviation uns_gen_iters :=
  (TrainUns.gen_iters data_gen G_forward gen_backward g_step).
Abbreviation da_dis_iter :=
  (TrainDagan.dis_iter src_gen tgt_gen da_dis_backward da_d_step).
Abbreviation da_dis_iters :=
  (TrainDagan.dis_iters src_gen tgt_gen da_dis_backward da_d_step).
Abbreviation da_gen_iter :=
  (TrainDagan.gen_iter src_gen tgt_gen da_gen_backward da_g_step).
Abbreviation da_gen_iters :=
  (TrainDagan.gen_iters src_gen tgt_gen da_gen_backward da_g_step).

(** The discriminator iteration of the unsupervised loop. *)
Lemma uns_dis_guard (t : TrainUns.trainer F) (step : Z)
    (remix : list (list F)) :
  Tensor.remix_of (G_forward (TrainUns.G t) (data_gen (TrainUns.gen_pos t)))
  = Ok remix ->
  let real := data_gen (S (TrainUns.gen_pos t)) in
  let fb := dis_backward (TrainUns.D t) remix real in
  exists t',
    uns_dis_iter step t = Ok (t', fb.1) /\
    (forall n tot, uns_dis_iters (S n) step t tot
                   = uns_dis_iters n step t' (fadd tot fb.1)) /\
    (TrainUns.G t', TrainUns.g_optim t') = (TrainUns.G t, TrainUns.g_optim t) /\
    TrainUns.guard_outcome fb.2 step
      (TrainUns.D t, TrainUns.d_optim t)
      (d_step (TrainUns.D t, TrainUns.d_optim t) remix real)
      (TrainUns.D t', TrainUns.d_optim t')
      (TrainUns.stdout t) (TrainUns.stdout t').
Proof.
  intros Hremix real fb. subst real fb.
  unfold TrainUns.guard_outcome.
  unfold TrainUns.dis_iter. rewrite Hremix. simpl.
  destruct (dis_backward _ _ _) as [d_loss gn] eqn:Hb. simpl.
  destruct (isnan gn) eqn:En.
  - eexists. split; [reflexivity|]. split.
    + intros n tot. simpl. unfold TrainUns.dis_iter.
      rewrite Hremix. simpl. rewrite Hb, En. reflexivity.
    + simpl. auto.
  - eexists. split; [reflexivity|]. split.
    + intros n tot. simpl. unfold TrainUns.dis_iter.
      rewrite Hremix. simpl. rewrite Hb, En. reflexivity.
    + simpl. split; [reflexivity|]. split; [|reflexivity].
      destruct (d_step _ _ _); reflexivity.
Qed.

(** The generator iteration of the unsupervised loop, with the cyclic
    term switched on. *)
Lemma uns_gen_guard (t : TrainUns.trainer F) (step : Z)
    (remix : list (list F)) (rr : list (list F) * list (list F)) :
  Tensor.remix_of (G_forward (TrainUns.G t) (data_gen (TrainUns.gen_pos t)))
  = Ok remix ->
  TrainUns.re_remixes G_forward t remix = Ok (Some rr) ->
  let mixture := data_gen (TrainUns.gen_pos t) in
  let fb := gen_backward (TrainUns.G t) (TrainUns.D t) mixture remix
              (Some rr) in
  exists t',
    uns_gen_iter step t = Ok (t', fb) /\
    (forall n a b c d,
       uns_gen_iters (S n) step t (a, b, c, d)
       = uns_gen_iters n step t'
           (fadd a (TrainUns.gf_g_loss fb), fadd b (TrainUns.gf_gan_loss fb),
            fadd c (TrainUns.gf_Le fb), fadd d (TrainUns.gf_Lc fb))) /\
    (TrainUns.D t', TrainUns.d_optim t') = (TrainUns.D t, TrainUns.d_optim t) /\
    TrainUns.guard_outcome (TrainUns.gf_grad_norm fb) step
      (TrainUns.G t, TrainUns.g_optim t)
      (g_step (TrainUns.G t, TrainUns.g_optim t) (TrainUns.D t) mixture)
      (TrainUns.G t', TrainUns.g_optim t')
      (TrainUns.stdout t) (TrainUns.stdout t').
Proof.
  intros Hremix Hrr mixture fb. subst mixture fb.
  unfold TrainUns.guard_outcome, TrainUns.gen_iter.
  rewrite Hremix. simpl. rewrite Hrr. simpl.
  eexists. split; [reflexivity|]. split.
  - intros n a b c d. simpl. unfold TrainUns.gen_iter.
    rewrite Hremix. simpl. rewrite Hrr. reflexivity.
  - destruct (isnan _) eqn:En; simpl; [auto|].
    split; [reflexivity|]. split; [|reflexivity].
    destruct (g_step _ _ _); reflexivity.
Qed.

(** The two iterations of the domain-adversarial loop. *)
Lemma da_dis_guard (u : TrainDagan.trainer F) (step : Z) (prefix : string)
    (y : TrainDagan.tally) :
  TrainDagan.known_adv (TrainDagan.adv_loss u) = true ->
  let src := src_gen (TrainDagan.src_pos u) in
  let tgt := tgt_gen (TrainDagan.tgt_pos u) in
  let fb := da_dis_backward (TrainDagan.adv_loss u) step
              (TrainDagan.D u) (TrainDagan.G u) src tgt in
  exists u' y',
    da_dis_iter step prefix u y = Ok (u', y') /\
    (forall n, da_dis_iters (S n) step prefix u y
               = da_dis_iters n step prefix u' y') /\
    (TrainDagan.G u', TrainDagan.g_optim u')
    = (TrainDagan.G u, TrainDagan.g_optim u) /\
    TrainUns.guard_outcome (TrainDagan.fb_grad_norm fb) step
      (TrainDagan.D u, TrainDagan.d_optim u)
      (da_d_step (TrainDagan.D u, TrainDagan.d_optim u) (TrainDagan.G u)
         src tgt)
      (TrainDagan.D u', TrainDagan.d_optim u')
      (TrainDagan.stdout u) (TrainDagan.stdout u').
Proof.
  intros Hadv src tgt fb. subst src tgt fb.
  unfold TrainUns.guard_outcome, TrainDagan.dis_iter. rewrite Hadv. simpl.
  destruct (isnan _) eqn:En.
  - do 2 eexists. split; [reflexivity|]. split.
    + intros n. simpl. unfold TrainDagan.dis_iter.
      rewrite Hadv. simpl. rewrite En. reflexivity.
    + simpl. auto.
  - do 2 eexists. split; [reflexivity|]. split.
    + intros n. simpl. unfold TrainDagan.dis_iter.
      rewrite Hadv. simpl. rewrite En. reflexivity.
    + simpl. split; [reflexivity|]. split; [|reflexivity].
      destruct (da_d_step _ _ _ _); reflexivity.
Qed.

Lemma da_gen_guard (u : TrainDagan.trainer F) (step : Z)
    (y : TrainDagan.tally) :
  TrainDagan.known_adv (TrainDagan.adv_loss u) = true ->
  let src := src_gen (TrainDagan.src_pos u) in
  let tgt := tgt_gen (TrainDagan.tgt_pos u) in
  let fb := da_gen_backward (TrainDagan.adv_loss u) step
              (TrainDagan.G u) (TrainDagan.D u) src tgt in
  exists u' y',
    da_gen_iter step u y = Ok (u', y') /\
    (forall n, da_gen_iters (S n) step u y = da_gen_iters n step u' y') /\
    (TrainDagan.D u', TrainDagan.d_optim u')
    = (TrainDagan.D u, TrainDagan.d_optim u) /\
    TrainUns.guard_outcome (TrainDagan.fb_grad_norm fb) step
      (TrainDagan.G u, TrainDagan.g_optim u)
      (da_g_step (TrainDagan.G u, TrainDagan.g_optim u) (TrainDagan.D u)
         src tgt)
      (TrainDagan.G u', TrainDagan.g_optim u')
      (TrainDagan.stdout u) (TrainDagan.stdout u').
Proof.
  intros Hadv src tgt fb. subst src tgt fb.
  unfold TrainUns.guard_outcome, TrainDagan.gen_iter. rewrite Hadv. simpl.
  do 2 eexists. split; [reflexivity|]. split.
  - intros n. simpl. unfold TrainDagan.gen_iter.
    rewrite Hadv. reflexivity.
  - destruct (isnan _) eqn:En; simpl; [auto|].
    split; [reflexivity|]. split; [|reflexivity].
    destruct (da_g_step _ _ _ _); reflexivity.
Qed.


End NanGuard.



(** ** The remix of the unsupervised loop (src/train_uns.py) *)

Section RemixProps.
Context {F : Type} `{FloatOps F}.
Local Open Scope nat_scope.

Lemma lookup_concat_uniform {A} (l : list (list A)) (C i c : nat)
    (r : list A) (x : A) :
  Forall (fun r => length r = C) l ->
  l !! i = Some r -> r !! c = Some x ->
  concat l !! (i * C + c) = Some x.
Proof.
  intros Hall. revert i. induction Hall as [|r0 l Hr0 Hall IH]; intros i Hi Hc.
  - discriminate.
  - destruct i as [|i]; simpl in *.
    + injection Hi as ->. rewrite lookup_app_l; [exact Hc|].
      eapply lookup_lt_Some; eauto.
    + rewrite lookup_app_r by lia.
      replace (C + i * C + c - length r0) with (i * C + c) by lia.
      apply IH; assumption.
Qed.

Lemma length_concat_uniform {A} (l : list (list A)) (C : nat) :
  Forall (fun r => length r = C) l -> length (concat l) = length l * C.
Proof.
  induction 1 as [|r l Hr _ IH]; simpl; [reflexivity|].
  rewrite length_app, IH, Hr. reflexivity.
Qed.

Lemma chunk2_even {A} (x : list A) (h : nat) :
  length x = 2 * h -> 1 <= h ->
  Tensor.chunk2 x = Ok (take h x, drop h x).
Proof.
  intros Hlen Hh. unfold Tensor.chunk2.
  destruct x as [|a x'] eqn:Ex; [simpl in Hlen; lia|]. rewrite <- Ex in *.
  replace ((length x + 1) / 2) with h.
  - destruct (drop h x) as [|b y] eqn:Ed; [|reflexivity].
    apply (f_equal length) in Ed. rewrite length_drop in Ed. simpl in Ed. lia.
  - rewrite Hlen. apply Nat.div_unique with 1; lia.
Qed.

Lemma add2_length (a b : list (list F)) (C : nat) :
  length a = C -> length b = C -> length (Tensor.add2 a b) = C.
Proof.
  intros Ha Hb. unfold Tensor.add2. rewrite length_zip_with. lia.
Qed.

End RemixProps.

(** C6, as stated, fails: on a batch of two examples the single pair of
    remix rows sums the two examples source by source, not the two
    sources of one example. *)
Lemma remix_is_not_own_sources :
  Tensor.remix_of Runs.est2 = Ok [[11]; [22]]%Q /\
  Tensor.own_sources_remix Runs.est2 = [[3]; [30]]%Q /\
  Tensor.remix_of Runs.est2 <> Ok (Tensor.own_sources_remix Runs.est2).
Proof.
  repeat split; try (vm_compute; reflexivity).
  vm_compute. discriminate.
Qed.

(** C6, amended. In the unsupervised variant, for a batch of an even
    number [2h] of examples with [C] estimated sources each, the remix fed
    to the discriminator has [h * C] rows, and row [i * C + c] is the sum
    of source [c] of example [i] and source [c] of example [i + h]: the
    estimates of the first half of the batch are mixed with those of the
    second half, source by source. *)
Theorem remix_pairs_batch_halves
    {F : Type} `{FloatOps F} (estimate_source : list (list (list F)))
    (h C i c : nat) (exa exb : list (list F)) (a b : list F) :
  length estimate_source = (2 * h)%nat ->
  (1 <= h)%nat ->
  Forall (fun ex => length ex = C) estimate_source ->
  (i < h)%nat ->
  estimate_source !! i = Some exa ->
  estimate_source !! (i + h)%nat = Some exb ->
  exa !! c = Some a ->
  exb !! c = Some b ->
  exists remix,
    Tensor.remix_of estimate_source = Ok remix /\
    length remix = (h * C)%nat /\
    remix !! (i * C + c)%nat = Some (zip_with fadd a b).
Proof.
  intros Hlen Hh Hall Hi Ha Hb Hca Hcb.
  unfold Tensor.remix_of. rewrite (chunk2_even _ h Hlen Hh). simpl.
  unfold Tensor.add3.
  assert (Hl1 : length (take h estimate_source) = h)
    by (rewrite length_take; lia).
  assert (Hl2 : length (drop h estimate_source) = h)
    by (rewrite length_drop; lia).
  rewrite Hl1, Hl2, Nat.eqb_refl. simpl.
  eexists. split; [reflexivity|].
  assert (Hrows : Forall (fun r : list (list F) => length r = C)
            (zip_with Tensor.add2 (take h estimate_source)
               (drop h estimate_source))).
  { rewrite Forall_forall in Hall. apply Forall_forall. intros r Hr.
    apply list_elem_of_lookup in Hr as [j Hj].
    apply lookup_zip_with_Some in Hj as (x & y & -> & Hx & Hy).
    apply add2_length; apply Hall.
    - eapply list_elem_of_lookup_2, lookup_take_Some; eauto.
    - rewrite lookup_drop in Hy. eapply list_elem_of_lookup_2; eauto. }
  unfold Tensor.view2. split.
  - rewrite (length_concat_uniform _ C Hrows), length_zip_with. lia.
  - apply (lookup_concat_uniform _ C i c (Tensor.add2 exa exb)); [exact Hrows| |].
    + apply lookup_zip_with_Some. exists exa, exb. split; [reflexivity|].
      split.
      * rewrite lookup_take_lt by lia. exact Ha.
      * rewrite lookup_drop. rewrite Nat.add_comm. exact Hb.
    + unfold Tensor.add2. apply lookup_zip_with_Some. eauto.
Qed.

Lemma remix_pairs_batch_halves_witness :
  exists remix,
    Tensor.remix_of Runs.est2 = Ok remix /\
    length remix = (1 * 2)%nat /\
    remix !! (0 * 2 + 1)%nat = Some (zip_with fadd [2%Q] [20%Q]).
Proof.
  apply (remix_pairs_batch_halves Runs.est2 1 2 0 1
           [[1]; [2]]%Q [[10]; [20]]%Q [2%Q] [20%Q]).
  - reflexivity.
  - lia.
  - repeat constructor.
  - lia.
  - reflexivity.
  - reflexivity.
  - reflexivity.
  - reflexivity.
Defined.

(** ** The feature statistics of the cmvn variant (src/train_cmvn.py) *)

Section StatProps.
Context {F : Type} `{FloatOps F}.
Local Open Scope nat_scope.

Abbreviation column := (TrainCmvn.column (F := F)).

Lemma foldl_zip_lookup (rows : list (list F)) (N c : nat) (acc : list F)
    (x : F) :
  Forall (fun r => length r = N) rows ->
  length acc = N -> acc !! c = Some x ->
  foldl (zip_with fadd) acc rows !! c
  = Some (foldl fadd x (column c <$> rows)).
Proof.
  intros Hall. revert acc x.
  induction Hall as [|r rows Hr Hall IH]; intros acc x Hacc Hx; simpl.
  - exact Hx.
  - assert (Hc : c < N) by (rewrite <- Hacc; eapply lookup_lt_Some; eauto).
    destruct (lookup_lt_is_Some_2 r c ltac:(lia)) as [rc Hrc].
    unfold TrainCmvn.column at 1. rewrite Hrc. simpl. apply IH.
    + rewrite length_zip_with. lia.
    + apply lookup_zip_with_Some. eauto.
Qed.

Lemma sum_dim0_lookup (rows : list (list F)) (N c : nat) :
  rows <> [] -> Forall (fun r => length r = N) rows -> c < N ->
  TrainCmvn.sum_dim0 rows !! c = Some (fsum (column c <$> rows)).
Proof.
  intros Hne Hall Hc. unfold TrainCmvn.sum_dim0, fsum.
  assert (Hs : TrainCmvn.size_last rows = N).
  { destruct rows as [|r rows]; [contradiction|].
    simpl. apply Forall_cons in Hall as [Hr _]. exact Hr. }
  rewrite Hs. apply (foldl_zip_lookup rows N c); [exact Hall| |].
  - apply length_replicate.
  - apply lookup_replicate_2. exact Hc.
Qed.

Lemma stack_inv (rows mm : list (list F)) :
  TrainCmvn.stack rows = Ok mm ->
  mm = rows /\ rows <> [] /\
  exists N, Forall (fun r => length r = N) rows.
Proof.
  unfold TrainCmvn.stack. destruct rows as [|r rows]; [discriminate|].
  destruct (forallb _ _) eqn:E; [|discriminate]. intros [= <-].
  split; [reflexivity|]. split; [discriminate|].
  exists (length r). apply Forall_forall. intros r' Hr'.
  rewrite forallb_forall in E. apply Nat.eqb_eq, E.
  apply list_elem_of_In. exact Hr'.
Qed.

(** What lines 336-339 compute, entry by entry: the weighted average of
    column [c] of the per-utterance rows. *)
Lemma weighted_lookup (stats : list (list F * nat)) (r : list F) :
  TrainCmvn.weighted stats = Ok r ->
  exists N,
    Forall (fun s => length s.1 = N) stats /\ stats <> [] /\
    length r = N /\
    forall c, c < N ->
      r !! c = Some (TrainCmvn.weighted_average
                       ((fun s : list F * nat => (column c s.1, s.2))
                        <$> stats)).
Proof.
  unfold TrainCmvn.weighted. intros Hw.
  destruct stats as [|s0 stats'] eqn:Es; [discriminate|]. rewrite <- Es in *.
  assert (Hne : stats <> []) by (rewrite Es; discriminate).
  clear Es s0 stats'.
  inv_bind Hw. apply stack_inv in Ha as (-> & _ & N & Hall).
  injection Hw as <-.
  exists N. rewrite Forall_fmap in Hall. split; [exact Hall|].
  split; [exact Hne|].
  set (ss := (fun s : list F * nat => f_of_nat s.2) <$> stats).
  set (scaled := zip_with _ _ ss).
  assert (Hsc : scaled
                = (fun s : list F * nat =>
                     (fun x : F => fmul x (f_of_nat s.2)) <$> s.1) <$> stats).
  { unfold scaled, ss. clear. induction stats as [|s l IH]; simpl;
      [reflexivity|]. f_equal. exact IH. }
  assert (Hrows : Forall (fun r : list F => length r = N) scaled).
  { rewrite Hsc. apply Forall_fmap. eapply Forall_impl; [exact Hall|].
    intros s Hs. unfold compose in Hs. simpl. rewrite length_fmap. exact Hs. }
  assert (Hsne : scaled <> []).
  { rewrite Hsc. destruct stats; [contradiction|discriminate]. }
  split.
  - rewrite length_fmap. unfold TrainCmvn.sum_dim0.
    assert (Hgen : forall acc : list F, length acc = N ->
              length (foldl (zip_with fadd) acc scaled) = N).
    { clear Hsc Hsne. induction Hrows as [|r0 l Hr0 _ IH]; intros acc Hacc;
        simpl; [exact Hacc|].
      apply IH. rewrite length_zip_with. lia. }
    apply Hgen. rewrite length_replicate.
    destruct scaled as [|r0 l]; [contradiction|].
    apply Forall_cons in Hrows as [Hr0 _]. exact Hr0.
  - intros c Hc. rewrite list_lookup_fmap.
    rewrite (sum_dim0_lookup scaled N c Hsne Hrows Hc). simpl.
    unfold TrainCmvn.weighted_average. f_equal. f_equal.
    + f_equal. rewrite Hsc, <- !list_fmap_compose.
      apply Forall_fmap_ext_1. eapply Forall_impl; [exact Hall|].
      intros s Hs. unfold compose in Hs. simpl.
      destruct (lookup_lt_is_Some_2 s.1 c ltac:(lia)) as [x Hx].
      unfold TrainCmvn.column. rewrite list_lookup_fmap, Hx. reflexivity.
    + f_equal. unfold ss. rewrite <- list_fmap_compose. reflexivity.
Qed.

End StatProps.

Section PassProps.
Context {F : Type} `{FloatOps F}.
Variable encoder : list (param F) -> list F -> list (list F).
Variable fs : Dataset.disk F.
Local Open Scope nat_scope.

Abbreviation encode_all := (TrainCmvn.encode_all encoder fs).
Abbreviation first_pass := (TrainCmvn.first_pass encoder fs).
Abbreviation second_pass := (TrainCmvn.second_pass encoder fs).

(** The first pass keeps, per utterance, the mean of every channel and
    the number of frames. *)
Lemma first_pass_encode t root (l : Dataset.manifest) stats :
  first_pass t root l = Ok stats ->
  exists specs,
    encode_all t root l = Ok specs /\
    stats = (fun spec : list (list F) =>
               (TrainCmvn.row_mean <$> spec, TrainCmvn.size_last spec))
            <$> specs.
Proof.
  revert stats. induction l as [|[uid u] l IH]; intros stats Hp; simpl in *.
  - injection Hp as <-. exists []. auto.
  - inv_bind Hp. inv_bind Hp. injection Hp as <-.
    destruct (IH _ Ha0) as (specs & He & ->).
    exists (a :: specs). rewrite Ha. simpl. rewrite He. auto.
Qed.

Abbreviation second_entry := (TrainCmvn.second_entry (F := F)).

Lemma sub_rows_lookup (spec d : list (list F)) (m : list F) c mc r :
  TrainCmvn.sub_rows spec m = Ok d ->
  m !! c = Some mc -> spec !! c = Some r ->
  d !! c = Some ((fun x : F => fsub x mc) <$> r).
Proof.
  unfold TrainCmvn.sub_rows. intros Hd Hm Hr.
  destruct (_ || _).
  - injection Hd as <-.
    rewrite list_lookup_imap, Hr. simpl. f_equal.
    destruct (length m =? 1) eqn:E.
    + apply Nat.eqb_eq in E.
      assert (c = 0) as -> by (apply lookup_lt_Some in Hm; lia).
      rewrite Hm. reflexivity.
    + rewrite Hm. reflexivity.
  - destruct spec as [|r0 [|r1 spec]]; try discriminate.
    injection Hd as <-.
    assert (c = 0) as -> by (apply lookup_lt_Some in Hr; simpl in Hr; lia).
    injection Hr as ->. rewrite list_lookup_fmap, Hm. reflexivity.
Qed.

Lemma sub_rows_length (spec d : list (list F)) (m : list F) :
  TrainCmvn.sub_rows spec m = Ok d ->
  length spec = length m -> length d = length spec.
Proof.
  unfold TrainCmvn.sub_rows. intros Hd Hl.
  apply Nat.eqb_eq in Hl. rewrite Hl in Hd. simpl in Hd. injection Hd as <-.
  apply length_imap.
Qed.

Lemma second_pass_encode t root m (l : Dataset.manifest) stats specs :
  second_pass t root m l = Ok stats ->
  encode_all t root l = Ok specs ->
  Forall (fun spec => length spec = length m) specs ->
  Forall2 (second_entry m) stats specs.
Proof.
  revert stats specs.
  induction l as [|[uid u] l IH]; intros stats specs Hp He Hlen; simpl in *.
  - injection Hp as <-. injection He as <-. constructor.
  - inv_bind Hp. rename a into spec, Ha into Hs.
    inv_bind Hp. rename a into d, Ha into Hd.
    inv_bind Hp. injection Hp as <-.
    rewrite Hs in He. simpl in He. inv_bind He. injection He as <-.
    apply Forall_cons in Hlen as [Hl Hlen].
    constructor; [|eapply IH; eauto].
    split; [reflexivity|]. split.
    { simpl. rewrite length_fmap. eapply sub_rows_length; eauto. }
    intros c mc r Hm Hr. simpl.
    rewrite list_lookup_fmap, (sub_rows_lookup _ _ _ _ _ _ Hd Hm Hr). simpl.
    rewrite <- list_fmap_compose. reflexivity.
Qed.

End PassProps.

Section FreezeProps.
Context {F : Type} `{FloatOps F}.

(** A frozen parameter takes no part in the backward pass and has no
    gradient for the optimizer to apply. *)
Abbreviation inert :=
  (fun p : param F =>
     TrainCmvn.is_frozen p = true -> requires_grad p = false /\ grad p = None).

Lemma load_state_dict_grad strict (sd : state_dict F) ps ps' :
  load_state_dict strict sd ps = Ok ps' ->
  Forall (fun p => grad p = None) ps ->
  Forall (fun p => grad p = None) ps'.
Proof.
  unfold load_state_dict. destruct (_ && _); [discriminate|].
  intros [= <-] Hall. apply Forall_fmap. eapply Forall_impl; [exact Hall|].
  intros p Hp. simpl. destruct (sd !! p_name p); simpl; exact Hp.
Qed.

Lemma freeze_module_grad md (ps : list (param F)) :
  Forall (fun p => grad p = None) ps ->
  Forall (fun p => grad p = None) (TrainCmvn.freeze_module md ps).
Proof.
  intros Hall. apply Forall_fmap. eapply Forall_impl; [exact Hall|].
  intros p Hp. simpl. destruct (module_eqb _ _); simpl; exact Hp.
Qed.

Lemma freeze_both_flags (ps : list (param F)) :
  Forall (fun p => TrainCmvn.is_frozen p = true -> requires_grad p = false)
    (TrainCmvn.freeze_module Decoder (TrainCmvn.freeze_module Encoder ps)).
Proof.
  unfold TrainCmvn.freeze_module. rewrite <- list_fmap_compose.
  apply Forall_fmap, Forall_forall. intros p _. unfold compose. simpl.
  unfold TrainCmvn.is_frozen.
  destruct p as [n md v rg g]; destruct md; simpl; auto; discriminate.
Qed.

(** [set_model] ends with the two calls of [freeze_module]. *)
Lemma set_model_frozen cfg (st : store F) t0 t1 :
  TrainCmvn.set_model cfg st t0 = Ok t1 ->
  Forall (fun p => grad p = None) (TrainCmvn.model t0) ->
  Forall inert (TrainCmvn.model t1).
Proof.
  unfold TrainCmvn.set_model. intros Hs Hg.
  inv_bind Hs. rename a into ta, Ha into Hpre.
  inv_bind Hs. destruct a as [tb od]. rename Ha into Hres.
  inv_bind Hs. injection Hs as <-. simpl.
  assert (Hga : Forall (fun p => grad p = None) (TrainCmvn.model ta)).
  { destruct (String.eqb _ _); [discriminate|].
    do 4 inv_bind Hpre. injection Hpre as <-. simpl.
    eapply load_state_dict_grad; eauto. }
  assert (Hgb : Forall (fun p => grad p = None) (TrainCmvn.model tb)).
  { unfold TrainCmvn.resume_block in Hres.
    destruct (TrainCmvn.resume_model ta).
    - do 7 inv_bind Hres. injection Hres as <- _. simpl.
      eapply load_state_dict_grad; eauto.
    - injection Hres as <- _. exact Hga. }
  pose proof (freeze_both_flags (TrainCmvn.model tb)) as Hfl.
  pose proof (freeze_module_grad Decoder _
                (freeze_module_grad Encoder _ Hgb)) as Hgr.
  rewrite Forall_forall in Hfl, Hgr. apply Forall_forall.
  intros p Hp Hf. split; [apply Hfl; assumption | apply Hgr; assumption].
Qed.

Section Train.
Variable TB : Type.
Variable backward : list (param F) -> TB -> F * (string -> F).
Variable upd : F -> F -> F.

Lemma step_inert g (p : param F) :
  inert p -> TrainCmvn.is_frozen p = true ->
  TrainCmvn.opt_step upd (TrainCmvn.store_grad g p) = p.
Proof.
  intros Hi Hf. destruct (Hi Hf) as [Hr Hg].
  unfold TrainCmvn.store_grad. rewrite Hr.
  unfold TrainCmvn.opt_step. rewrite Hg. reflexivity.
Qed.

Lemma step_module g (p : param F) :
  TrainCmvn.is_frozen (TrainCmvn.opt_step upd (TrainCmvn.store_grad g p))
  = TrainCmvn.is_frozen p.
Proof.
  unfold TrainCmvn.store_grad, TrainCmvn.opt_step.
  destruct (requires_grad p); simpl; [reflexivity|].
  destruct (grad p); reflexivity.
Qed.

Lemma steps_keep_frozen g (ps : list (param F)) :
  Forall inert ps ->
  let ps' := TrainCmvn.opt_step upd <$> (TrainCmvn.store_grad g <$> ps) in
  List.filter TrainCmvn.is_frozen ps' = List.filter TrainCmvn.is_frozen ps /\
  Forall inert ps'.
Proof.
  induction 1 as [|p ps Hp Hall [IH1 IH2]]; simpl; [split; constructor|].
  rewrite step_module.
  destruct (Bool.bool_dec (TrainCmvn.is_frozen p) true) as [Ef|Ef].
  - rewrite (step_inert g p Hp Ef), Ef. split.
    + f_equal. exact IH1.
    + constructor; [exact Hp|exact IH2].
  - apply Bool.not_true_is_false in Ef. rewrite Ef. split; [exact IH1|].
    constructor; [|exact IH2].
    intros Hf. rewrite step_module, Ef in Hf. discriminate.
Qed.

(** Training leaves the frozen parameters and the statistics alone. *)
Lemma train_one_epoch_frozen (batches : list TB) (t : TrainCmvn.trainer F) :
  Forall inert (TrainCmvn.model t) ->
  let t' := TrainCmvn.train_one_epoch TB backward upd t batches in
  TrainCmvn.norm_stat t' = TrainCmvn.norm_stat t /\
  List.filter TrainCmvn.is_frozen (TrainCmvn.model t')
  = List.filter TrainCmvn.is_frozen (TrainCmvn.model t) /\
  Forall inert (TrainCmvn.model t').
Proof.
  unfold TrainCmvn.train_one_epoch. revert t.
  induction batches as [|b batches IH]; intros t Hin; simpl; [auto|].
  assert (Hb : TrainCmvn.norm_stat (TrainCmvn.train_batch TB backward upd t b)
               = TrainCmvn.norm_stat t /\
               TrainCmvn.model (TrainCmvn.train_batch TB backward upd t b)
               = TrainCmvn.opt_step upd
                   <$> (TrainCmvn.store_grad
                          (backward (TrainCmvn.model t) b).2
                        <$> TrainCmvn.model t)).
  { unfold TrainCmvn.train_batch.
    destruct (backward (TrainCmvn.model t) b) as [l g]. simpl. auto. }
  destruct Hb as [Hn Hm].
  destruct (steps_keep_frozen (backward (TrainCmvn.model t) b).2 _ Hin)
    as [Hf Hi].
  rewrite <- Hm in Hf, Hi.
  destruct (IH _ Hi) as (H1 & H2 & H3).
  split; [congruence|]. split; [congruence|exact H3].
Qed.

End Train.
End FreezeProps.

Section NormStatProps.
Context {F : Type} `{FloatOps F}.
Local Open Scope nat_scope.

Lemma mean_entries (specs : list (list (list F))) (N c : nat) :
  Forall (fun spec => length spec = N) specs -> c < N ->
  (fun s : list F * nat => (TrainCmvn.column c s.1, s.2))
  <$> ((fun spec : list (list F) =>
          (TrainCmvn.row_mean <$> spec, TrainCmvn.size_last spec)) <$> specs)
  = (fun spec : list (list F) =>
       (TrainCmvn.row_mean (TrainCmvn.channel spec c),
        TrainCmvn.size_last spec)) <$> specs.
Proof.
  intros Hall Hc. rewrite <- list_fmap_compose.
  apply Forall_fmap_ext_1. eapply Forall_impl; [exact Hall|].
  intros spec Hs. unfold compose. simpl in *. f_equal.
  destruct (lookup_lt_is_Some_2 spec c ltac:(lia)) as [r Hr].
  unfold TrainCmvn.column, TrainCmvn.channel.
  rewrite list_lookup_fmap, Hr. reflexivity.
Qed.

Lemma var_entries (m : list F) (var : list (list F * nat))
    (specs : list (list (list F))) (N c : nat) (mc : F) :
  Forall2 (TrainCmvn.second_entry m) var specs ->
  Forall (fun spec => length spec = N) specs ->
  c < N -> m !! c = Some mc ->
  (fun s : list F * nat => (TrainCmvn.column c s.1, s.2)) <$> var
  = (fun spec : list (list F) =>
       (TrainCmvn.row_mean (TrainCmvn.sq_dev mc <$> TrainCmvn.channel spec c),
        TrainCmvn.size_last spec)) <$> specs.
Proof.
  intros H2 Hall Hc Hm.
  induction H2 as [|s spec var specs (Hs2 & _ & Hs1) _ IH]; [reflexivity|].
  apply Forall_cons in Hall as [Hl Hall]. simpl in *.
  f_equal; [|apply IH, Hall].
  destruct (lookup_lt_is_Some_2 spec c ltac:(lia)) as [r Hr].
  unfold TrainCmvn.column, TrainCmvn.channel.
  rewrite (Hs1 c mc r Hm Hr), Hr, Hs2. reflexivity.
Qed.

End NormStatProps.



(** ** The validation loss of the unsupervised loop (src/train_uns.py) *)

(** C7. On a held-out loader of two batches with losses 1 and 3 and a
    training loader of four batches, [Trainer.valid] reports
    [(1 + 3) / 4 = 1]: the accumulated loss is divided by
    [len(self.tr_loader)], whereas the mean over the held-out loader is
    [(1 + 3) / 2 = 2]. *)
Theorem uns_valid_divides_by_train_loader :
  TrainUns.tr_loader_len Runs.uns_t0 = 4%nat /\
  TrainUns.valid_loss [1; 3]%Q Runs.uns_t0 = Ok 1%Q /\
  TrainUns.held_out_mean [1; 3]%Q = Ok 2%Q /\
  exists t',
    TrainUns.valid [1; 3]%Q 5 Runs.uns_t0 = Ok t' /\
    TrainUns.writer t' = [("valid/pit_loss", 1%Q, 0)].
Proof.
  repeat split; try (vm_compute; reflexivity).
  eexists. split; [reflexivity|]. vm_compute. reflexivity.
Qed.

(** Whatever the loaders, the value logged is the accumulated loss over
    the length of the training loader. *)
Lemma uns_valid_logs_valid_loss {F : Type} `{FloatOps F}
    (losses : list F) (step : Z) (t t' : TrainUns.trainer F) :
  TrainUns.valid losses step t = Ok t' ->
  exists v,
    TrainUns.valid_loss losses t = Ok v /\
    TrainUns.writer t'
    = TrainUns.writer t ++ [("valid/pit_loss", v, TrainUns.valid_time t)].
Proof.
  unfold TrainUns.valid, TrainUns.valid_loss. intros Hv. inv_bind Hv.
  injection Hv as <-. exists a. split; [exact Ha|reflexivity].
Qed.

(** ** Resuming (src/train_cmvn.py, src/train_dagan.py) *)

Lemma head_range2 (a b : Z) : a < b -> head (range2 a b) = Some a.
Proof.
  intros Hab. unfold range2, range.
  destruct (Z.to_nat (b - a)) as [|n] eqn:E; [lia|].
  simpl. f_equal. lia.
Qed.

Section ResumeProps.
Context {F : Type} `{FloatOps F}.

(** The resume block of the cmvn loop takes the epoch counter, and the
    step counter when there is one, from the record it loads. *)
Lemma cmvn_resume_block_counters cfg (st : store F) ta tb od info e :
  TrainCmvn.resume_model ta = true ->
  torch_load st (path_join (TrainCmvn.save_dir ta) "latest.pth") = Ok info ->
  info !! "epoch" = Some (VInt e) ->
  TrainCmvn.resume_block cfg st ta = Ok (tb, od) ->
  TrainCmvn.start_epoch tb = e + 1 /\
  TrainCmvn.epochs tb = TrainCmvn.epochs ta /\
  TrainCmvn.dash_epoch tb = Some (e + 2) /\
  match info !! "step" with
  | Some v => as_int v = Ok (TrainCmvn.step tb)
  | None => TrainCmvn.step tb = TrainCmvn.step ta
  end.
Proof.
  intros Hr Hload He. unfold TrainCmvn.resume_block.
  rewrite Hr, Hload. simpl. intros Hb.
  inv_bind Hb. unfold map_get in Hb. rewrite He in Hb. simpl in Hb.
  inv_bind Hb. rename a0 into stp, Ha0 into Hstp.
  do 3 inv_bind Hb. injection Hb as <- _. simpl.
  split; [reflexivity|]. split; [reflexivity|]. split; [f_equal; lia|].
  destruct (info !! "step"); [exact Hstp|].
  injection Hstp as <-. reflexivity.
Qed.

Lemma cmvn_set_model_resume cfg (st : store F) t0 t1 info e :
  TrainCmvn.resume_model t0 = true ->
  torch_load st (path_join (TrainCmvn.save_dir t0) "latest.pth") = Ok info ->
  info !! "epoch" = Some (VInt e) ->
  TrainCmvn.set_model cfg st t0 = Ok t1 ->
  TrainCmvn.start_epoch t1 = e + 1 /\
  TrainCmvn.epochs t1 = TrainCmvn.epochs t0 /\
  TrainCmvn.dash_epoch t1 = Some (e + 2) /\
  match info !! "step" with
  | Some v => as_int v = Ok (TrainCmvn.step t1)
  | None => TrainCmvn.step t1 = TrainCmvn.step t0
  end.
Proof.
  intros Hr Hload He. unfold TrainCmvn.set_model. intros Hs.
  inv_bind Hs. rename a into ta, Ha into Hpre.
  inv_bind Hs. destruct a as [tb od]. rename Ha into Hres.
  inv_bind Hs. injection Hs as <-. simpl.
  assert (Hta : TrainCmvn.resume_model ta = TrainCmvn.resume_model t0 /\
                TrainCmvn.save_dir ta = TrainCmvn.save_dir t0 /\
                TrainCmvn.epochs ta = TrainCmvn.epochs t0 /\
                TrainCmvn.step ta = TrainCmvn.step t0).
  { destruct (String.eqb _ _); [discriminate|].
    do 4 inv_bind Hpre. injection Hpre as <-. simpl. auto. }
  destruct Hta as (E1 & E2 & E3 & E4).
  rewrite <- E1 in Hr. rewrite <- E2 in Hload.
  destruct (cmvn_resume_block_counters _ _ _ _ _ _ _ Hr Hload He Hres)
    as (A & B & C & D).
  rewrite <- E3, <- E4. auto.
Qed.

(** Resuming the domain-adversarial loop restores networks and optimizer
    states and leaves every counter as the configuration set it. *)
Lemma dagan_set_model_counters cfg (st : store F) t0 t1 :
  TrainDagan.set_model cfg st t0 = Ok t1 ->
  TrainDagan.start_step t1 = TrainDagan.start_step t0 /\
  TrainDagan.total_steps t1 = TrainDagan.total_steps t0 /\
  TrainDagan.pretrain_d_step t1 = TrainDagan.pretrain_d_step t0.
Proof.
  unfold TrainDagan.set_model. intros Hs.
  destruct (String.eqb _ _); [injection Hs as <-; auto|].
  do 7 inv_bind Hs. injection Hs as <-. simpl. auto.
Qed.

End ResumeProps.

(** C3, as stated, fails for the step-based loops: the domain-adversarial
    loop resumed from a checkpoint written at step 100 starts again at the
    configured [start_step], here 0, not at step 101. *)
Lemma dagan_resume_restarts_at_start_step :
  Runs.da_store "exp/100.pth" ≫= (fun info => info !! "step")
  = Some (VInt 100) /\
  exists t',
    TrainDagan.set_model Runs.da_resume_cfg Runs.da_store Runs.da_resume_t0
    = Ok t' /\
    TrainDagan.g_optim t' = 7%nat /\
    head (TrainDagan.steps_run t') = Some 0.
Proof.
  split; [vm_compute; reflexivity|].
  eexists. split; [vm_compute; reflexivity|].
  split; vm_compute; reflexivity.
Qed.

(** C3, amended. The epoch-based cmvn loop constructed with resume
    requested takes its epoch counter from the loaded checkpoint record:
    [start_epoch] is the checkpointed epoch plus one, so the first epoch
    run after resume is the successor of the checkpointed one, and the
    step counter is the record's [step] when it has one and is left as it
    was otherwise. The step-based domain-adversarial loop restores the
    networks and optimizer states only: its step loop runs from the
    configured [start_step]. *)
Theorem resume_restores_epoch_counter_only
    {F : Type} `{FloatOps F}
    (cfg : TrainCmvn.config) (st : store F) (t0 t1 : TrainCmvn.trainer F)
    (info : info_dict F) (e : Z)
    (dcfg : TrainDagan.config F) (dst : store F)
    (u0 u1 : TrainDagan.trainer F) :
  TrainCmvn.resume_model t0 = true ->
  torch_load st (path_join (TrainCmvn.save_dir t0) "latest.pth") = Ok info ->
  info !! "epoch" = Some (VInt e) ->
  TrainCmvn.set_model cfg st t0 = Ok t1 ->
  TrainDagan.set_model dcfg dst u0 = Ok u1 ->
  (TrainCmvn.start_epoch t1 = e + 1 /\
   TrainCmvn.epochs_run t1 = range2 (e + 1) (TrainCmvn.epochs t0) /\
   (e + 1 < TrainCmvn.epochs t0 ->
    head (TrainCmvn.epochs_run t1) = Some (e + 1)) /\
   match info !! "step" with
   | Some v => as_int v = Ok (TrainCmvn.step t1)
   | None => TrainCmvn.step t1 = TrainCmvn.step t0
   end) /\
  (TrainDagan.start_step u1 = TrainDagan.start_step u0 /\
   TrainDagan.steps_run u1 = TrainDagan.steps_run u0).
Proof.
  intros Hr Hload He Hset Hd.
  destruct (cmvn_set_model_resume _ _ _ _ _ _ Hr Hload He Hset)
    as (A & B & _ & D).
  destruct (dagan_set_model_counters _ _ _ _ Hd) as (A' & B' & _).
  split.
  - unfold TrainCmvn.epochs_run. rewrite A, B.
    split; [reflexivity|]. split; [reflexivity|].
    split; [apply head_range2|exact D].
  - unfold TrainDagan.steps_run. rewrite A', B'. auto.
Qed.

Lemma resume_restores_epoch_counter_only_witness :
  exists t1 u1,
    TrainCmvn.set_model Runs.cmvn_resume_cfg Runs.cmvn_resume_store
      Runs.cmvn_resume_t0 = Ok t1 /\
    TrainDagan.set_model Runs.da_resume_cfg Runs.da_store Runs.da_resume_t0
    = Ok u1 /\
    TrainCmvn.start_epoch t1 = 3 + 1 /\
    TrainDagan.start_step u1 = TrainDagan.start_step Runs.da_resume_t0.
Proof.
  destruct (TrainCmvn.set_model Runs.cmvn_resume_cfg Runs.cmvn_resume_store
              Runs.cmvn_resume_t0) as [t1|] eqn:Ht;
    [|vm_compute in Ht; discriminate].
  destruct (TrainDagan.set_model Runs.da_resume_cfg Runs.da_store
              Runs.da_resume_t0) as [u1|] eqn:Hu;
    [|vm_compute in Hu; discriminate].
  exists t1, u1. split; [reflexivity|]. split; [reflexivity|].
  destruct (resume_restores_epoch_counter_only Runs.cmvn_resume_cfg
              Runs.cmvn_resume_store Runs.cmvn_resume_t0 t1
              (<["epoch" := VInt 3]>
               (<["valid_score" := VScore 0%Q]>
               (<["optim" := VOptim 5]>
               {["state_dict" :=
                   VState (<["enc.w" := 2%Q]>
                           (<["sep.w" := 2%Q]> {["dec.w" := 2%Q]}))]})))
              3 Runs.da_resume_cfg Runs.da_store Runs.da_resume_t0 u1)
    as [(A & _) (B & _)].
  - reflexivity.
  - vm_compute. reflexivity.
  - vm_compute. reflexivity.
  - exact Ht.
  - exact Hu.
  - split; [exact A|exact B].
Defined.

(** The unsupervised loop reads an [epoch] entry on resume and stores its
    successor in [start_epoch], which its step loop never consults. *)
Lemma uns_set_model_counters {F : Type} `{FloatOps F}
    (cfg : TrainUns.config F) (st : store F) (t0 t1 : TrainUns.trainer F) :
  TrainUns.set_model cfg st t0 = Ok t1 ->
  TrainUns.steps_run t1 = TrainUns.steps_run t0.
Proof.
  unfold TrainUns.set_model. intros Hs.
  destruct (String.eqb _ _); [injection Hs as <-; reflexivity|].
  do 8 inv_bind Hs. injection Hs as <-. reflexivity.
Qed.

(** ** Construction of the domain classifier (src/domain_cls.py) *)

Lemma resolve_unbound (locals : list (string * DomainCls.pyval)) (x : string) :
  assoc x locals = None ->
  bool_decide (x ∈ DomainCls.module_globals ++ DomainCls.builtins) = false ->
  DomainCls.resolve locals x = Raise (NameError x).
Proof. unfold DomainCls.resolve. intros -> ->. reflexivity. Qed.

(** None of the three names the [conv] branch reads is bound at module
    level or built in. *)
Lemma conv_branch_names_unbound :
  Forall (fun x => x ∉ DomainCls.module_globals ++ DomainCls.builtins)
    ["layers"; "norm_type"; "act"].
Proof.
  repeat (constructor;
          [cbv beta;
           match goal with
           | |- ?x ∉ ?l =>
               assert (E : bool_decide (x ∈ l) = false)
                 by (vm_compute; reflexivity);
               apply bool_decide_eq_false in E; exact E
           end|]).
  constructor.
Qed.

(** C10, as stated, fails: a type string that matches no branch, here
    [mlp], constructs a classifier (one without a network), so the three
    listed types are not the only ones that construct; and [conv2d-patch]
    does not construct at all, its class name being unbound. *)
Lemma unknown_type_constructs :
  DomainCls.DomainClassifier (DomainCls.PInt 128)
    (DomainCls.PDict [("type", DomainCls.PStr "mlp")])
  = Ok (DomainCls.Classifier (DomainCls.PInt 128) (DomainCls.PStr "mlp") None)
  /\
  DomainCls.DomainClassifier (DomainCls.PInt 128)
    (DomainCls.PDict [("type", DomainCls.PStr "conv2d-patch")])
  = Raise (NameError "Conv2dClassifier").
Proof. split; vm_compute; reflexivity. Qed.

(** C10, amended. Constructing a [DomainClassifier] whose configured type
    is [conv] raises [NameError] for every configuration and every [B]:
    the branch reads [layers], which no scope binds. The types
    [conv-patch] and [LSTM] can be constructed, and so can every type
    string that matches no branch, which yields a classifier without a
    network. *)
Theorem conv_type_never_constructs
    (B config : DomainCls.pyval) (other : string) :
  DomainCls.subscript config "type" = Ok (DomainCls.PStr "conv") ->
  other ∉ ["conv"; "conv-patch"; "conv2d-patch"; "LSTM"; "linear"] ->
  DomainCls.DomainClassifier B config = Raise (NameError "layers") /\
  (exists cfg net,
     DomainCls.subscript cfg "type" = Ok (DomainCls.PStr "conv-patch") /\
     DomainCls.DomainClassifier B cfg
     = Ok (DomainCls.Classifier B (DomainCls.PStr "conv-patch") (Some net))) /\
  (exists cfg net,
     DomainCls.subscript cfg "type" = Ok (DomainCls.PStr "LSTM") /\
     DomainCls.DomainClassifier B cfg
     = Ok (DomainCls.Classifier B (DomainCls.PStr "LSTM") (Some net))) /\
  DomainCls.DomainClassifier B
    (DomainCls.PDict [("type", DomainCls.PStr other)])
  = Ok (DomainCls.Classifier B (DomainCls.PStr other) None).
Proof.
  intros Htype Hother. split; [|split; [|split]].
  - unfold DomainCls.DomainClassifier. rewrite Htype. simpl.
    (* [enumerate] is a built-in; [layers] is bound nowhere *)
    reflexivity.
  - exists (DomainCls.PDict
              [("type", DomainCls.PStr "conv-patch");
               ("norm_type", DomainCls.PStr "spectral");
               ("layers",
                DomainCls.PList
                  [DomainCls.PDict [("filters", DomainCls.PInt 64);
                                    ("kernel", DomainCls.PInt 3);
                                    ("stride", DomainCls.PInt 2)];
                   DomainCls.PDict [("filters", DomainCls.PInt 1);
                                    ("kernel", DomainCls.PInt 3);
                                    ("stride", DomainCls.PInt 1)]])]).
    eexists. split; reflexivity.
  - exists (DomainCls.PDict
              [("type", DomainCls.PStr "LSTM");
               ("layers", DomainCls.PInt 2);
               ("hidden_size", DomainCls.PInt 32);
               ("dropout", DomainCls.PFloat (1 # 10))]).
    eexists. split; reflexivity.
  - assert (Hne : forall s,
              s ∈ ["conv"; "conv-patch"; "conv2d-patch"; "LSTM"; "linear"] ->
              String.eqb other s = false).
    { intros s Hs. apply String.eqb_neq. intros ->. contradiction. }
    unfold DomainCls.DomainClassifier, DomainCls.is_str. simpl.
    rewrite !Hne by (rewrite !elem_of_cons; tauto). reflexivity.
Qed.

Lemma conv_type_never_constructs_witness :
  DomainCls.DomainClassifier (DomainCls.PInt 128)
    (DomainCls.PDict
       [("type", DomainCls.PStr "conv");
        ("norm_type", DomainCls.PStr "spectral");
        ("layers", DomainCls.PList [])])
  = Raise (NameError "layers") /\
  DomainCls.DomainClassifier (DomainCls.PInt 128)
    (DomainCls.PDict [("type", DomainCls.PStr "mlp")])
  = Ok (DomainCls.Classifier (DomainCls.PInt 128) (DomainCls.PStr "mlp") None).
Proof.
  destruct (conv_type_never_constructs (DomainCls.PInt 128)
              (DomainCls.PDict
                 [("type", DomainCls.PStr "conv");
                  ("norm_type", DomainCls.PStr "spectral");
                  ("layers", DomainCls.PList [])])
              "mlp")
    as (A & _ & _ & D).
  - reflexivity.
  - rewrite !elem_of_cons. intros [E|[E|[E|[E|[E|E]]]]];
      try discriminate E. inversion E.
  - split; [exact A|exact D].
Defined.

(* ================================================================== *)
(** * Part III: further properties of the code                         *)
(* ================================================================== *)

(** ** The sample provider (src/dataset.py) *)

(** X1. With a positive segment length the chunks of an utterance tile
    it: there are [ceil(utt_len / seg_len)] of them, chunk [k] starts
    at [k * seg_len], ends where the next one starts or at the end of
    the utterance, and is never empty. *)
Theorem split_chunks_tile (uid : string) (utt_len sl : Z)
    (infos : list Dataset.info) :
  0 < sl -> 0 <= utt_len ->
  Dataset.split_chunks uid utt_len sl = Ok infos ->
  Z.of_nat (length infos) = (utt_len + sl - 1) / sl /\
  forall (k : nat) (i : Dataset.info), infos !! k = Some i ->
    Dataset.i_uid i = uid /\
    Dataset.i_s i = Z.of_nat k * sl /\
    Dataset.i_e i = Z.min ((Z.of_nat k + 1) * sl) utt_len /\
    Dataset.i_s i < Dataset.i_e i.
Proof.
  intros Hsl Hlen. unfold Dataset.split_chunks.
  destruct (sl =? 0) eqn:E0; [lia|]. intros [= <-].
  pose proof (Z.div_mod utt_len sl ltac:(lia)) as Hdm.
  pose proof (Z.mod_pos_bound utt_len sl Hsl) as Hm.
  assert (Hq : 0 <= utt_len / sl) by (apply Z.div_pos; lia).
  set (q := utt_len / sl) in *. set (m := utt_len mod sl) in *.
  set (seg_num := if m >? 0 then q + 1 else q).
  assert (Hseg : seg_num = (utt_len + sl - 1) / sl).
  { unfold seg_num. destruct (m >? 0) eqn:Em.
    - apply (Z.div_unique _ _ _ (m - 1)); lia.
    - apply (Z.div_unique _ _ _ (sl - 1)); lia. }
  assert (Hlast : (seg_num - 1) * sl < utt_len \/ seg_num = 0).
  { unfold seg_num. destruct (m >? 0) eqn:Em; [left; nia|].
    destruct (Z.eq_dec q 0); [right; assumption|left; nia]. }
  assert (Hle : seg_num - 1 <= q) by (unfold seg_num; destruct (m >? 0); lia).
  assert (Hnn : 0 <= seg_num) by (unfold seg_num; destruct (m >? 0); lia).
  split.
  - rewrite length_fmap. unfold range. rewrite length_fmap, length_seq. lia.
  - intros k i Hk. rewrite list_lookup_fmap in Hk.
    destruct (range seg_num !! k) as [j|] eqn:Ej; [|discriminate].
    injection Hk as <-. simpl.
    unfold range in Ej. rewrite list_lookup_fmap in Ej.
    destruct (seq 0 (Z.to_nat seg_num) !! k) as [k'|] eqn:Ek; [|discriminate].
    apply lookup_seq in Ek as [-> Hlt]. injection Ej as <-. simpl.
    split; [reflexivity|]. split; [reflexivity|].
    destruct (Z.of_nat k =? seg_num - 1) eqn:Eq; split; try nia.
Qed.

Lemma split_chunks_tile_witness :
  exists infos,
    Dataset.split_chunks "a" 5 3 = Ok infos /\
    Z.of_nat (length infos) = (5 + 3 - 1) / 3 /\
    forall (k : nat) (i : Dataset.info), infos !! k = Some i ->
      Dataset.i_uid i = "a" /\
      Dataset.i_s i = Z.of_nat k * 3 /\
      Dataset.i_e i = Z.min ((Z.of_nat k + 1) * 3) 5 /\
      Dataset.i_s i < Dataset.i_e i.
Proof.
  eexists. split; [reflexivity|].
  apply (split_chunks_tile "a" 5 3); [lia | lia | reflexivity].
Defined.

(** X2. In training mode an utterance shorter than the segment length
    contributes no entry, whichever chunking is chosen; with one chunk
    per utterance the entries are exactly the utterances that are long
    enough, in manifest order. *)
Theorem tr_mode_drops_short_utterances (oc : bool) (sl : Z)
    (d : Dataset.manifest) (ids : list Dataset.info) :
  Dataset.init_id_list Dataset.Tr oc (Some sl) d = Ok ids ->
  (forall i, i ∈ ids ->
     exists u, (Dataset.i_uid i, u) ∈ d /\
               DatasetAux.long_enough sl (Dataset.i_uid i, u) = true) /\
  (oc = true ->
   ids = DatasetAux.one_chunk_entry
         <$> List.filter (DatasetAux.long_enough sl) d).
Proof.
  revert ids. induction d as [|[uid u] d IH]; intros ids Hinit.
  - injection Hinit as <-. split; [intros i Hi; inversion Hi|reflexivity].
  - simpl in Hinit. inv_bind Hinit. rename a into infos, Ha into Hentry.
    inv_bind Hinit. rename a into rest, Ha into Hrest.
    injection Hinit as <-. destruct (IH rest Hrest) as [IH1 IH2].
    unfold Dataset.init_entry in Hentry. inv_bind Hentry.
    destruct a as [path utt_len]. rename Ha into Hmix.
    unfold map_get in Hmix.
    destruct (u !! "mix") as [[path' len']|] eqn:Eu; [|discriminate].
    injection Hmix as -> ->. simpl in Hentry.
    assert (Hlong : DatasetAux.long_enough sl (uid, u)
                    = (utt_len >=? sl)).
    { unfold DatasetAux.long_enough. simpl. rewrite Eu.
      destruct (sl <=? utt_len) eqn:E1, (utt_len >=? sl) eqn:E2; lia. }
    split.
    + intros i Hi. apply elem_of_app in Hi as [Hi|Hi].
      * destruct (utt_len >=? sl) eqn:Ege.
        -- assert (Huid : Dataset.i_uid i = uid).
           { destruct oc.
             - injection Hentry as <-. apply list_elem_of_singleton in Hi.
               subst i. reflexivity.
             - unfold Dataset.split_chunks in Hentry.
               destruct (sl =? 0); [discriminate|]. injection Hentry as <-.
               apply list_elem_of_fmap in Hi as (j & -> & _). reflexivity. }
           exists u. rewrite Huid. split; [left|]. congruence.
        -- injection Hentry as <-. inversion Hi.
      * destruct (IH1 i Hi) as (u' & Hin & Hl). exists u'.
        split; [right; assumption|assumption].
    + intros ->. rewrite (IH2 eq_refl). simpl. rewrite Hlong.
      destruct (utt_len >=? sl); injection Hentry as <-; reflexivity.
Qed.

Lemma tr_mode_drops_short_utterances_witness :
  (forall i, i ∈ [Dataset.MkInfo "a" "a" (-1) (-1)] ->
     exists u, (Dataset.i_uid i, u) ∈ Runs.manifest_short /\
               DatasetAux.long_enough 4 (Dataset.i_uid i, u) = true) /\
  (true = true ->
   [Dataset.MkInfo "a" "a" (-1) (-1)]
   = DatasetAux.one_chunk_entry
     <$> List.filter (DatasetAux.long_enough 4) Runs.manifest_short).
Proof.
  apply (tr_mode_drops_short_utterances true 4 Runs.manifest_short).
  reflexivity.
Defined.

(** X3. Whatever the mode, a served mixture is a window of the stored
    mixture followed by zeros up to the segment length, and [ilens] is
    the length of the window. With one chunk per utterance the window
    has the segment length and starts at a drawn offset [s] with
    [s + seg_len < len(mix)]: the last sample of an utterance is never
    served. Otherwise the window is the one the entry names. *)
Theorem getitem_serves_window_then_zeros
    {F : Type} `{FloatOps F} (fs : Dataset.disk F) (ds : Dataset.wsj0 F)
    (sl idx : Z) (r : nat) (smp : Dataset.sample F) :
  Dataset.seg_len ds = Some sl ->
  Dataset.getitem fs ds idx r = Ok smp ->
  exists (i : Dataset.info) (m s1 s2 : list F) (s e : Z),
    Py.getitem (Dataset.id_list ds) idx = Ok i /\
    Dataset.load_channels fs ds (Dataset.i_uid i) = Ok (m, s1, s2) /\
    (if Dataset.one_chunk ds
     then 0 <= s /\ s + sl < Z.of_nat (length m) /\ e = s + sl
     else s = Dataset.i_s i /\ e = Dataset.i_e i) /\
    Dataset.uid smp = Dataset.i_uid i /\
    Dataset.cid smp = Dataset.i_cid i /\
    Dataset.ilens smp = Z.of_nat (length (slice m s e)) /\
    Dataset.mix smp
    = slice m s e ++ replicate (Z.to_nat sl - length (slice m s e)) f0.
Proof.
  intros Hsl Hg. unfold Dataset.getitem in Hg.
  inv_bind Hg. rename a into i, Ha into Hi.
  inv_bind Hg. destruct a as [[ma s1] s2]. rename Ha into Hload.
  inv_bind Hg. destruct a as [s e]. rename Ha into Hse.
  inv_bind Hg. rename a into n, Ha into Hn.
  rewrite Hsl in Hn. injection Hn as <-.
  inv_bind Hg. destruct a as [[ma' s1'] s2']. rename Ha into Hpad.
  inv_bind Hg. rename Ha into Hst. apply stack2_inv in Hst as ->.
  injection Hg as <-. simpl.
  exists i, ma, s1, s2, s, e.
  split; [exact Hi|]. split; [exact Hload|].
  split.
  { destruct (Dataset.one_chunk ds).
    - rewrite Hsl in Hse. simpl in Hse. inv_bind Hse.
      injection Hse as <- <-. apply randint_lower in Ha. lia.
    - injection Hse as <- <-. split; reflexivity. }
  split; [reflexivity|]. split; [reflexivity|]. split; [reflexivity|].
  set (w := slice ma s e) in *.
  destruct (Z.of_nat (length w) <? sl) eqn:Elt.
  - inv_bind Hpad. rename a into pm, Ha into Hpm.
    inv_bind Hpad. inv_bind Hpad. injection Hpad as <- _ _.
    unfold Dataset.pad_audio in Hpm. rewrite Hsl in Hpm. simpl in Hpm.
    destruct (sl <? 0) eqn:E; [discriminate|].
    assert (Ht : Z.to_nat (slice_bound sl (Z.of_nat (length w)))
                 = length w).
    { unfold slice_bound.
      destruct (Z.of_nat (length w) <? 0) eqn:E'; lia. }
    rewrite Ht, Nat.eqb_refl in Hpm. injection Hpm as <-. reflexivity.
  - injection Hpad as <- _ _.
    replace (Z.to_nat sl - length w)%nat with O by lia.
    simpl. rewrite app_nil_r. reflexivity.
Qed.

Lemma getitem_serves_window_then_zeros_witness :
  exists (i : Dataset.info) (m s1 s2 : list Q) (s e : Z),
    Py.getitem (Dataset.id_list Runs.ds_cv) 1 = Ok i /\
    Dataset.load_channels Runs.disk1 Runs.ds_cv (Dataset.i_uid i)
    = Ok (m, s1, s2) /\
    (if Dataset.one_chunk Runs.ds_cv
     then 0 <= s /\ s + 3 < Z.of_nat (length m) /\ e = s + 3
     else s = Dataset.i_s i /\ e = Dataset.i_e i) /\
    Dataset.uid (Dataset.Sample "a" "a_1" 2 [11; 13; 0]%Q
                   [[4; 5; 0]%Q; [7; 8; 0]%Q]) = Dataset.i_uid i /\
    Dataset.cid (Dataset.Sample "a" "a_1" 2 [11; 13; 0]%Q
                   [[4; 5; 0]%Q; [7; 8; 0]%Q]) = Dataset.i_cid i /\
    Dataset.ilens (Dataset.Sample "a" "a_1" 2 [11; 13; 0]%Q
                     [[4; 5; 0]%Q; [7; 8; 0]%Q])
    = Z.of_nat (length (slice m s e)) /\
    Dataset.mix (Dataset.Sample "a" "a_1" 2 [11; 13; 0]%Q
                   [[4; 5; 0]%Q; [7; 8; 0]%Q])
    = slice m s e ++ replicate (Z.to_nat 3 - length (slice m s e)) f0.
Proof.
  apply (getitem_serves_window_then_zeros Runs.disk1 Runs.ds_cv 3 1 0);
    vm_compute; reflexivity.
Defined.

(** ** The infinite generator and the configuration reader
    (src/utils.py) *)

Section GenStream.
Context {A : Type}.
Variable ld : Utils.loader A.
Local Open Scope nat_scope.

(** A frame that has not returned never does, and [__next__] never
    raises [StopIteration] on it. *)
Lemma next_keeps_running (fuel : nat) (g : Utils.gen A) :
  Utils.g_pc g <> Utils.Returned ->
  Utils.next fuel ld g <> Utils.StopIteration /\
  forall s g', Utils.next fuel ld g = Utils.Yielded s g' ->
               Utils.g_pc g' <> Utils.Returned.
Proof.
  revert g. induction fuel as [|fuel IH]; intros [c p] Hc; simpl.
  - split; [discriminate|]. intros s g' [=].
  - unfold Utils.step. simpl. destruct c as [|[|x rest]|]; simpl.
    + apply IH. discriminate.
    + apply IH. discriminate.
    + split; [discriminate|]. intros s g' [= <- <-]. discriminate.
    + contradiction.
Qed.

Lemma kth_next_keeps_running (fuel k : nat) (g : Utils.gen A) :
  Utils.g_pc g <> Utils.Returned ->
  Utils.kth_next fuel ld g k <> Utils.StopIteration.
Proof.
  revert g. induction k as [|k IH]; intros g Hg;
    destruct (next_keeps_running fuel g Hg) as [Hns Hy]; simpl;
    destruct (Utils.next fuel ld g) as [s g'| |] eqn:E;
    try discriminate; try contradiction.
  apply IH. apply (Hy s g'). reflexivity.
Qed.

(** On a loader that never has a batch the body spins between the
    [while] and the [for]. *)
Lemma next_spins (fuel p : nat) (c : Utils.pc) :
  (forall q, ld q = []) ->
  c = Utils.AtWhile \/ c = Utils.InFor [] ->
  Utils.next fuel ld (Utils.Gen c p) = Utils.Running.
Proof.
  intros Hempty. revert p c.
  induction fuel as [|fuel IH]; intros p c Hc; [reflexivity|].
  simpl. unfold Utils.step. simpl. destruct Hc as [-> | ->].
  - rewrite Hempty. apply IH. right. reflexivity.
  - apply IH. left. reflexivity.
Qed.

(** A call that yields hands the next call the frame it left. *)
Lemma kth_next_yield (fuel k : nat) (g g' : Utils.gen A) (s : A) :
  Utils.next fuel ld g = Utils.Yielded s g' ->
  Utils.kth_next fuel ld g k
  = match k with
    | O => Utils.Yielded s g'
    | S k' => Utils.kth_next fuel ld g' k'
    end.
Proof. intros Hn. destruct k; cbn [Utils.kth_next]; rewrite Hn; reflexivity. Qed.

Hypothesis Hne : forall p, ld p <> [].

(** With no empty pass, what the frame yields from inside pass [p] on
    is the rest of that pass followed by the passes after it. *)
Lemma kth_next_stream (fuel : nat) :
  3 <= fuel ->
  forall (k : nat) (rest : list A) (p m : nat),
    k < length (rest ++ concat (ld <$> seq p m)) ->
    Utils.yielded_value
      (Utils.kth_next fuel ld (Utils.Gen (Utils.InFor rest) p) k)
    = (rest ++ concat (ld <$> seq p m)) !! k.
Proof.
  intros Hf.
  destruct fuel as [|[|[|fuel]]]; try lia.
  assert (Hnext : forall rest p x r,
            (rest = x :: r \/ (rest = [] /\ ld p = x :: r)) ->
            exists p',
              Utils.next (S (S (S fuel))) ld (Utils.Gen (Utils.InFor rest) p)
              = Utils.Yielded x (Utils.Gen (Utils.InFor r) p')
              /\ p' = (match rest with [] => S p | _ => p end)).
  { intros rest p x r [-> | [-> Hp]].
    - exists p. split; reflexivity.
    - exists (S p). simpl. unfold Utils.step. simpl. rewrite Hp.
      split; reflexivity. }
  induction k as [|k IH]; intros rest p m Hk.
  - destruct rest as [|x r].
    + destruct m as [|m]; [simpl in Hk; lia|].
      destruct (ld p) as [|x r] eqn:Hp; [destruct (Hne p Hp)|].
      destruct (Hnext [] p x r) as (p' & Hn & _); [right; split; auto|].
      rewrite (kth_next_yield _ _ _ _ _ Hn).
      simpl. rewrite Hp. reflexivity.
    + reflexivity.
  - destruct rest as [|x r].
    + destruct m as [|m]; [simpl in Hk; lia|].
      destruct (ld p) as [|x r] eqn:Hp; [destruct (Hne p Hp)|].
      destruct (Hnext [] p x r) as (p' & Hn & ->); [right; split; auto|].
      rewrite (kth_next_yield _ _ _ _ _ Hn).
      simpl in Hk. rewrite Hp in Hk. simpl in Hk.
      rewrite (IH r (S p) m) by (apply Nat.succ_lt_mono; exact Hk).
      simpl. rewrite Hp. reflexivity.
    + destruct (Hnext (x :: r) p x r) as (p' & Hn & ->); [left; reflexivity|].
      rewrite (kth_next_yield _ _ _ _ _ Hn).
      simpl in Hk. rewrite (IH r p m) by (apply Nat.succ_lt_mono; exact Hk).
      reflexivity.
Qed.

End GenStream.

(** X4. When the passes over the loader differ (a shuffling loader)
    but none is empty, the generator yields the batches of pass 0 in
    order, then those of pass 1, and so on: call [k] returns entry [k]
    of the concatenation of the passes. *)
Theorem inf_data_gen_follows_passes
    {A : Type} (ld : Utils.loader A) (fuel k m : nat) :
  (forall p, ld p <> []) ->
  (3 <= fuel)%nat ->
  (k < length (concat (ld <$> seq 0 m)))%nat ->
  Utils.yielded_value (Utils.kth_next fuel ld Utils.inf_data_gen k)
  = concat (ld <$> seq 0 m) !! k.
Proof.
  intros Hne Hf Hk.
  destruct m as [|m]; [simpl in Hk; lia|].
  destruct (ld O) as [|x r] eqn:H0; [destruct (Hne O H0)|].
  assert (Hn : Utils.next fuel ld Utils.inf_data_gen
               = Utils.Yielded x (Utils.Gen (Utils.InFor r) 1)).
  { destruct fuel as [|[|fuel]]; try lia.
    simpl. unfold Utils.step. simpl. rewrite H0. reflexivity. }
  simpl in Hk. rewrite H0 in Hk. simpl in Hk.
  rewrite (kth_next_yield ld fuel k _ _ _ Hn).
  destruct k as [|k].
  - simpl. rewrite H0. reflexivity.
  - rewrite (kth_next_stream ld Hne fuel Hf k r 1 m)
      by (apply Nat.succ_lt_mono; exact Hk).
    simpl. rewrite H0. reflexivity.
Qed.

Lemma inf_data_gen_follows_passes_witness :
  Utils.yielded_value
    (Utils.kth_next 3 (fun p => [p; (p + 10)%nat]) Utils.inf_data_gen 3)
  = concat ((fun p => [p; (p + 10)%nat]) <$> seq 0 2) !! 3%nat.
Proof.
  apply (inf_data_gen_follows_passes (fun p => [p; (p + 10)%nat]) 3 3 2).
  - intros p. discriminate.
  - lia.
  - simpl. lia.
Defined.

(** X5. The generator never ends: whatever the loader yields and
    however often [__next__] is called, no call raises
    [StopIteration]. *)
Theorem inf_data_gen_never_stops
    {A : Type} (ld : Utils.loader A) (fuel k : nat) :
  Utils.kth_next fuel ld Utils.inf_data_gen k <> Utils.StopIteration.
Proof. apply kth_next_keeps_running. discriminate. Qed.

(** X6. Over a loader that has no batch (a training set smaller than
    one batch with [drop_last]) [__next__] never returns: however many
    transitions it is given, it has not yielded. *)
Theorem inf_data_gen_empty_loader_hangs
    {A : Type} (ld : Utils.loader A) (fuel k : nat) :
  (forall p, ld p = []) ->
  Utils.kth_next fuel ld Utils.inf_data_gen k = Utils.Running.
Proof.
  intros Hempty.
  assert (Hn : Utils.next fuel ld Utils.inf_data_gen = Utils.Running).
  { apply next_spins; [assumption|left; reflexivity]. }
  destruct k; simpl; rewrite Hn; reflexivity.
Qed.

Lemma inf_data_gen_empty_loader_hangs_witness :
  Utils.kth_next 1000 (fun _ => @nil nat) Utils.inf_data_gen 0
  = Utils.Running.
Proof.
  apply (inf_data_gen_empty_loader_hangs (fun _ => @nil nat) 1000 0).
  reflexivity.
Defined.

Lemma bind_Ok_l {A B} (a : A) (f : A -> result B) : Ok a ≫= f = f a.
Proof. reflexivity. Qed.

Section ReadConfig.
Import DomainCls UtilsConfig.

Lemma assoc_dict_set (d : list (string * pyval)) (k k' : string) (v : pyval) :
  assoc k' (dict_set d k v)
  = if String.eqb k' k then Some v else assoc k' d.
Proof.
  induction d as [|[k0 v0] d IH]; simpl.
  - reflexivity.
  - destruct (String.eqb k k0) eqn:E; simpl.
    + apply String.eqb_eq in E as ->.
      destruct (String.eqb k' k0); reflexivity.
    + destruct (String.eqb k' k0) eqn:E'.
      * apply String.eqb_eq in E' as ->.
        rewrite String.eqb_sym, E. reflexivity.
      * exact IH.
Qed.

Lemma assoc_keys {V} (d : list (string * V)) (k : string) :
  k ∈ d.*1 -> exists v, assoc k d = Some v.
Proof.
  induction d as [|[k0 v0] d IH]; simpl; intros Hk.
  - inversion Hk.
  - destruct (String.eqb k k0) eqn:E; [eauto|].
    apply elem_of_cons in Hk as [->|Hk]; [|auto].
    rewrite String.eqb_refl in E. discriminate.
Qed.

Lemma assoc_not_keys {V} (d : list (string * V)) (k : string) :
  k ∉ d.*1 -> assoc k d = None.
Proof.
  induction d as [|[k0 v0] d IH]; simpl; intros Hk; [reflexivity|].
  destruct (String.eqb k k0) eqn:E.
  - apply String.eqb_eq in E as ->. destruct Hk. left.
  - apply IH. intros Hin. apply Hk. right. exact Hin.
Qed.

Lemma set_path_spec (c : list (string * pyval)) (key : string) (path : pyval) :
  UtilsConfig.mergeable c ->
  exists c',
    set_path (PDict c) key path = Ok (PDict c') /\
    (exists d, assoc "data" c' = Some (PDict d)) /\
    (forall k, assoc k (data_of c')
               = if String.eqb k key then Some path else assoc k (data_of c)) /\
    (forall s, s <> "data" -> assoc s c' = assoc s c).
Proof.
  intros [Hnone | [d Hd]]; unfold set_path.
  - rewrite Hnone. unfold dict_get. rewrite assoc_dict_set. simpl.
    eexists. split; [reflexivity|]. split; [|split].
    + eexists. rewrite assoc_dict_set. simpl. reflexivity.
    + intros k. unfold data_of. rewrite assoc_dict_set, Hnone. simpl.
      destruct (String.eqb k key); reflexivity.
    + intros s Hs. rewrite !assoc_dict_set.
      apply String.eqb_neq in Hs. rewrite Hs. reflexivity.
  - rewrite Hd. unfold dict_get. rewrite Hd.
    eexists. split; [reflexivity|]. split; [|split].
    + eexists. rewrite assoc_dict_set. simpl. reflexivity.
    + intros k. unfold data_of. rewrite assoc_dict_set, Hd. simpl.
      apply assoc_dict_set.
    + intros s Hs. rewrite assoc_dict_set.
      apply String.eqb_neq in Hs. rewrite Hs. reflexivity.
Qed.

Lemma merge_spec (path_conf : list (string * pyval)) (keys : list string) :
  keys ⊆ path_conf.*1 ->
  forall c, UtilsConfig.mergeable c ->
  exists c',
    merge path_conf keys (PDict c) = Ok (PDict c') /\
    UtilsConfig.mergeable c' /\
    (keys <> [] -> exists d, assoc "data" c' = Some (PDict d)) /\
    (forall k, assoc k (data_of c')
               = if bool_decide (k ∈ keys) then assoc k path_conf
                 else assoc k (data_of c)) /\
    (forall s, s <> "data" -> assoc s c' = assoc s c).
Proof.
  induction keys as [|key keys IH]; intros Hsub c Hc.
  - exists c. split; [reflexivity|]. split; [exact Hc|].
    split; [intros []; reflexivity|]. split; [|reflexivity].
    intros k. rewrite bool_decide_eq_false_2; [reflexivity|].
    intros Hin. inversion Hin.
  - assert (Hkey : key ∈ path_conf.*1) by (apply Hsub; left).
    destruct (assoc_keys _ _ Hkey) as [path Hpath].
    destruct (set_path_spec c key path Hc) as (c1 & Hset & Hd1 & Hdata1 & Hoth1).
    destruct (IH ltac:(intros x Hx; apply Hsub; right; exact Hx) c1
                ltac:(right; exact Hd1))
      as (c' & Hm & Hc' & Hd' & Hdata & Hoth).
    exists c'.
    assert (Hrun : merge path_conf (key :: keys) (PDict c)
                   = merge path_conf keys (PDict c1)).
    { cbn [merge]. unfold dict_get. rewrite Hpath.
      rewrite bind_Ok_l, Hset. reflexivity. }
    rewrite Hrun. split; [exact Hm|]. split; [exact Hc'|].
    split.
    { intros _. destruct keys as [|k0 keys'].
      - injection Hm as <-. exact Hd1.
      - apply Hd'. discriminate. }
    split.
    + intros k. rewrite Hdata, Hdata1.
      destruct (decide (k ∈ keys)) as [Hin|Hnin].
      * rewrite !bool_decide_eq_true_2; [reflexivity| right; exact Hin | exact Hin].
      * rewrite (bool_decide_eq_false_2 _ Hnin).
        destruct (String.eqb k key) eqn:E.
        -- apply String.eqb_eq in E as ->.
           rewrite bool_decide_eq_true_2 by left. symmetry. exact Hpath.
        -- rewrite bool_decide_eq_false_2; [reflexivity|].
           intros Hin. apply elem_of_cons in Hin as [->|Hin]; [|contradiction].
           rewrite String.eqb_refl in E. discriminate.
    + intros s Hs. rewrite (Hoth s Hs). apply Hoth1, Hs.
Qed.

End ReadConfig.

(** X7. [read_config] on a configuration whose ['data'] section is
    absent or a mapping returns the configuration with every entry of
    the path file written into ['data']: a path key overrides an entry
    of ['data'] with the same name, the other entries of ['data'] and
    every other section are kept, and an empty path file leaves the
    configuration as it is (without creating ['data']). *)
Theorem read_config_merges_paths
    (c : list (string * DomainCls.pyval))
    (path_conf : list (string * DomainCls.pyval)) :
  UtilsConfig.mergeable c ->
  exists c',
    UtilsConfig.read_config (DomainCls.PDict c) path_conf
    = Ok (DomainCls.PDict c') /\
    (forall k, assoc k (UtilsConfig.data_of c')
               = match assoc k path_conf with
                 | Some v => Some v
                 | None => assoc k (UtilsConfig.data_of c)
                 end) /\
    (forall s, s <> "data" -> assoc s c' = assoc s c) /\
    (path_conf <> [] ->
     exists d, assoc "data" c' = Some (DomainCls.PDict d)) /\
    (path_conf = [] -> c' = c).
Proof.
  intros Hc.
  destruct (merge_spec path_conf path_conf.*1 ltac:(intros x Hx; exact Hx) c Hc)
    as (c' & Hm & _ & Hd & Hdata & Hoth).
  exists c'. split; [exact Hm|]. split; [|split; [exact Hoth|split]].
  - intros k. rewrite Hdata.
    destruct (decide (k ∈ path_conf.*1)) as [Hin|Hnin].
    + rewrite bool_decide_eq_true_2 by exact Hin.
      destruct (assoc_keys _ _ Hin) as [v ->]. reflexivity.
    + rewrite bool_decide_eq_false_2 by exact Hnin.
      rewrite (assoc_not_keys _ _ Hnin). reflexivity.
  - intros Hne. apply Hd. destruct path_conf; [contradiction|discriminate].
  - intros ->. injection Hm as <-. reflexivity.
Qed.

Lemma read_config_merges_paths_witness :
  exists c',
    UtilsConfig.read_config (DomainCls.PDict Runs.config_yaml)
      Runs.path_yaml
    = Ok (DomainCls.PDict c') /\
    (forall k, assoc k (UtilsConfig.data_of c')
               = match assoc k Runs.path_yaml with
                 | Some v => Some v
                 | None => assoc k (UtilsConfig.data_of Runs.config_yaml)
                 end) /\
    (forall s, s <> "data" -> assoc s c' = assoc s Runs.config_yaml) /\
    (Runs.path_yaml <> [] ->
     exists d, assoc "data" c' = Some (DomainCls.PDict d)) /\
    (Runs.path_yaml = [] -> c' = Runs.config_yaml).
Proof.
  apply (read_config_merges_paths Runs.config_yaml Runs.path_yaml).
  right. eexists. reflexivity.
Defined.

(** ** The evaluator (src/test_baseline.py) *)

Lemma zeros_lookup {F : Type} `{FloatOps F} (keys : list string) (g : string) :
  g ∈ keys -> Gender.zeros keys !! g = Some f0.
Proof.
  intros Hg. unfold Gender.zeros.
  induction keys as [|k keys IH]; [inversion Hg|].
  simpl. destruct (decide (g = k)) as [->|Hne].
  - apply lookup_insert_eq.
  - rewrite lookup_insert_ne by congruence.
    apply IH. apply elem_of_cons in Hg as [?|?]; [contradiction|assumption].
Qed.

Lemma gs_NoDup : NoDup TestBaseline.gs.
Proof.
  unfold TestBaseline.gs.
  repeat (apply NoDup_cons; split;
          [rewrite ?elem_of_cons, ?elem_of_nil; intuition discriminate|]).
  apply NoDup_nil. exact I.
Qed.

Section EvaluateMeans.
Context {F : Type} `{FloatOps F}.
Variable g_mapper : string -> string -> string.
Variable compute_sdr : bool.
Variable dataset : string.
Local Open Scope nat_scope.

Abbreviation labelled g l :=
  (filter (fun x : TestBaseline.example F =>
             g_mapper (TestBaseline.e_uid x) dataset = g) l).

(** The per-gender tables cover the three categories. *)
Abbreviation covers a :=
  (forall g, g ∈ TestBaseline.gs ->
     is_Some (TestBaseline.gender_cnt a !! g) /\
     is_Some (TestBaseline.gender_SISNRi a !! g) /\
     is_Some (TestBaseline.gender_SDR a !! g)).

(** What the accumulator [a'] holds once the examples [l] have been
    added to [a]. *)
Abbreviation tracked a l a' :=
  (TestBaseline.total_SISNRi a'
   = foldl fadd (TestBaseline.total_SISNRi a) (TestBaseline.e_sisnri <$> l) /\
   TestBaseline.total_SDR a'
   = (if compute_sdr
      then foldl fadd (TestBaseline.total_SDR a) (TestBaseline.e_sdr <$> l)
      else TestBaseline.total_SDR a) /\
   forall g,
     TestBaseline.gender_cnt a' !! g
     = (fun c => c + length (labelled g l)) <$> TestBaseline.gender_cnt a !! g /\
     TestBaseline.gender_SISNRi a' !! g
     = (fun s => foldl fadd s (TestBaseline.e_sisnri <$> labelled g l))
       <$> TestBaseline.gender_SISNRi a !! g /\
     TestBaseline.gender_SDR a' !! g
     = (if compute_sdr
        then (fun s => foldl fadd s (TestBaseline.e_sdr <$> labelled g l))
             <$> TestBaseline.gender_SDR a !! g
        else TestBaseline.gender_SDR a !! g)).

Lemma fmap_foldl_nil (o : option F) :
  (fun s => foldl fadd s []) <$> o = o.
Proof. destruct o; reflexivity. Qed.

Lemma fmap_foldl_app (o : option F) (l1 l2 : list F) :
  (fun s => foldl fadd s l2) <$> ((fun s => foldl fadd s l1) <$> o)
  = (fun s => foldl fadd s (l1 ++ l2)) <$> o.
Proof. destruct o; simpl; [rewrite foldl_app|]; reflexivity. Qed.

Lemma tracked_nil a : tracked a [] a.
Proof.
  split; [reflexivity|]. split; [destruct compute_sdr; reflexivity|].
  intros g. rewrite filter_nil. simpl.
  rewrite fmap_add_0, fmap_foldl_nil.
  destruct compute_sdr; [rewrite fmap_foldl_nil|]; auto.
Qed.

Lemma tracked_app a a1 a2 l1 l2 :
  tracked a l1 a1 -> tracked a1 l2 a2 -> tracked a (l1 ++ l2) a2.
Proof.
  intros (Hs1 & Hd1 & Hg1) (Hs2 & Hd2 & Hg2).
  split; [|split].
  - rewrite Hs2, Hs1, fmap_app, foldl_app. reflexivity.
  - rewrite Hd2, Hd1. destruct compute_sdr; [|reflexivity].
    rewrite fmap_app, foldl_app. reflexivity.
  - intros g. destruct (Hg1 g) as (Hc1 & Hi1 & Hr1).
    destruct (Hg2 g) as (Hc2 & Hi2 & Hr2).
    rewrite filter_app, !fmap_app, length_app.
    split; [|split].
    + rewrite Hc2, Hc1. apply fmap_add_add.
    + rewrite Hi2, Hi1. apply fmap_foldl_app.
    + rewrite Hr2, Hr1. destruct compute_sdr; [|reflexivity].
      apply fmap_foldl_app.
Qed.

Lemma tracked_covers a l a' : tracked a l a' -> covers a -> covers a'.
Proof.
  intros (_ & _ & Hg) Hc g Hin. destruct (Hc g Hin) as (H1 & H2 & H3).
  destruct (Hg g) as (-> & -> & ->).
  split; [|split].
  - apply fmap_is_Some, H1.
  - apply fmap_is_Some, H2.
  - destruct compute_sdr; [apply fmap_is_Some|]; exact H3.
Qed.

Lemma eval_example_run a x :
  covers a ->
  g_mapper (TestBaseline.e_uid x) dataset ∈ TestBaseline.gs ->
  exists a',
    TestBaseline.eval_example g_mapper compute_sdr dataset a x = Ok a' /\
    TestBaseline.total_loss a' = TestBaseline.total_loss a /\
    TestBaseline.total_cnt a' = TestBaseline.total_cnt a /\
    tracked a [x] a'.
Proof.
  intros Hc Hlab. destruct (Hc _ Hlab) as ([c Ec] & [s Es] & [d Ed]).
  unfold TestBaseline.eval_example, Gender.dict_incr, Gender.dict_add, map_get.
  set (lab := g_mapper (TestBaseline.e_uid x) dataset) in *.
  rewrite Ec, Es. simpl.
  assert (Hfilter : forall g,
            labelled g [x] = if decide (g = lab) then [x] else []).
  { intros g. rewrite filter_cons, filter_nil. fold lab.
    destruct (decide (lab = g)) as [->|Hne].
    - rewrite decide_True by reflexivity. reflexivity.
    - rewrite decide_False by congruence. reflexivity. }
  destruct compute_sdr; [rewrite Ed; simpl|];
    (eexists; split; [reflexivity|]; split; [reflexivity|];
     split; [reflexivity|]; split; [reflexivity|];
     split; [reflexivity|]; intros g; rewrite Hfilter; simpl;
     destruct (decide (g = lab)) as [->|Hne];
     [ rewrite !lookup_insert_eq, ?Ec, ?Es, ?Ed; simpl;
       repeat split; f_equal; lia
     | rewrite !lookup_insert_ne by congruence; simpl;
       rewrite fmap_add_0, !fmap_foldl_nil; auto ]).
Qed.

Lemma eval_examples_run l : forall a,
  covers a ->
  (forall x, x ∈ l ->
     g_mapper (TestBaseline.e_uid x) dataset ∈ TestBaseline.gs) ->
  exists a',
    TestBaseline.eval_examples g_mapper compute_sdr dataset a l = Ok a' /\
    TestBaseline.total_loss a' = TestBaseline.total_loss a /\
    TestBaseline.total_cnt a' = TestBaseline.total_cnt a /\
    tracked a l a'.
Proof.
  induction l as [|x l IH]; intros a Hc Hl.
  - exists a. split; [reflexivity|]. split; [reflexivity|].
    split; [reflexivity|]. apply tracked_nil.
  - destruct (eval_example_run a x Hc ltac:(apply Hl; left))
      as (a1 & He & Hl1 & Hn1 & Ht1).
    destruct (IH a1 (tracked_covers _ _ _ Ht1 Hc)
                ltac:(intros y Hy; apply Hl; right; exact Hy))
      as (a' & Hes & Hl2 & Hn2 & Ht2).
    exists a'. cbn [TestBaseline.eval_examples]. rewrite He, bind_Ok_l.
    split; [exact Hes|]. split; [congruence|]. split; [congruence|].
    apply (tracked_app a a1 a' [x] l Ht1 Ht2).
Qed.

Lemma eval_loader_run l : forall a,
  covers a ->
  (forall x, x ∈ concat (TestBaseline.b_examples <$> l) ->
     g_mapper (TestBaseline.e_uid x) dataset ∈ TestBaseline.gs) ->
  exists a',
    TestBaseline.eval_loader g_mapper compute_sdr dataset a l = Ok a' /\
    TestBaseline.total_loss a'
    = foldl fadd (TestBaseline.total_loss a) (TestBaseline.b_loss <$> l) /\
    TestBaseline.total_cnt a'
    = TestBaseline.total_cnt a + length (concat (TestBaseline.b_examples <$> l)) /\
    tracked a (concat (TestBaseline.b_examples <$> l)) a'.
Proof.
  induction l as [|b l IH]; intros a Hc Hl.
  - exists a. split; [reflexivity|]. split; [reflexivity|].
    split; [simpl; lia|]. apply tracked_nil.
  - simpl in Hl.
    set (a1 := TestBaseline.Acc
                 (fadd (TestBaseline.total_loss a) (TestBaseline.b_loss b))
                 (TestBaseline.total_SISNRi a) (TestBaseline.total_SDR a)
                 (TestBaseline.total_cnt a + length (TestBaseline.b_examples b))
                 (TestBaseline.gender_SISNRi a) (TestBaseline.gender_SDR a)
                 (TestBaseline.gender_cnt a)).
    destruct (eval_examples_run (TestBaseline.b_examples b) a1 Hc
                ltac:(intros y Hy; apply Hl, elem_of_app; left; exact Hy))
      as (a2 & He & Hl2 & Hn2 & Ht2).
    destruct (IH a2 (tracked_covers a1 _ _ Ht2 Hc)
                ltac:(intros y Hy; apply Hl, elem_of_app; right; exact Hy))
      as (a' & Hes & Hl3 & Hn3 & Ht3).
    exists a'. cbn [TestBaseline.eval_loader].
    unfold TestBaseline.eval_batch. fold a1. rewrite He, bind_Ok_l.
    split; [exact Hes|]. split; [|split].
    + rewrite Hl3, Hl2. reflexivity.
    + rewrite Hn3, Hn2. simpl. rewrite length_app.
      symmetry. apply Nat.add_assoc.
    + simpl. apply (tracked_app a1 a2 a' _ _ Ht2 Ht3).
Qed.

(** The loop that turns the per-gender sums into means. *)
Lemma gender_means_run (dset : string) (sdr0 : gmap string F)
    (a : TestBaseline.acc F) (keys : list string) :
  forall si sd : gmap string F,
  NoDup keys ->
  (forall g, g ∈ keys ->
     is_Some (si !! g) /\
     (exists c, TestBaseline.gender_cnt a !! g = Some c /\ c <> O) /\
     (compute_sdr = true ->
      is_Some (TestBaseline.gender_SDR a !! g) /\
      is_Some (sdr0 !! (dset +:+ "_" +:+ g)))) ->
  exists si' sd',
    TestBaseline.gender_means compute_sdr dset sdr0 a keys si sd
    = Ok (si', sd') /\
    forall g,
      (g ∈ keys ->
       si' !! g
       = (fun s => fdiv s (f_of_nat
                             (default O (TestBaseline.gender_cnt a !! g))))
         <$> si !! g /\
       sd' !! g
       = Some (if compute_sdr
               then fsub (fdiv (default f0 (TestBaseline.gender_SDR a !! g))
                            (f_of_nat
                               (default O (TestBaseline.gender_cnt a !! g))))
                      (default f0 (sdr0 !! (dset +:+ "_" +:+ g)))
               else f0)) /\
      (g ∉ keys -> si' !! g = si !! g /\ sd' !! g = sd !! g).
Proof.
  induction keys as [|k keys IH]; intros si sd Hnd Hk.
  - exists si, sd. split; [reflexivity|]. intros g.
    split; [intros Hg; inversion Hg|auto].
  - apply NoDup_cons in Hnd as [Hnk Hnd].
    destruct (Hk k ltac:(left)) as ([s Es] & (c & Ec & Hc) & Hsdr).
    assert (Hdiv : forall x : F, div_count x c = Ok (fdiv x (f_of_nat c))).
    { intros x. unfold div_count.
      destruct (c =? 0) eqn:E; [apply Nat.eqb_eq in E; contradiction|].
      reflexivity. }
    cbn [TestBaseline.gender_means]. unfold map_get.
    rewrite Es, Ec. rewrite !bind_Ok_l, Hdiv, !bind_Ok_l.
    assert (Hrest : forall si1 sd1 : gmap string F,
              si1 = <[k := fdiv s (f_of_nat c)]> si ->
              forall g, g ∈ keys ->
                is_Some (si1 !! g) /\
                (exists c, TestBaseline.gender_cnt a !! g = Some c /\ c <> O) /\
                (compute_sdr = true ->
                 is_Some (TestBaseline.gender_SDR a !! g) /\
                 is_Some (sdr0 !! (dset +:+ "_" +:+ g)))).
    { intros si1 sd1 -> g Hg.
      destruct (Hk g ltac:(right; exact Hg)) as (H1 & H2 & H3).
      split; [|split; assumption].
      rewrite lookup_insert_ne; [exact H1|]. intros ->. contradiction. }
    destruct compute_sdr eqn:Ecs.
    + destruct (Hsdr eq_refl) as ([d Ed] & [b Eb]).
      rewrite Ed, !bind_Ok_l, Hdiv, !bind_Ok_l, Eb, bind_Ok_l.
      destruct (IH _ (<[k := fsub (fdiv d (f_of_nat c)) b]> sd) Hnd
                  (Hrest _ sd eq_refl))
        as (si' & sd' & Hrun & Hval).
      exists si', sd'. split; [exact Hrun|]. intros g. split.
      * intros Hg. apply elem_of_cons in Hg as [->|Hg].
        -- destruct (Hval k) as [_ Hout]. destruct (Hout Hnk) as [-> ->].
           rewrite !lookup_insert_eq, Es, Ec, Ed, Eb. simpl. auto.
        -- destruct (Hval g) as [Hin _]. destruct (Hin Hg) as [-> ->].
           rewrite lookup_insert_ne by (intros ->; contradiction). auto.
      * intros Hg. destruct (Hval g) as [_ Hout].
        destruct (Hout ltac:(intros Hin; apply Hg; right; exact Hin))
          as [-> ->].
        rewrite !lookup_insert_ne
          by (intros ->; apply Hg; left). auto.
    + destruct (IH _ (<[k := f0]> sd) Hnd (Hrest _ sd eq_refl))
        as (si' & sd' & Hrun & Hval).
      exists si', sd'. split; [exact Hrun|]. intros g. split.
      * intros Hg. apply elem_of_cons in Hg as [->|Hg].
        -- destruct (Hval k) as [_ Hout]. destruct (Hout Hnk) as [-> ->].
           rewrite !lookup_insert_eq, Es, Ec. simpl. auto.
        -- destruct (Hval g) as [Hin _]. destruct (Hin Hg) as [-> ->].
           rewrite lookup_insert_ne by (intros ->; contradiction). auto.
      * intros Hg. destruct (Hval g) as [_ Hout].
        destruct (Hout ltac:(intros Hin; apply Hg; right; exact Hin))
          as [-> ->].
        rewrite !lookup_insert_ne
          by (intros ->; apply Hg; left). auto.
Qed.

End EvaluateMeans.

(** X8. When the mapper puts every example in one of the three
    categories, every category occurs in the split and (with SDR
    requested) the baseline table has the keys of the split,
    [Tester.evaluate] returns, and what it returns is: the summed
    batch losses over the number of examples, the summed SI-SNRi over
    the number of examples, per category the summed SI-SNRi of its
    examples over their number, and the SDR improvements over the
    baseline entries (zero when SDR is not requested). *)
Theorem evaluate_returns_means
    {F : Type} `{FloatOps F}
    (g_mapper : string -> string -> string) (compute_sdr : bool)
    (loader : list (TestBaseline.batch F)) (dset dataset : string)
    (sdr0 : gmap string F) :
  (forall x, x ∈ concat (TestBaseline.b_examples <$> loader) ->
     g_mapper (TestBaseline.e_uid x) dataset ∈ TestBaseline.gs) ->
  (forall g, g ∈ TestBaseline.gs ->
     TestBaseline.gender_count g_mapper dataset loader g <> O) ->
  (compute_sdr = true ->
   forall k, k ∈ dset :: ((fun g : string => dset +:+ "_" +:+ g)
                          <$> TestBaseline.gs) ->
             is_Some (sdr0 !! k)) ->
  exists res,
    TestBaseline.evaluate g_mapper compute_sdr loader dset dataset sdr0
    = Ok res /\
    TestBaseline.r_total_loss res
    = fdiv (foldl fadd f0 (TestBaseline.b_loss <$> loader))
        (f_of_nat (length (concat (TestBaseline.b_examples <$> loader)))) /\
    TestBaseline.r_total_SISNRi res
    = fdiv (foldl fadd f0
              (TestBaseline.e_sisnri
               <$> concat (TestBaseline.b_examples <$> loader)))
        (f_of_nat (length (concat (TestBaseline.b_examples <$> loader)))) /\
    TestBaseline.r_total_SDRi res
    = (if compute_sdr
       then fsub
              (fdiv (foldl fadd f0
                       (TestBaseline.e_sdr
                        <$> concat (TestBaseline.b_examples <$> loader)))
                 (f_of_nat
                    (length (concat (TestBaseline.b_examples <$> loader)))))
              (default f0 (sdr0 !! dset))
       else f0) /\
    forall g, g ∈ TestBaseline.gs ->
      TestBaseline.r_gender_SISNRi res !! g
      = Some (fdiv (foldl fadd f0
                      (TestBaselineExec.gender_sisnri g_mapper dataset g loader))
                (f_of_nat
                   (TestBaseline.gender_count g_mapper dataset loader g))) /\
      TestBaseline.r_gender_SDRi res !! g
      = Some (if compute_sdr
              then fsub
                     (fdiv (foldl fadd f0
                              (TestBaselineExec.gender_sdr g_mapper dataset g
                                 loader))
                        (f_of_nat
                           (TestBaseline.gender_count g_mapper dataset loader
                              g)))
                     (default f0 (sdr0 !! (dset +:+ "_" +:+ g)))
              else f0).
Proof.
  intros Hlab Hcnt Hsdr.
  set (examples := concat (TestBaseline.b_examples <$> loader)) in *.
  assert (Hcov : forall g, g ∈ TestBaseline.gs ->
            is_Some (TestBaseline.gender_cnt (TestBaseline.acc0 (F := F)) !! g) /\
            is_Some (TestBaseline.gender_SISNRi (TestBaseline.acc0 (F := F)) !! g) /\
            is_Some (TestBaseline.gender_SDR (TestBaseline.acc0 (F := F)) !! g)).
  { intros g Hg. simpl.
    rewrite (zero_counts_lookup _ _ Hg), (zeros_lookup _ _ Hg). eauto. }
  destruct (eval_loader_run g_mapper compute_sdr dataset loader
              TestBaseline.acc0 Hcov Hlab)
    as (a & Hrun & Hloss & Hn & Hsi & Hsd & Hg).
  fold examples in Hn, Hsi, Hsd, Hg. simpl in Hloss, Hn, Hsi, Hsd.
  (* the split is not empty *)
  assert (Hne : length examples <> O).
  { pose proof (Hcnt "MM" ltac:(left)) as Hmm.
    unfold TestBaseline.gender_count, TestBaseline.in_gender in Hmm.
    fold examples in Hmm. intros Hz.
    apply length_zero_iff_nil in Hz. rewrite Hz in Hmm.
    apply Hmm. reflexivity. }
  assert (Hdiv : forall (x : F) (c : nat), c <> O ->
            div_count x c = Ok (fdiv x (f_of_nat c))).
  { intros x c Hc. unfold div_count.
    destruct (c =? 0)%nat eqn:E; [apply Nat.eqb_eq in E; contradiction|].
    reflexivity. }
  (* the tables after the loop *)
  assert (Hfin : forall g, g ∈ TestBaseline.gs ->
            TestBaseline.gender_cnt a !! g
            = Some (TestBaseline.gender_count g_mapper dataset loader g) /\
            TestBaseline.gender_SISNRi a !! g
            = Some (foldl fadd f0
                      (TestBaselineExec.gender_sisnri g_mapper dataset g loader)) /\
            TestBaseline.gender_SDR a !! g
            = Some (if compute_sdr
                    then foldl fadd f0
                           (TestBaselineExec.gender_sdr g_mapper dataset g loader)
                    else f0)).
  { intros g Hin. destruct (Hg g) as (-> & -> & ->). simpl.
    rewrite (zero_counts_lookup _ _ Hin), (zeros_lookup _ _ Hin). simpl.
    split; [reflexivity|]. split; [reflexivity|].
    destruct compute_sdr; reflexivity. }
  destruct (gender_means_run compute_sdr dset sdr0 a TestBaseline.gs
              (TestBaseline.gender_SISNRi a) ∅ gs_NoDup)
    as (si' & sd' & Hmeans & Hval).
  { intros g Hin. destruct (Hfin g Hin) as (Hc & Hs & Hd).
    split; [rewrite Hs; eauto|]. split.
    - eexists. split; [exact Hc|]. apply Hcnt, Hin.
    - intros Hcs. split; [rewrite Hd; eauto|].
      apply (Hsdr Hcs). right. apply list_elem_of_fmap. eauto. }
  unfold TestBaseline.evaluate. rewrite Hrun, bind_Ok_l.
  rewrite Hn, !Hdiv by exact Hne. rewrite !bind_Ok_l.
  assert (Hbase : (if compute_sdr
                   then base ← map_get sdr0 dset;
                        Ok (fsub (fdiv (TestBaseline.total_SDR a)
                                    (f_of_nat (length examples))) base)
                   else Ok f0)
                  = Ok (if compute_sdr
                        then fsub (fdiv (TestBaseline.total_SDR a)
                                     (f_of_nat (length examples)))
                               (default f0 (sdr0 !! dset))
                        else f0)).
  { destruct compute_sdr eqn:Ecs; [|reflexivity].
    destruct (Hsdr eq_refl dset ltac:(left)) as [b Eb].
    unfold map_get. rewrite Eb. reflexivity. }
  rewrite Hbase, bind_Ok_l, Hmeans, bind_Ok_l.
  eexists. split; [reflexivity|]. simpl.
  split; [rewrite Hloss; reflexivity|].
  split; [rewrite Hsi; reflexivity|].
  split.
  { rewrite Hsd. destruct compute_sdr; reflexivity. }
  intros g Hin. destruct (Hval g) as [Hv _]. destruct (Hv Hin) as [-> ->].
  destruct (Hfin g Hin) as (-> & -> & ->). simpl.
  split; [reflexivity|]. destruct compute_sdr; reflexivity.
Qed.

Lemma evaluate_returns_means_witness :
  exists res,
    TestBaseline.evaluate Runs.mapper_prefix false Runs.loader3 "cv" "wsj0" ∅
    = Ok res /\
    TestBaseline.r_total_loss res = 1%Q /\
    TestBaseline.r_gender_SISNRi res !! "MM" = Some 6%Q.
Proof.
  destruct (evaluate_returns_means Runs.mapper_prefix false Runs.loader3
              "cv" "wsj0" ∅)
    as (res & Hres & Hloss & _ & _ & Hg).
  - apply Forall_forall. repeat constructor; vm_compute;
      rewrite !elem_of_cons; auto.
  - intros g Hg. unfold TestBaseline.gs in Hg.
    rewrite !elem_of_cons, elem_of_nil in Hg.
    destruct Hg as [->|[->|[->|[]]]]; vm_compute; discriminate.
  - discriminate.
  - exists res. split; [exact Hres|].
    split; [rewrite Hloss; vm_compute; reflexivity|].
    destruct (Hg "MM" ltac:(left)) as [-> _]. vm_compute. reflexivity.
Defined.

Section TesterExec.
Context {F : Type} `{FloatOps F}.
Variable g_mapper : string -> string -> string.
Variable compute_sdr : bool.
Variable load_dset :
  string -> result (list (TestBaseline.batch F) * list (TestBaseline.batch F)).
Variable load_mix_sdr : string -> list string -> gmap string F.

(** What [exec] has done for the dataset [dset] when its result is
    [r]. *)
Abbreviation evaluated dset r :=
  (exists cv tt r_cv r_tt,
     load_dset dset = Ok (cv, tt) /\
     TestBaseline.evaluate g_mapper compute_sdr cv "cv" dset
       (load_mix_sdr ("./data/" +:+ dset +:+ "/mix_sdr/")
          TestBaselineExec.sdr_keys) = Ok r_cv /\
     TestBaseline.evaluate g_mapper compute_sdr tt "tt" dset
       (load_mix_sdr ("./data/" +:+ dset +:+ "/mix_sdr/")
          TestBaselineExec.sdr_keys) = Ok r_tt /\
     r = TestBaselineExec.DsetResult r_cv r_tt /\
     forall g, g ∈ TestBaseline.gs ->
       TestBaseline.gender_count g_mapper dset cv g <> O /\
       TestBaseline.gender_count g_mapper dset tt g <> O).

Lemma exec_dsets_spec (dsets : list string) :
  forall (acc rd : gmap string (TestBaselineExec.entry F)),
  TestBaselineExec.exec_dsets g_mapper compute_sdr load_dset load_mix_sdr
    dsets acc = Ok rd ->
  (forall dset, dset ∈ dsets ->
     exists r, rd !! dset = Some r /\ evaluated dset r) /\
  (forall k, k ∉ dsets -> rd !! k = acc !! k).
Proof.
  induction dsets as [|dset rest IH]; intros acc rd Hrun.
  - injection Hrun as <-. split; [intros d Hd; inversion Hd|reflexivity].
  - cbn [TestBaselineExec.exec_dsets] in Hrun.
    inv_bind Hrun. destruct a as [cv tt]. rename Ha into Hload.
    inv_bind Hrun. rename a into r_cv, Ha into Hcv.
    inv_bind Hrun. rename a into r_tt, Ha into Htt.
    simpl in Hcv, Htt.
    destruct (IH _ _ Hrun) as [Hin Hout].
    assert (Hhere : evaluated dset (TestBaselineExec.DsetResult r_cv r_tt)).
    { exists cv, tt, r_cv, r_tt.
      split; [exact Hload|]. split; [exact Hcv|]. split; [exact Htt|].
      split; [reflexivity|]. intros g Hg. split.
      - apply (evaluate_Ok_counts g_mapper compute_sdr _ _ _ _ _ g Hcv Hg).
      - apply (evaluate_Ok_counts g_mapper compute_sdr _ _ _ _ _ g Htt Hg). }
    split.
    + intros d Hd. destruct (decide (d ∈ rest)) as [Hr|Hr]; [auto|].
      apply elem_of_cons in Hd as [->|Hd]; [|contradiction].
      exists (TestBaselineExec.DsetResult r_cv r_tt).
      split; [|exact Hhere].
      rewrite (Hout dset Hr). apply lookup_insert_eq.
    + intros k Hk. rewrite Hout by (intros Hr; apply Hk; right; exact Hr).
      apply lookup_insert_ne. intros ->. apply Hk. left.
Qed.

(** X9. [Tester.exec] writes results for all the datasets or for none:
    when it returns, every listed dataset was loaded and both of its
    splits were evaluated against the baseline table asked for under
    [sdr_keys], every gender category occurs in both splits of every
    dataset, and the dictionary holds the two results under the
    dataset's name. The key ['tr_config'] always holds the training
    configuration, also when a dataset has that name. *)
Theorem exec_evaluates_every_dataset
    (dsets : list string) (rd : gmap string (TestBaselineExec.entry F)) :
  TestBaselineExec.exec g_mapper compute_sdr load_dset load_mix_sdr dsets
  = Ok rd ->
  rd !! "tr_config" = Some TestBaselineExec.TrConfig /\
  forall dset, dset ∈ dsets ->
    exists r,
      evaluated dset r /\
      (dset <> "tr_config" -> rd !! dset = Some r).
Proof.
  unfold TestBaselineExec.exec. intros Hrun. inv_bind Hrun.
  injection Hrun as <-. split; [apply lookup_insert_eq|].
  intros dset Hd. destruct (exec_dsets_spec _ _ _ Ha) as [Hin _].
  destruct (Hin dset Hd) as (r & Hr & Hev).
  exists r. split; [exact Hev|].
  intros Hne. rewrite lookup_insert_ne by congruence. exact Hr.
Qed.

(** X10. The model types ['adanet'] and ['slim'] cannot be evaluated:
    [Tester.set_model] reads a class name the file neither imports nor
    defines and raises [NameError], whatever the checkpoint. *)
Theorem tester_set_model_unbound_classes
    (ConvTasNet : DomainCls.pyval -> list (param F))
    (tr_config mconf : DomainCls.pyval) (ty : string) (sd : state_dict F) :
  DomainCls.subscript tr_config "model" = Ok mconf ->
  DomainCls.get_default mconf "type" (DomainCls.PStr "convtasnet")
  = Ok (DomainCls.PStr ty) ->
  (ty = "adanet" ->
   TestBaselineExec.set_model ConvTasNet tr_config sd
   = Raise (NameError "ADANet")) /\
  (ty = "slim" ->
   TestBaselineExec.set_model ConvTasNet tr_config sd
   = Raise (NameError "MyConvTasNet")) /\
  (ty <> "adanet" -> ty <> "slim" ->
   TestBaselineExec.set_model ConvTasNet tr_config sd
   = load_state_dict true sd (ConvTasNet mconf)).
Proof.
  intros Hm Hty. unfold TestBaselineExec.set_model.
  rewrite Hm, bind_Ok_l, Hty, bind_Ok_l. unfold DomainCls.is_str.
  split; [|split].
  - intros ->. reflexivity.
  - intros ->. reflexivity.
  - intros H1 H2. apply String.eqb_neq in H1, H2. rewrite H1, H2.
    reflexivity.
Qed.

End TesterExec.

Lemma exec_evaluates_every_dataset_witness :
  exists rd,
    TestBaselineExec.exec Runs.mapper_prefix false
      (fun _ => Ok (Runs.loader3, Runs.loader3)) (fun _ _ => ∅) ["wsj0"]
    = Ok rd /\
    rd !! "tr_config" = Some TestBaselineExec.TrConfig /\
    is_Some (rd !! "wsj0").
Proof.
  destruct (TestBaselineExec.exec Runs.mapper_prefix false
              (fun _ => Ok (Runs.loader3, Runs.loader3)) (fun _ _ => ∅)
              ["wsj0"]) as [rd|e] eqn:E;
    [|vm_compute in E; discriminate E].
  exists rd. split; [reflexivity|].
  destruct (exec_evaluates_every_dataset Runs.mapper_prefix false
              (fun _ => Ok (Runs.loader3, Runs.loader3)) (fun _ _ => ∅)
              ["wsj0"] rd E) as [Htr Hd].
  split; [exact Htr|].
  destruct (Hd "wsj0" ltac:(left)) as (r & _ & Hr).
  exists r. apply Hr. discriminate.
Defined.

Lemma tester_set_model_unbound_classes_witness :
  TestBaselineExec.set_model (fun _ => Runs.net0)
    (DomainCls.PDict
       [("model", DomainCls.PDict [("type", DomainCls.PStr "slim")])])
    (∅ : gmap string Q)
  = Raise (NameError "MyConvTasNet").
Proof.
  destruct (tester_set_model_unbound_classes (fun _ => Runs.net0)
              (DomainCls.PDict
                 [("model", DomainCls.PDict [("type", DomainCls.PStr "slim")])])
              (DomainCls.PDict [("type", DomainCls.PStr "slim")])
              "slim" (∅ : gmap string Q))
    as (_ & Hslim & _).
  - vm_compute. reflexivity.
  - vm_compute. reflexivity.
  - apply Hslim. reflexivity.
Defined.

(** ** The cmvn loop (src/train_cmvn.py) *)

Section CmvnExec.
Context {F : Type} `{FloatOps F}.
Variable TB : Type.
Variable backward : list (param F) -> TB -> F * (string -> F).
Variable upd : F -> F -> F.
Variable gender_mapper : string -> string -> string.
Variable encoder : list (param F) -> list F -> list (list F).
Variable fs : Dataset.disk F.
Variable tr_loader : Z -> list TB.
Variable cv_eval : TrainCmvn.trainer F -> list (TrainCmvn.vbatch F).

Lemma train_one_epoch_counters (batches : list TB) :
  forall t : TrainCmvn.trainer F,
  let t' := TrainCmvn.train_one_epoch TB backward upd t batches in
  TrainCmvn.step t' = TrainCmvn.step t + Z.of_nat (length batches) /\
  TrainCmvn.save_freq t' = TrainCmvn.save_freq t /\
  TrainCmvn.norm_stat t' = TrainCmvn.norm_stat t /\
  TrainCmvn.start_epoch t' = TrainCmvn.start_epoch t /\
  TrainCmvn.epochs t' = TrainCmvn.epochs t.
Proof.
  unfold TrainCmvn.train_one_epoch.
  induction batches as [|b batches IH]; intros t; simpl.
  - repeat split; lia.
  - destruct (IH (TrainCmvn.train_batch TB backward upd t b))
      as (Hs & Hf & Hn & He & Hp).
    simpl in Hs, Hf, Hn, He, Hp.
    rewrite Hs, Hf, Hn, He, Hp. unfold TrainCmvn.train_batch.
    destruct (backward (TrainCmvn.model t) b) as [l g]. simpl.
    repeat split; lia.
Qed.

Lemma valid_saved_names loader dset epoch prefix force_save out :
  TrainCmvn.valid gender_mapper loader dset epoch false prefix force_save
  = Ok out ->
  TrainCmvn.v_saved out
  = [pretty epoch +:+ ".pth"]
    ++ (if force_save then [pretty epoch +:+ "_force.pth"] else [])
    ++ ["latest.pth"].
Proof.
  unfold TrainCmvn.valid. intros Hv. do 4 inv_bind Hv.
  injection Hv as <-. reflexivity.
Qed.

Lemma exec_epochs_spec (dset : string) (l : list Z) :
  forall (t t' : TrainCmvn.trainer F) (log log' : list (Z * TrainCmvn.valid_out F)),
  TrainCmvn.exec_epochs TB backward upd gender_mapper tr_loader cv_eval
    dset (t, log) l = Ok (t', log') ->
  TrainCmvn.step t'
  = TrainCmvn.step t + Z.of_nat (length (concat (tr_loader <$> l))) /\
  TrainCmvn.save_freq t' = TrainCmvn.save_freq t /\
  TrainCmvn.norm_stat t' = TrainCmvn.norm_stat t /\
  exists new,
    log' = log ++ new /\ new.*1 = l /\
    Forall (fun ev => TrainCmvn.v_saved ev.2
                      = CmvnNames.saved_names (TrainCmvn.save_freq t) ev.1) new.
Proof.
  induction l as [|e l IH]; intros t t' log log' Hrun.
  - injection Hrun as <- <-. repeat split; [simpl; lia|].
    exists []. rewrite app_nil_r. repeat split. constructor.
  - cbn [TrainCmvn.exec_epochs] in Hrun. inv_bind Hrun.
    destruct a as [t1 log1]. unfold TrainCmvn.exec_epoch in Ha.
    inv_bind Ha. rename a into v, Ha0 into Hv. injection Ha as <- <-.
    destruct (train_one_epoch_counters (tr_loader e) t)
      as (Hs & Hf & Hn & _ & _).
    apply valid_saved_names in Hv. rewrite Hf in Hv.
    destruct (IH _ _ _ _ Hrun) as (Hs' & Hf' & Hn' & new & -> & Hl & Hall).
    rewrite Hs', Hs, Hf', Hf, Hn', Hn. split; [|split; [|split]]; try reflexivity.
    + simpl. rewrite length_app, Nat2Z.inj_add, Z.add_assoc. reflexivity.
    + exists ((e, v) :: new). rewrite <- app_assoc. split; [reflexivity|].
      split; [simpl; f_equal; exact Hl|].
      constructor; [exact Hv|]. rewrite Hf in Hall. exact Hall.
Qed.

(** X11. When [Trainer.exec] of the cmvn loop returns, the feature
    statistics are set, one validation has been run and saved for each
    epoch of [range(start_epoch, epochs)] in order, the step counter
    has advanced by the total number of training batches of those
    epochs, and the names handed to the saver for epoch [e] are
    [e.pth], then [e_force.pth] exactly when [save_freq > 0] and
    [(e + 1) % save_freq == 0], then [latest.pth]. *)
Theorem cmvn_exec_counts_batches
    (cfg : TrainCmvn.config) (dset : string) (tr_list : Dataset.manifest)
    (t t' : TrainCmvn.trainer F) (log : list (Z * TrainCmvn.valid_out F)) :
  TrainCmvn.exec TB backward upd gender_mapper encoder fs tr_loader cv_eval
    cfg dset tr_list t = Ok (t', log) ->
  log.*1 = TrainCmvn.epochs_run t /\
  TrainCmvn.step t'
  = TrainCmvn.step t
    + Z.of_nat (length (concat (tr_loader <$> TrainCmvn.epochs_run t))) /\
  is_Some (TrainCmvn.norm_stat t') /\
  Forall (fun ev => TrainCmvn.v_saved ev.2
                    = CmvnNames.saved_names (TrainCmvn.save_freq t) ev.1) log.
Proof.
  unfold TrainCmvn.exec. intros Hrun. inv_bind Hrun.
  rename a into t1, Ha into Hstat.
  unfold TrainCmvn.comp_norm_stat in Hstat. do 4 inv_bind Hstat.
  injection Hstat as <-. simpl in Hrun.
  destruct (exec_epochs_spec _ _ _ _ _ _ Hrun)
    as (Hs & Hf & Hn & new & Hlog & Hl & Hall).
  simpl in Hs, Hf, Hn, Hlog, Hall. subst log.
  unfold TrainCmvn.epochs_run.
  split; [exact Hl|]. split; [exact Hs|].
  split; [rewrite Hn; eauto|exact Hall].
Qed.

End CmvnExec.

Lemma cmvn_exec_counts_batches_witness :
  exists t' log,
    TrainCmvn.exec unit (fun _ _ => (0%Q, fun _ => 0%Q)) (fun v _ => v)
      Runs.mapper_prefix Runs.copy_encoder Runs.disk2
      (fun _ => [tt; tt; tt]) (fun _ => Runs.vloader3)
      Runs.cmvn_cfg "wsj0" Runs.manifest2 Runs.cmvn_t1 = Ok (t', log) /\
    log.*1 = [0; 1] /\
    TrainCmvn.step t' = 6.
Proof.
  destruct (TrainCmvn.exec unit (fun _ _ => (0%Q, fun _ => 0%Q))
              (fun v _ => v) Runs.mapper_prefix Runs.copy_encoder Runs.disk2
              (fun _ => [tt; tt; tt]) (fun _ => Runs.vloader3)
              Runs.cmvn_cfg "wsj0" Runs.manifest2 Runs.cmvn_t1)
    as [[t' log]|e] eqn:E; [|vm_compute in E; discriminate E].
  exists t', log. split; [reflexivity|].
  destruct (cmvn_exec_counts_batches unit (fun _ _ => (0%Q, fun _ => 0%Q))
              (fun v _ => v) Runs.mapper_prefix Runs.copy_encoder Runs.disk2
              (fun _ => [tt; tt; tt]) (fun _ => Runs.vloader3)
              Runs.cmvn_cfg "wsj0" Runs.manifest2 Runs.cmvn_t1 t' log E)
    as (Hlog & Hstep & _).
  split; [rewrite Hlog|rewrite Hstep]; vm_compute; reflexivity.
Defined.

Ltac inv_bind_as H x Hx :=
  apply bind_Ok in H; destruct H as (x & Hx & H).

Lemma Forall2_compose {A B C} (R : A -> B -> Prop) (S : B -> C -> Prop)
    (T : A -> C -> Prop) (l : list A) (k : list B) (m : list C) :
  (forall x y z, R x y -> S y z -> T x z) ->
  Forall2 R l k -> Forall2 S k m -> Forall2 T l m.
Proof.
  intros HRS H1. revert m.
  induction H1; intros m H2; inversion H2; subst; constructor; eauto.
Qed.

Lemma map_get_Ok {V} (d : gmap string V) (k : string) (v : V) :
  map_get d k = Ok v -> d !! k = Some v.
Proof. unfold map_get. destruct (d !! k); intros [=]. congruence. Qed.

Lemma as_state_Ok {F : Type} (v : ckval F) (sd : state_dict F) :
  as_state v = Ok sd -> v = VState sd.
Proof. destruct v; intros [=]. congruence. Qed.

Lemma as_int_Ok {F : Type} (v : ckval F) (z : Z) :
  as_int v = Ok z -> v = VInt z.
Proof. destruct v; intros [=]. congruence. Qed.

Section CmvnSetModel.
Context {F : Type} `{FloatOps F}.

(** What loading and freezing leave of a parameter. *)
Abbreviation kept p p' :=
  (p_name p' = p_name p /\ p_module p' = p_module p /\ grad p' = grad p).

Lemma load_state_dict_kept strict (sd : state_dict F) ps ps' :
  load_state_dict strict sd ps = Ok ps' ->
  Forall2 (fun p p' => kept p p' /\ requires_grad p' = requires_grad p) ps ps'.
Proof.
  unfold load_state_dict.
  destruct (strict && _); [discriminate|]. intros [= <-].
  apply Forall2_fmap_r, Forall_Forall2_diag, Forall_forall. intros p _.
  simpl. destruct (sd !! p_name p); simpl; repeat split.
Qed.

Lemma freeze_module_kept md (ps : list (param F)) :
  Forall2 (fun p p' =>
             kept p p' /\
             requires_grad p'
             = (if module_eqb (p_module p) md then false else requires_grad p))
    ps (TrainCmvn.freeze_module md ps).
Proof.
  unfold TrainCmvn.freeze_module.
  apply Forall2_fmap_r, Forall_Forall2_diag, Forall_forall. intros p _.
  simpl. destruct (module_eqb (p_module p) md); simpl; repeat split.
Qed.

(** X12. [Trainer.set_model] of the cmvn loop returns only if a
    pretrained checkpoint is named, can be read and holds a state
    dictionary and a score, and the optimizer type is one of the three
    known ones; on resume it also needs [latest.pth] of the experiment
    with an epoch entry, from which the first epoch is taken. *)
Theorem cmvn_set_model_requirements
    (cfg : TrainCmvn.config) (st : store F) (t0 t1 : TrainCmvn.trainer F) :
  TrainCmvn.set_model cfg st t0 = Ok t1 ->
  TrainCmvn.c_pretrained cfg <> "" /\
  TrainCmvn.c_optim_type cfg ∈ ["SGD"; "Adam"; "ranger"] /\
  (exists info sd,
     st (TrainCmvn.c_pretrained cfg) = Some info /\
     info !! "state_dict" = Some (VState sd) /\
     is_Some (info !! "valid_score")) /\
  (TrainCmvn.resume_model t0 = true ->
   exists info e,
     st (path_join (TrainCmvn.save_dir t0) "latest.pth") = Some info /\
     info !! "epoch" = Some (VInt e) /\
     TrainCmvn.start_epoch t1 = e + 1) /\
  (TrainCmvn.resume_model t0 = false ->
   TrainCmvn.start_epoch t1 = TrainCmvn.start_epoch t0 /\
   TrainCmvn.step t1 = TrainCmvn.step t0).
Proof.
  unfold TrainCmvn.set_model. intros Hs.
  inv_bind_as Hs ta Hpre. inv_bind_as Hs tbo Hres. destruct tbo as [tb od].
  inv_bind_as Hs u Hopt. injection Hs as <-. simpl.
  destruct (String.eqb (TrainCmvn.c_pretrained cfg) "") eqn:Ep;
    [discriminate|].
  apply String.eqb_neq in Ep.
  inv_bind_as Hpre info Hload. inv_bind_as Hpre sd Hsd.
  inv_bind_as Hpre m Hm. inv_bind_as Hpre vscore Hscore. injection Hpre as <-.
  split; [exact Ep|]. split.
  { destruct (bool_decide _) eqn:Eb in Hopt; [|discriminate].
    apply bool_decide_eq_true in Eb. exact Eb. }
  split.
  { exists info, sd. unfold torch_load in Hload.
    destruct (st (TrainCmvn.c_pretrained cfg)) as [i|]; [|discriminate].
    injection Hload as ->. split; [reflexivity|].
    inv_bind_as Hsd v Hv. apply map_get_Ok in Hv. apply as_state_Ok in Hsd.
    apply map_get_Ok in Hscore.
    split; [congruence|]. rewrite Hscore. eauto. }
  unfold TrainCmvn.resume_block in Hres. simpl in Hres.
  destruct (TrainCmvn.resume_model t0) eqn:Er.
  - split; [|discriminate]. intros _.
    inv_bind_as Hres rinfo Hrl. inv_bind_as Hres rscore Hrs.
    inv_bind_as Hres e He. inv_bind_as Hres stp Hstp.
    inv_bind_as Hres rsd Hrsd. inv_bind_as Hres rm Hrm.
    inv_bind_as Hres ro Hro. injection Hres as <- _. simpl.
    exists rinfo, e. unfold torch_load in Hrl.
    destruct (st _) as [i|]; [|discriminate]. injection Hrl as ->.
    split; [reflexivity|]. split; [|reflexivity].
    inv_bind_as He v Hv. apply map_get_Ok in Hv. apply as_int_Ok in He.
    congruence.
  - split; [discriminate|]. intros _. injection Hres as <- _.
    split; reflexivity.
Qed.

(** X13. [set_model] keeps the parameters of the network in place,
    name by name and module by module, clears [requires_grad] on every
    encoder and decoder parameter and leaves the flag of every
    separator parameter as it was: the separator stays trainable. *)
Theorem cmvn_set_model_keeps_separator_trainable
    (cfg : TrainCmvn.config) (st : store F) (t0 t1 : TrainCmvn.trainer F) :
  TrainCmvn.set_model cfg st t0 = Ok t1 ->
  Forall2 (fun p p' =>
             p_name p' = p_name p /\ p_module p' = p_module p /\
             requires_grad p'
             = (if TrainCmvn.is_frozen p then false else requires_grad p))
    (TrainCmvn.model t0) (TrainCmvn.model t1).
Proof.
  unfold TrainCmvn.set_model. intros Hs.
  inv_bind_as Hs ta Hpre. inv_bind_as Hs tbo Hres. destruct tbo as [tb od].
  inv_bind_as Hs u Hopt. injection Hs as <-. simpl.
  destruct (String.eqb (TrainCmvn.c_pretrained cfg) ""); [discriminate|].
  inv_bind_as Hpre info Hload. inv_bind_as Hpre sd Hsd.
  inv_bind_as Hpre m Hm. inv_bind_as Hpre vscore Hscore. injection Hpre as <-.
  apply load_state_dict_kept in Hm.
  assert (Hb : Forall2 (fun p p' => kept p p' /\
                                    requires_grad p' = requires_grad p)
                 (TrainCmvn.model t0) (TrainCmvn.model tb)).
  { unfold TrainCmvn.resume_block in Hres. simpl in Hres.
    destruct (TrainCmvn.resume_model t0).
    - inv_bind_as Hres rinfo Hrl. inv_bind_as Hres rscore Hrs.
      inv_bind_as Hres e He. inv_bind_as Hres stp Hstp.
      inv_bind_as Hres rsd Hrsd. inv_bind_as Hres rm Hrm.
      inv_bind_as Hres ro Hro. injection Hres as <- _. simpl.
      apply load_state_dict_kept in Hrm.
      eapply Forall2_compose; [|exact Hm|exact Hrm].
      intros x y z (Hk1 & Hr1) (Hk2 & Hr2).
      destruct Hk1 as (? & ? & ?), Hk2 as (? & ? & ?).
      repeat split; congruence.
    - injection Hres as <- _. exact Hm. }
  pose proof (freeze_module_kept Encoder (TrainCmvn.model tb)) as Henc.
  pose proof (freeze_module_kept Decoder
                (TrainCmvn.freeze_module Encoder (TrainCmvn.model tb)))
    as Hdec.
  assert (Hed : Forall2 (fun p p' =>
                           kept p p' /\
                           requires_grad p'
                           = (if TrainCmvn.is_frozen p then false
                              else requires_grad p))
                  (TrainCmvn.model tb)
                  (TrainCmvn.freeze_module Decoder
                     (TrainCmvn.freeze_module Encoder (TrainCmvn.model tb)))).
  { eapply Forall2_compose; [|exact Henc|exact Hdec].
    intros x y z ((Hn1 & Hm1 & Hg1) & Hr1) ((Hn2 & Hm2 & Hg2) & Hr2).
    simpl in *. split; [repeat split; congruence|].
    rewrite Hr2, Hm1, Hr1. unfold TrainCmvn.is_frozen.
    destruct (p_module x); reflexivity. }
  eapply Forall2_compose; [|exact Hb|exact Hed].
  intros x y z ((Hn1 & Hm1 & Hg1) & Hr1) ((Hn2 & Hm2 & Hg2) & Hr2).
  simpl in *. split; [congruence|]. split; [congruence|].
  rewrite Hr2, Hr1. unfold TrainCmvn.is_frozen. rewrite Hm1. reflexivity.
Qed.

End CmvnSetModel.

Lemma cmvn_set_model_requirements_witness :
  TrainCmvn.c_pretrained Runs.cmvn_resume_cfg <> "" /\
  (TrainCmvn.resume_model Runs.cmvn_resume_t0 = true ->
   exists info e,
     Runs.cmvn_resume_store
       (path_join (TrainCmvn.save_dir Runs.cmvn_resume_t0) "latest.pth")
     = Some info /\
     info !! "epoch" = Some (VInt e) /\ 4 = e + 1).
Proof.
  destruct (TrainCmvn.set_model Runs.cmvn_resume_cfg Runs.cmvn_resume_store
              Runs.cmvn_resume_t0) as [t1|e] eqn:E;
    [|vm_compute in E; discriminate E].
  destruct (cmvn_set_model_requirements Runs.cmvn_resume_cfg
              Runs.cmvn_resume_store Runs.cmvn_resume_t0 t1 E)
    as (Hp & _ & _ & Hr & _).
  split; [exact Hp|].
  intros Ht. destruct (Hr Ht) as (info & e & Hi & He & Hst).
  exists info, e. split; [exact Hi|]. split; [exact He|].
  rewrite <- Hst. vm_compute in E. injection E as <-. reflexivity.
Defined.

Lemma cmvn_set_model_keeps_separator_trainable_witness :
  Forall2 (fun p p' =>
             p_name p' = p_name p /\ p_module p' = p_module p /\
             requires_grad p'
             = (if TrainCmvn.is_frozen p then false else requires_grad p))
    Runs.net0 Runs.net1.
Proof.
  apply (cmvn_set_model_keeps_separator_trainable Runs.cmvn_cfg
           Runs.cmvn_store Runs.cmvn_t0 Runs.cmvn_t1).
  vm_compute. reflexivity.
Defined.

Section NormStatEdge.
Context {F : Type} `{FloatOps F}.
Variable encoder : list (param F) -> list F -> list (list F).
Variable fs : Dataset.disk F.

(** X14. [comp_norm_stat] needs a non-empty training list whose
    utterances can all be read and encode to the same number of
    channels; it changes nothing of the trainer but the statistics. On
    an empty list it raises the [ValueError] of unpacking an empty [zip],
    so [exec] stops before the first epoch. *)
Theorem comp_norm_stat_requirements
    (cfg : TrainCmvn.config) (tr_list : Dataset.manifest)
    (t t' : TrainCmvn.trainer F) :
  TrainCmvn.comp_norm_stat encoder fs cfg tr_list t = Ok t' ->
  tr_list <> [] /\
  (exists specs N,
     TrainCmvn.encode_all encoder fs t (TrainCmvn.c_root cfg) tr_list
     = Ok specs /\
     Forall (fun spec => length spec = N) specs) /\
  TrainCmvn.model t' = TrainCmvn.model t /\
  TrainCmvn.step t' = TrainCmvn.step t /\
  TrainCmvn.opt t' = TrainCmvn.opt t /\
  TrainCmvn.comp_norm_stat encoder fs cfg [] t
  = Raise (ValueError "not enough values to unpack").
Proof.
  unfold TrainCmvn.comp_norm_stat. intros Hc.
  inv_bind Hc. rename a into stats, Ha into Hfirst.
  inv_bind Hc. rename a into m, Ha into Hw.
  do 2 inv_bind Hc. injection Hc as <-. simpl.
  destruct (first_pass_encode encoder fs _ _ _ _ Hfirst) as (specs & Henc & ->).
  destruct (weighted_lookup _ _ Hw) as (N & Hall & Hne & _).
  split.
  { intros ->. simpl in Henc. injection Henc as <-. apply Hne. reflexivity. }
  split; [|repeat split; reflexivity].
  exists specs, N. split; [exact Henc|].
  rewrite Forall_fmap in Hall. eapply Forall_impl; [exact Hall|].
  intros spec Hs. simpl in Hs. rewrite length_fmap in Hs. exact Hs.
Qed.

End NormStatEdge.

Lemma comp_norm_stat_requirements_witness :
  Runs.manifest2 <> [] /\
  exists specs N,
    TrainCmvn.encode_all Runs.copy_encoder Runs.disk2 Runs.cmvn_t1
      (TrainCmvn.c_root Runs.cmvn_cfg) Runs.manifest2 = Ok specs /\
    Forall (fun spec => length spec = N) specs.
Proof.
  destruct (comp_norm_stat_requirements Runs.copy_encoder Runs.disk2
              Runs.cmvn_cfg Runs.manifest2 Runs.cmvn_t1 Runs.cmvn_t2)
    as (Hne & Hspecs & _).
  - vm_compute. reflexivity.
  - split; [exact Hne|exact Hspecs].
Defined.

(** ** The unsupervised loop (src/train_uns.py) *)

Section UnsLoop.
Context {F : Type} `{FloatOps F}.
Variable data_gen : nat -> list (list F).
Variable G_forward : state_dict F -> list (list F) -> list (list (list F)).
Variable dis_backward :
  state_dict F -> list (list F) -> list (list F) -> F * pyfloat F.
Variable d_step :
  state_dict F * nat -> list (list F) -> list (list F) -> state_dict F * nat.
Variable gen_backward :
  state_dict F -> state_dict F -> list (list F) -> list (list F) ->
  option (list (list F) * list (list F)) -> TrainUns.gen_feedback F.
Variable g_step :
  state_dict F * nat -> state_dict F -> list (list F) -> state_dict F * nat.
Variable cv_losses : state_dict F -> list F.
Local Open Scope nat_scope.

Abbreviation u_dis_iter :=
  (TrainUns.dis_iter data_gen G_forward dis_backward d_step).
Abbreviation u_dis_iters :=
  (TrainUns.dis_iters data_gen G_forward dis_backward d_step).
Abbreviation u_train_dis_once :=
  (TrainUns.train_dis_once data_gen G_forward dis_backward d_step).
Abbreviation u_gen_iter :=
  (TrainUns.gen_iter data_gen G_forward gen_backward g_step).
Abbreviation u_gen_iters :=
  (TrainUns.gen_iters data_gen G_forward gen_backward g_step).
Abbreviation u_train_gen_once :=
  (TrainUns.train_gen_once data_gen G_forward gen_backward g_step).
Abbreviation u_exec_step :=
  (TrainUns.exec_step data_gen G_forward dis_backward d_step gen_backward
     g_step cv_losses).
Abbreviation u_exec_steps :=
  (TrainUns.exec_steps data_gen G_forward dis_backward d_step gen_backward
     g_step cv_losses).

(** A discriminator iteration changes the discriminator, its
    optimizer, the position in the stream and the standard output, and
    nothing else. *)
Lemma dis_iter_frame (step : Z) (t t' : TrainUns.trainer F) (l : F) :
  u_dis_iter step t = Ok (t', l) ->
  exists d o,
    t' = TrainUns.set_dis t d (S (S (TrainUns.gen_pos t))) o.
Proof.
  unfold TrainUns.dis_iter. intros Hd. inv_bind Hd.
  destruct (dis_backward _ _ _) as [dl gn].
  destruct (isnan gn); injection Hd as <- _; eauto.
Qed.

Lemma dis_iters_frame (step : Z) (n : nat) :
  forall (t t' : TrainUns.trainer F) (tot tot' : F),
  u_dis_iters n step t tot = Ok (t', tot') ->
  exists d o,
    t' = TrainUns.set_dis t d (n + n + TrainUns.gen_pos t) o.
Proof.
  induction n as [|n IH]; intros t t' tot tot' Hd.
  - injection Hd as <- <-.
    exists (TrainUns.D t, TrainUns.d_optim t), (TrainUns.stdout t).
    destruct t; reflexivity.
  - cbn [TrainUns.dis_iters] in Hd. inv_bind Hd. destruct a as [t1 l].
    destruct (dis_iter_frame _ _ _ _ Ha) as (d1 & o1 & ->).
    destruct (IH _ _ _ _ Hd) as (d & o & ->).
    exists d, o. unfold TrainUns.set_dis. simpl. f_equal. lia.
Qed.

Lemma train_dis_once_frame (step : Z) (t t' : TrainUns.trainer F) :
  u_train_dis_once step t = Ok t' ->
  TrainUns.d_iters t <> O /\
  TrainUns.gen_pos t' = 2 * TrainUns.d_iters t + TrainUns.gen_pos t /\
  TrainUns.G t' = TrainUns.G t /\
  TrainUns.g_optim t' = TrainUns.g_optim t /\
  (exists v, TrainUns.writer t'
             = TrainUns.writer t ++ [("train/d_loss", v, step)]) /\
  TrainUns.saved t' = TrainUns.saved t /\
  TrainUns.valid_time t' = TrainUns.valid_time t /\
  TrainUns.valid_step t' = TrainUns.valid_step t /\
  TrainUns.d_iters t' = TrainUns.d_iters t /\
  TrainUns.g_iters t' = TrainUns.g_iters t.
Proof.
  unfold TrainUns.train_dis_once. intros Hd. inv_bind Hd.
  destruct a as [t1 tot]. inv_bind Hd. rename a into v, Ha0 into Hdiv.
  injection Hd as <-.
  destruct (dis_iters_frame _ _ _ _ _ _ Ha) as (d & o & ->).
  simpl in *. split; [eapply div_count_Ok; exact Hdiv|].
  split; [lia|]. repeat split. exists v. reflexivity.
Qed.

(** X15. When [train_dis_once] returns, [d_iters] is not zero, the
    generator and its optimizer are untouched, exactly two batches per
    iteration have been drawn from the data stream (the fake and the
    real one), one scalar ['train/d_loss'] has been logged at [step],
    and neither a validation nor a checkpoint has happened. *)
Theorem uns_train_dis_once_bookkeeping
    (step : Z) (t t' : TrainUns.trainer F) :
  u_train_dis_once step t = Ok t' ->
  TrainUns.d_iters t <> O /\
  TrainUns.gen_pos t' = 2 * TrainUns.d_iters t + TrainUns.gen_pos t /\
  TrainUns.G t' = TrainUns.G t /\
  TrainUns.g_optim t' = TrainUns.g_optim t /\
  (exists v, TrainUns.writer t'
             = TrainUns.writer t ++ [("train/d_loss", v, step)]) /\
  TrainUns.saved t' = TrainUns.saved t /\
  TrainUns.valid_time t' = TrainUns.valid_time t.
Proof.
  intros Hd.
  destruct (train_dis_once_frame _ _ _ Hd)
    as (H1 & H2 & H3 & H4 & H5 & H6 & H7 & _).
  repeat split; assumption.
Qed.

(** A generator iteration changes the generator, its optimizer, the
    position in the stream and the standard output, and nothing
    else. *)
Lemma gen_iter_frame (step : Z) (t t' : TrainUns.trainer F) fb :
  u_gen_iter step t = Ok (t', fb) ->
  exists g o, t' = TrainUns.set_gen t g (S (TrainUns.gen_pos t)) o.
Proof.
  unfold TrainUns.gen_iter. intros Hg. inv_bind Hg. inv_bind Hg.
  destruct a0; [|discriminate]. injection Hg as <- _.
  destruct (isnan _); eauto.
Qed.

Lemma gen_iters_frame (step : Z) (n : nat) :
  forall (t t' : TrainUns.trainer F) (tot tot' : F * F * F * F),
  u_gen_iters n step t tot = Ok (t', tot') ->
  exists g o, t' = TrainUns.set_gen t g (n + TrainUns.gen_pos t) o.
Proof.
  induction n as [|n IH]; intros t t' tot tot' Hg.
  - injection Hg as <- <-.
    exists (TrainUns.G t, TrainUns.g_optim t), (TrainUns.stdout t).
    destruct t; reflexivity.
  - cbn [TrainUns.gen_iters] in Hg. inv_bind Hg. destruct a as [t1 fb].
    destruct (gen_iter_frame _ _ _ _ Ha) as (g1 & o1 & ->).
    destruct tot as [[[a b] c] d].
    destruct (IH _ _ _ _ Hg) as (g & o & ->).
    exists g, o. unfold TrainUns.set_gen. simpl. f_equal. lia.
Qed.

Lemma train_gen_once_frame (step : Z) (t t' : TrainUns.trainer F) :
  u_train_gen_once step t = Ok t' ->
  TrainUns.gen_pos t' = TrainUns.g_iters t + TrainUns.gen_pos t /\
  TrainUns.D t' = TrainUns.D t /\
  TrainUns.d_optim t' = TrainUns.d_optim t /\
  TrainUns.saved t' = TrainUns.saved t /\
  TrainUns.valid_time t' = TrainUns.valid_time t /\
  TrainUns.valid_step t' = TrainUns.valid_step t /\
  TrainUns.d_iters t' = TrainUns.d_iters t /\
  TrainUns.g_iters t' = TrainUns.g_iters t.
Proof.
  unfold TrainUns.train_gen_once. intros Hg. inv_bind Hg.
  destruct a as [t1 [[[a b] c] d]]. injection Hg as <-.
  destruct (gen_iters_frame _ _ _ _ _ _ Ha) as (g & o & ->).
  simpl. repeat split.
Qed.

(** X16. With the cyclic term switched off ([Lc_lambda > 0] false) a
    generator iteration never completes: once the remix is computed it
    ends in [Lc.item()] on the float [0.], an [AttributeError]; so
    [train_gen_once] raises whenever [g_iters] is not zero. *)
Theorem uns_gen_needs_cyclic_term (step : Z) (t : TrainUns.trainer F) :
  fltb f0 (TrainUns.Lc_lambda t) = false ->
  TrainUns.g_iters t <> O ->
  exists e,
    u_train_gen_once step t = Raise e /\
    (is_ok (Tensor.remix_of
              (G_forward (TrainUns.G t) (data_gen (TrainUns.gen_pos t))))
     = true ->
     e = AttributeError "item").
Proof.
  intros Hlc Hn.
  assert (Hiter : exists e,
            u_gen_iter step t = Raise e /\
            (is_ok (Tensor.remix_of
                      (G_forward (TrainUns.G t)
                         (data_gen (TrainUns.gen_pos t)))) = true ->
             e = AttributeError "item")).
  { unfold TrainUns.gen_iter, TrainUns.re_remixes. rewrite Hlc.
    destruct (Tensor.remix_of _) as [remix|e]; simpl.
    - eexists. split; [reflexivity|]. reflexivity.
    - exists e. split; [reflexivity|]. discriminate. }
  destruct Hiter as (e & He & Hwhy). exists e. split; [|exact Hwhy].
  unfold TrainUns.train_gen_once.
  destruct (TrainUns.g_iters t) as [|n]; [contradiction|].
  cbn [TrainUns.gen_iters]. rewrite He. reflexivity.
Qed.

(** The validation of one step adds one to [valid_time] and hands two
    checkpoints to the saver. *)
Lemma valid_frame (losses : list F) (step : Z) (t t' : TrainUns.trainer F) :
  TrainUns.valid losses step t = Ok t' ->
  TrainUns.valid_time t' = (TrainUns.valid_time t + 1)%Z /\
  length (TrainUns.saved t') = 2 + length (TrainUns.saved t) /\
  TrainUns.gen_pos t' = TrainUns.gen_pos t /\
  TrainUns.valid_step t' = TrainUns.valid_step t /\
  TrainUns.d_iters t' = TrainUns.d_iters t /\
  TrainUns.g_iters t' = TrainUns.g_iters t.
Proof.
  unfold TrainUns.valid. intros Hv. inv_bind Hv. injection Hv as <-.
  simpl. rewrite length_app. simpl. repeat split; lia.
Qed.

Lemma exec_steps_spec (l : list Z) :
  forall t t' : TrainUns.trainer F,
  u_exec_steps t l = Ok t' ->
  let validated :=
    List.filter (fun s => (s mod TrainUns.valid_step t =? 0)%Z
                          && negb (s =? 0)%Z) l in
  TrainUns.valid_time t'
  = (TrainUns.valid_time t + Z.of_nat (length validated))%Z /\
  length (TrainUns.saved t')
  = 2 * length validated + length (TrainUns.saved t) /\
  TrainUns.gen_pos t'
  = length l * (2 * TrainUns.d_iters t + TrainUns.g_iters t)
    + TrainUns.gen_pos t /\
  TrainUns.valid_step t' = TrainUns.valid_step t /\
  TrainUns.d_iters t' = TrainUns.d_iters t /\
  TrainUns.g_iters t' = TrainUns.g_iters t /\
  (l <> [] -> TrainUns.valid_step t <> 0%Z /\ TrainUns.d_iters t <> O).
Proof.
  induction l as [|s l IH]; intros t t' Hrun.
  - injection Hrun as <-. simpl. repeat split; try lia; congruence.
  - cbn [TrainUns.exec_steps] in Hrun. inv_bind Hrun.
    rename a into t3, Ha into Hstep.
    unfold TrainUns.exec_step in Hstep.
    inv_bind Hstep. rename a into t1, Ha into Hdis.
    inv_bind Hstep. rename a into t2, Ha into Hgen.
    destruct (train_dis_once_frame _ _ _ Hdis)
      as (Hd0 & Hp1 & _ & _ & _ & Hs1 & Hvt1 & Hvs1 & Hdi1 & Hgi1).
    destruct (train_gen_once_frame _ _ _ Hgen)
      as (Hp2 & _ & _ & Hs2 & Hvt2 & Hvs2 & Hdi2 & Hgi2).
    destruct (TrainUns.valid_step t2 =? 0)%Z eqn:Ez; [discriminate|].
    assert (Hvs : TrainUns.valid_step t2 = TrainUns.valid_step t)
      by congruence.
    rewrite Hvs in Hstep, Ez.
    assert (H3 : TrainUns.valid_time t3
                 = (TrainUns.valid_time t
                    + (if (s mod TrainUns.valid_step t =? 0)%Z
                          && negb (s =? 0)%Z then 1 else 0))%Z /\
                 length (TrainUns.saved t3)
                 = (if (s mod TrainUns.valid_step t =? 0)%Z
                       && negb (s =? 0)%Z then 2 else 0)
                   + length (TrainUns.saved t) /\
                 TrainUns.gen_pos t3 = TrainUns.gen_pos t2 /\
                 TrainUns.valid_step t3 = TrainUns.valid_step t /\
                 TrainUns.d_iters t3 = TrainUns.d_iters t /\
                 TrainUns.g_iters t3 = TrainUns.g_iters t).
    { destruct ((s mod TrainUns.valid_step t =? 0)%Z && negb (s =? 0)%Z).
      - destruct (valid_frame _ _ _ _ Hstep) as (-> & -> & -> & -> & -> & ->).
        repeat split; congruence.
      - injection Hstep as <-. rewrite Z.add_0_r. simpl.
        repeat split; congruence. }
    destruct H3 as (Hvt3 & Hs3 & Hp3 & Hvs3 & Hdi3 & Hgi3).
    destruct (IH _ _ Hrun) as (Hvt & Hs & Hp & Hvs' & Hdi & Hgi & _).
    rewrite Hvs3 in Hvt, Hs. rewrite Hdi3, Hgi3 in Hp.
    cbn zeta. cbn [List.filter].
    split; [|split; [|split; [|split; [|split; [|split]]]]];
      try congruence.
    + rewrite Hvt, Hvt3.
      destruct ((s mod TrainUns.valid_step t =? 0)%Z && negb (s =? 0)%Z);
        simpl; lia.
    + rewrite Hs, Hs3.
      destruct ((s mod TrainUns.valid_step t =? 0)%Z && negb (s =? 0)%Z);
        simpl; lia.
    + rewrite Hp, Hp3, Hp2, Hp1, Hgi1. simpl. lia.
    + intros _. split; [lia|exact Hd0].
Qed.

(** X17. When [Trainer.exec] of the unsupervised loop returns, it has
    validated once for every step of [range(start_step, total_steps)]
    that is divisible by [valid_step] and is not step 0, has handed
    two checkpoints to the saver per validation, and has drawn
    [2 * d_iters + g_iters] batches from the data stream per step; if
    any step was run, neither [valid_step] nor [d_iters] is zero. *)
Theorem uns_exec_validation_cadence (t t' : TrainUns.trainer F) :
  TrainUns.exec data_gen G_forward dis_backward d_step gen_backward g_step
    cv_losses t = Ok t' ->
  let validated :=
    List.filter (fun s => (s mod TrainUns.valid_step t =? 0)%Z
                          && negb (s =? 0)%Z) (TrainUns.steps_run t) in
  TrainUns.valid_time t'
  = (TrainUns.valid_time t + Z.of_nat (length validated))%Z /\
  length (TrainUns.saved t')
  = 2 * length validated + length (TrainUns.saved t) /\
  TrainUns.gen_pos t'
  = length (TrainUns.steps_run t)
    * (2 * TrainUns.d_iters t + TrainUns.g_iters t)
    + TrainUns.gen_pos t /\
  (TrainUns.steps_run t <> [] ->
   TrainUns.valid_step t <> 0%Z /\ TrainUns.d_iters t <> O).
Proof.
  unfold TrainUns.exec. intros Hrun.
  destruct (exec_steps_spec _ _ _ Hrun) as (H1 & H2 & H3 & _ & _ & _ & H4).
  cbn zeta. repeat split; try assumption; apply H4; assumption.
Qed.

End UnsLoop.

(** X18. The record [Trainer.valid] of the unsupervised loop hands to
    the saver holds the step under ['step'] and has no ['epoch'] entry,
    while [set_model] reads ['epoch'] on resume: a checkpoint made of
    that record and the generator's state dictionary cannot be
    resumed, [set_model] raises [KeyError('epoch')]. *)
Theorem uns_checkpoint_cannot_be_resumed
    {F : Type} `{FloatOps F} (losses : list F) (step : Z)
    (t t' : TrainUns.trainer F) :
  TrainUns.valid losses step t = Ok t' ->
  exists v info,
    TrainUns.saved t'
    = TrainUns.saved t ++ [(pretty step +:+ ".pth", v, info);
                           ("latest.pth", v, info)] /\
    info !! "step" = Some (VInt step) /\
    info !! "epoch" = None /\
    forall (cfg : TrainUns.config F) (st : store F) (u : TrainUns.trainer F)
           (sd : state_dict F),
      TrainUns.c_resume cfg <> "" ->
      st (TrainUns.c_resume cfg) = Some (<["state_dict" := VState sd]> info) ->
      TrainUns.set_model cfg st u = Raise (KeyError "epoch").
Proof.
  unfold TrainUns.valid. intros Hv. inv_bind Hv. rename a into v.
  injection Hv as <-. simpl. eexists v, _. split; [reflexivity|].
  split; [reflexivity|]. split; [reflexivity|].
  intros cfg st u sd Hres Hst. unfold TrainUns.set_model.
  apply String.eqb_neq in Hres. rewrite Hres.
  unfold torch_load. rewrite Hst. reflexivity.
Qed.

Lemma uns_train_dis_once_bookkeeping_witness :
  exists t',
    TrainUns.train_dis_once Runs.gen2 Runs.G2 (Runs.backward_with (Finite 1%Q))
      Runs.d_step2 3 Runs.uns_t0 = Ok t' /\
    TrainUns.gen_pos t' = 2%nat /\
    TrainUns.G t' = TrainUns.G Runs.uns_t0.
Proof.
  destruct (TrainUns.train_dis_once Runs.gen2 Runs.G2
              (Runs.backward_with (Finite 1%Q)) Runs.d_step2 3 Runs.uns_t0)
    as [t'|e] eqn:E; [|vm_compute in E; discriminate E].
  exists t'. split; [reflexivity|].
  destruct (uns_train_dis_once_bookkeeping Runs.gen2 Runs.G2
              (Runs.backward_with (Finite 1%Q)) Runs.d_step2 3 Runs.uns_t0 t' E)
    as (_ & Hpos & HG & _).
  split; [rewrite Hpos; reflexivity|exact HG].
Defined.

Lemma uns_gen_needs_cyclic_term_witness :
  exists e,
    TrainUns.train_gen_once Runs.gen2 Runs.G2
      (Runs.gen_backward_with (Finite 1%Q)) Runs.g_step2 3 Runs.uns_t_nocyc
    = Raise e /\
    (is_ok (Tensor.remix_of
              (Runs.G2 (TrainUns.G Runs.uns_t_nocyc)
                 (Runs.gen2 (TrainUns.gen_pos Runs.uns_t_nocyc))))
     = true ->
     e = AttributeError "item").
Proof.
  apply (uns_gen_needs_cyclic_term Runs.gen2 Runs.G2
           (Runs.gen_backward_with (Finite 1%Q)) Runs.g_step2 3
           Runs.uns_t_nocyc).
  - vm_compute. reflexivity.
  - vm_compute. discriminate.
Defined.

Lemma uns_exec_validation_cadence_witness :
  exists t',
    TrainUns.exec Runs.gen2 Runs.G2 (Runs.backward_with (Finite 1%Q))
      Runs.d_step2 (Runs.gen_backward_with (Finite 1%Q)) Runs.g_step2
      (fun _ => [1%Q]) Runs.uns_t0 = Ok t' /\
    TrainUns.valid_time t' = 1 /\
    length (TrainUns.saved t') = 2%nat /\
    TrainUns.gen_pos t' = 30%nat.
Proof.
  destruct (TrainUns.exec Runs.gen2 Runs.G2 (Runs.backward_with (Finite 1%Q))
              Runs.d_step2 (Runs.gen_backward_with (Finite 1%Q)) Runs.g_step2
              (fun _ => [1%Q]) Runs.uns_t0)
    as [t'|e] eqn:E; [|vm_compute in E; discriminate E].
  exists t'. split; [reflexivity|].
  destruct (uns_exec_validation_cadence Runs.gen2 Runs.G2
              (Runs.backward_with (Finite 1%Q)) Runs.d_step2
              (Runs.gen_backward_with (Finite 1%Q)) Runs.g_step2
              (fun _ => [1%Q]) Runs.uns_t0 t' E)
    as (Hvt & Hs & Hp & _).
  split; [rewrite Hvt; vm_compute; reflexivity|].
  split; [rewrite Hs; vm_compute; reflexivity|].
  rewrite Hp. vm_compute. reflexivity.
Defined.

Lemma uns_checkpoint_cannot_be_resumed_witness :
  exists t' v info,
    TrainUns.valid [1; 3]%Q 5 Runs.uns_t0 = Ok t' /\
    TrainUns.saved t'
    = TrainUns.saved Runs.uns_t0 ++ [(pretty 5 +:+ ".pth", v, info);
                                     ("latest.pth", v, info)] /\
    info !! "epoch" = None.
Proof.
  destruct (TrainUns.valid [1; 3]%Q 5 Runs.uns_t0) as [t'|e] eqn:E;
    [|vm_compute in E; discriminate E].
  destruct (uns_checkpoint_cannot_be_resumed [1; 3]%Q 5 Runs.uns_t0 t' E)
    as (v & info & Hsaved & _ & Hep & _).
  exists t', v, info. split; [reflexivity|]. split; [exact Hsaved|exact Hep].
Defined.

(** ** The remix on a batch of odd size (src/train_uns.py) *)

(** X19. The remix needs an even batch ("assert batch_size is even" is
    only a comment): on one example the unpacking of [torch.chunk]
    raises [ValueError], on five or more examples in odd number the
    sum of the two unequal chunks raises [RuntimeError], and on three
    examples the single example of the second chunk is broadcast, so
    the third example is added to both the first and the second. *)
Theorem remix_of_odd_batch
    {F : Type} `{FloatOps F} (estimate_source : list (list (list F)))
    (h : nat) :
  length estimate_source = (2 * h + 1)%nat ->
  match h with
  | O => Tensor.remix_of estimate_source
         = Raise (ValueError "not enough values to unpack (expected 2, got 1)")
  | 1%nat => exists a b c,
         estimate_source = [a; b; c] /\
         Tensor.remix_of estimate_source
         = Ok (Tensor.add2 a c ++ Tensor.add2 b c)
  | _ => Tensor.remix_of estimate_source
         = Raise (RuntimeError
                    "The size of tensor a must match the size of tensor b")
  end.
Proof.
  intros Hlen. destruct h as [|[|h]].
  - destruct estimate_source as [|a [|b l]]; try discriminate. reflexivity.
  - destruct estimate_source as [|a [|b [|c [|d l]]]]; try discriminate.
    exists a, b, c. split; [reflexivity|].
    unfold Tensor.remix_of, Tensor.chunk2, Tensor.add3, Tensor.view2. simpl.
    rewrite app_nil_r. reflexivity.
  - unfold Tensor.remix_of, Tensor.chunk2.
    destruct estimate_source as [|a l]; [discriminate|].
    set (x := a :: l) in *.
    assert (Hcs : ((length x + 1) / 2 = h + 3)%nat).
    { rewrite Hlen. symmetry. apply (Nat.div_unique _ _ _ O); lia. }
    rewrite Hcs.
    assert (Hd : length (drop (h + 3) x) = (h + 2)%nat)
      by (rewrite length_drop; lia).
    assert (Ht : length (take (h + 3) x) = (h + 3)%nat)
      by (rewrite length_take; lia).
    destruct (drop (h + 3) x) as [|d1 [|d2 dl]] eqn:Ed;
      try (simpl in Hd; lia).
    destruct (take (h + 3) x) as [|t1 [|t2 tl]] eqn:Et;
      try (simpl in Ht; lia).
    unfold x. cbn [mbind result_bind]. unfold Tensor.add3.
    destruct (length (t1 :: t2 :: tl) =? length (d1 :: d2 :: dl))%nat eqn:E.
    + apply Nat.eqb_eq in E. simpl in E, Hd, Ht. lia.
    + reflexivity.
Qed.

Lemma remix_of_odd_batch_witness :
  exists a b c,
    [[[1]; [2]]; [[10]; [20]]; [[100]; [200]]]%Q = [a; b; c] /\
    Tensor.remix_of [[[1]; [2]]; [[10]; [20]]; [[100]; [200]]]%Q
    = Ok (Tensor.add2 a c ++ Tensor.add2 b c).
Proof.
  apply (remix_of_odd_batch [[[1]; [2]]; [[10]; [20]]; [[100]; [200]]]%Q 1).
  reflexivity.
Defined.

(** ** The domain-adversarial loop (src/train_dagan.py) *)

Section DaganLoop.
Context {F : Type} `{FloatOps F}.
Variable src_gen tgt_gen : nat -> list (list F).
Variable dis_backward gen_backward :
  string -> Z -> state_dict F -> state_dict F ->
  list (list F) -> list (list F) -> TrainDagan.feedback F.
Variable d_step g_step :
  state_dict F * nat -> state_dict F ->
  list (list F) -> list (list F) -> state_dict F * nat.
Variable sup_step : state_dict F * nat -> list (list F) -> state_dict F * nat.
Variable cv_eval :
  string -> state_dict F -> state_dict F -> list (F * F * nat * F).
Local Open Scope nat_scope.

Abbreviation da_train_dis_once :=
  (TrainDagan.train_dis_once src_gen tgt_gen dis_backward d_step).
Abbreviation da_train_gen_once :=
  (TrainDagan.train_gen_once src_gen tgt_gen gen_backward g_step).

Lemma foldl_keep {A B} (a : A) (l : list B) : foldl (fun a _ => a) a l = a.
Proof. induction l; simpl; auto. Qed.

(** X20. With the adversarial loss ['wgan-gp'] the validation pass
    counts no domain prediction and still divides the accuracy by the
    count: [Trainer.valid] raises [ZeroDivisionError] on every loader,
    and so does the validation block of [exec]. *)
Theorem dagan_valid_wgan_gp_raises
    (loader : list (F * F * nat * F)) (step : Z) (t : TrainDagan.trainer F) :
  TrainDagan.adv_loss t = "wgan-gp" ->
  TrainDagan.valid loader t = Raise ZeroDivisionError /\
  TrainDagan.validate cv_eval step t = Raise ZeroDivisionError.
Proof.
  intros Hadv.
  assert (Hv : forall l, TrainDagan.valid l t = Raise ZeroDivisionError).
  { intros l. unfold TrainDagan.valid. rewrite Hadv. simpl.
    rewrite !foldl_keep. unfold div_count.
    destruct l as [|b l]; [reflexivity|]. simpl. rewrite ?foldl_keep.
    reflexivity. }
  split; [apply Hv|]. unfold TrainDagan.validate. rewrite !Hv. reflexivity.
Qed.

(** X21. With an adversarial loss that is neither ['wgan-gp'] nor
    ['gan'] no adversarial update can run: the first discriminator
    iteration reads [d_real_loss] and the first generator iteration
    reads [g_real_loss] before anything was assigned to them
    ([NameError]); with no iteration configured the mean over the
    iterations divides by zero. *)
Theorem dagan_unknown_adv_loss_raises
    (step : Z) (pretrain : bool) (t : TrainDagan.trainer F) :
  TrainDagan.known_adv (TrainDagan.adv_loss t) = false ->
  da_train_dis_once step pretrain t
  = Raise (if (TrainDagan.d_iters t =? 0)%nat then ZeroDivisionError
           else NameError "d_real_loss") /\
  da_train_gen_once step t
  = Raise (if (TrainDagan.g_iters t =? 0)%nat then ZeroDivisionError
           else NameError "g_real_loss").
Proof.
  intros Hk. split.
  - unfold TrainDagan.train_dis_once.
    destruct (TrainDagan.d_iters t) as [|n] eqn:En; simpl.
    + rewrite En. reflexivity.
    + unfold TrainDagan.dis_iter. rewrite Hk. reflexivity.
  - unfold TrainDagan.train_gen_once.
    destruct (TrainDagan.g_iters t) as [|n] eqn:En; simpl.
    + rewrite En. reflexivity.
    + unfold TrainDagan.gen_iter. rewrite Hk. reflexivity.
Qed.

(** A discriminator iteration and the logging after it change the
    discriminator, its optimizer, the two stream positions, the
    standard output and the scalar log, and nothing else. *)
Lemma da_dis_iters_frame (step : Z) (prefix : string) (n : nat) :
  forall (t t' : TrainDagan.trainer F) (y y' : TrainDagan.tally),
  TrainDagan.dis_iters src_gen tgt_gen dis_backward d_step n step prefix t y
  = Ok (t', y') ->
  exists d o w,
    t' = TrainDagan.update t (TrainDagan.G t, TrainDagan.g_optim t) d
           (n + TrainDagan.src_pos t) (n + TrainDagan.tgt_pos t) o w.
Proof.
  induction n as [|n IH]; intros t t' y y' Hd.
  - injection Hd as <- <-.
    exists (TrainDagan.D t, TrainDagan.d_optim t), (TrainDagan.stdout t),
      (TrainDagan.writer t).
    destruct t; reflexivity.
  - cbn [TrainDagan.dis_iters] in Hd. inv_bind Hd. destruct a as [t1 y1].
    assert (H1 : exists d o w,
              t1 = TrainDagan.update t (TrainDagan.G t, TrainDagan.g_optim t)
                     d (S (TrainDagan.src_pos t)) (S (TrainDagan.tgt_pos t))
                     o w).
    { unfold TrainDagan.dis_iter in Ha.
      destruct (negb _); [discriminate|].
      destruct (isnan _); injection Ha as <- _; eauto. }
    destruct H1 as (d1 & o1 & w1 & ->).
    destruct (IH _ _ _ _ Hd) as (d & o & w & ->).
    exists d, o, w. unfold TrainDagan.update. simpl. f_equal; lia.
Qed.

Lemma da_train_dis_once_frame (step : Z) (pretrain : bool)
    (t t' : TrainDagan.trainer F) :
  da_train_dis_once step pretrain t = Ok t' ->
  TrainDagan.d_iters t <> O /\
  exists d o w,
    t' = TrainDagan.update t (TrainDagan.G t, TrainDagan.g_optim t) d
           (TrainDagan.d_iters t + TrainDagan.src_pos t)
           (TrainDagan.d_iters t + TrainDagan.tgt_pos t) o w.
Proof.
  unfold TrainDagan.train_dis_once. intros Hd.
  apply bind_Ok in Hd. destruct Hd as ([t1 y] & Hit & Hd).
  destruct (da_dis_iters_frame _ _ _ _ _ _ _ Hit) as (d & o & w & ->).
  apply bind_Ok in Hd. destruct Hd as (l1 & Hl1 & Hd).
  apply bind_Ok in Hd. destruct Hd as (l2 & Hl2 & Hd).
  apply bind_Ok in Hd. destruct Hd as (l3 & Hl3 & Hd).
  split; [apply (div_count_Ok _ _ _ Hl1)|].
  simpl in Hd.
  destruct (String.eqb (TrainDagan.adv_loss t) "wgan-gp").
  - injection Hd as <-. eexists _, _, _. reflexivity.
  - destruct (String.eqb (TrainDagan.adv_loss t) "gan").
    + apply bind_Ok in Hd. destruct Hd as (acc & _ & Hd).
      injection Hd as <-. eexists _, _, _. reflexivity.
    + injection Hd as <-. eexists _, _, _. reflexivity.
Qed.

(** X22. The pretraining phase of [exec] never touches the generator:
    when the [pretrain_d_step] discriminator rounds return, the
    generator and its optimizer are as before, [d_iters] batches have
    been drawn from each of the two streams per round, and nothing
    has been validated or saved. *)
Theorem dagan_pretraining_leaves_generator
    (steps : list Z) (t t' : TrainDagan.trainer F) :
  TrainDagan.run (fun t s => da_train_dis_once s true t) t steps = Ok t' ->
  TrainDagan.G t' = TrainDagan.G t /\
  TrainDagan.g_optim t' = TrainDagan.g_optim t /\
  TrainDagan.src_pos t'
  = length steps * TrainDagan.d_iters t + TrainDagan.src_pos t /\
  TrainDagan.tgt_pos t'
  = length steps * TrainDagan.d_iters t + TrainDagan.tgt_pos t /\
  TrainDagan.saved t' = TrainDagan.saved t /\
  TrainDagan.valid_time t' = TrainDagan.valid_time t /\
  (steps <> [] -> TrainDagan.d_iters t <> O).
Proof.
  revert t. induction steps as [|s steps IH]; intros t Hrun.
  - injection Hrun as <-. simpl. repeat split; congruence.
  - cbn [TrainDagan.run] in Hrun. inv_bind Hrun.
    destruct (da_train_dis_once_frame _ _ _ _ Ha) as (Hnz & d & o & w & ->).
    destruct (IH _ Hrun) as (HG & Hgo & Hsp & Htp & Hsv & Hvt & _).
    simpl in *. rewrite HG, Hgo, Hsp, Htp, Hsv, Hvt.
    repeat split; first [lia | exact Hnz].
Qed.

End DaganLoop.

(** X23. A checkpoint of the domain-adversarial loop can be resumed:
    [set_model] on the record the validation block hands to the saver,
    completed with the generator's state dictionary, succeeds for
    networks of the same shape and restores the generator, the
    discriminator and, on request, both optimizer states as they were
    when the checkpoint was made. *)
Theorem dagan_checkpoint_round_trip
    {F : Type} `{FloatOps F}
    (cv_eval : string -> state_dict F -> state_dict F -> list (F * F * nat * F))
    (step : Z) (t t' : TrainDagan.trainer F) :
  TrainDagan.validate cv_eval step t = Ok t' ->
  exists v info,
    TrainDagan.saved t'
    = TrainDagan.saved t ++ [(pretty step +:+ ".pth", v, info);
                             ("latest.pth", v, info)] /\
    forall (cfg : TrainDagan.config F) (st : store F)
           (u : TrainDagan.trainer F),
      TrainDagan.c_resume cfg <> "" ->
      st (TrainDagan.c_resume cfg)
      = Some (<["state_dict" := VState (TrainDagan.G t)]> info) ->
      dom (TrainDagan.G u) = dom (TrainDagan.G t) ->
      dom (TrainDagan.D u) = dom (TrainDagan.D t) ->
      exists u',
        TrainDagan.set_model cfg st u = Ok u' /\
        TrainDagan.G u' = TrainDagan.G t /\
        TrainDagan.D u' = TrainDagan.D t /\
        (TrainDagan.g_optim u', TrainDagan.d_optim u')
        = (if TrainDagan.c_resume_optim cfg
           then (TrainDagan.g_optim t, TrainDagan.d_optim t)
           else (TrainDagan.g_optim u, TrainDagan.d_optim u)) /\
        TrainDagan.start_step u' = TrainDagan.start_step u.
Proof.
  unfold TrainDagan.validate. intros Hv.
  apply bind_Ok in Hv. destruct Hv as (wm & _ & Hv).
  apply bind_Ok in Hv. destruct Hv as (vm & _ & Hv).
  injection Hv as <-. simpl. eexists _, _. split; [reflexivity|].
  intros cfg st u Hres Hst HdG HdD. unfold TrainDagan.set_model.
  apply String.eqb_neq in Hres. rewrite Hres.
  unfold torch_load. rewrite Hst. rewrite bind_Ok_l.
  match goal with
  | |- context [map_get ?m "valid_score"] => set (info := m)
  end.
  assert (L1 : map_get info "valid_score" = Ok (VScore vm.1.1)).
  { unfold map_get, info. repeat (rewrite lookup_insert_ne by discriminate).
    rewrite lookup_insert_eq. reflexivity. }
  assert (L2 : map_get info "state_dict" = Ok (VState (TrainDagan.G t))).
  { unfold map_get, info. rewrite lookup_insert_eq. reflexivity. }
  assert (L3 : map_get info "D_state_dict" = Ok (VState (TrainDagan.D t))).
  { unfold map_get, info. repeat (rewrite lookup_insert_ne by discriminate).
    rewrite lookup_insert_eq. reflexivity. }
  assert (L4 : map_get info "g_optim" = Ok (VOptim (TrainDagan.g_optim t))).
  { unfold map_get, info. repeat (rewrite lookup_insert_ne by discriminate).
    rewrite lookup_insert_eq. reflexivity. }
  assert (L5 : map_get info "d_optim" = Ok (VOptim (TrainDagan.d_optim t))).
  { unfold map_get, info. repeat (rewrite lookup_insert_ne by discriminate).
    rewrite lookup_insert_eq. reflexivity. }
  rewrite L1, L2, L3, L4, L5. simpl.
  unfold TrainUns.load_net.
  rewrite !bool_decide_eq_true_2 by congruence. simpl.
  destruct (TrainDagan.c_resume_optim cfg); simpl;
    eexists; repeat split; reflexivity.
Qed.

Lemma dagan_valid_wgan_gp_raises_witness :
  TrainDagan.valid [(1, 2, 4%nat, 3)]%Q Runs.da_wgan_t0
  = Raise ZeroDivisionError.
Proof.
  destruct (dagan_valid_wgan_gp_raises (fun _ _ _ => [(1, 2, 4%nat, 3)]%Q)
              [(1, 2, 4%nat, 3)]%Q 5 Runs.da_wgan_t0) as [Hv _].
  - reflexivity.
  - exact Hv.
Defined.

Lemma dagan_unknown_adv_loss_raises_witness :
  TrainDagan.train_dis_once Runs.gen2 Runs.gen2
    (Runs.da_backward_with (Finite 1%Q)) Runs.da_d_step2 0 false
    Runs.da_lsgan_t0
  = Raise (NameError "d_real_loss").
Proof.
  destruct (dagan_unknown_adv_loss_raises Runs.gen2 Runs.gen2
              (Runs.da_backward_with (Finite 1%Q))
              (Runs.da_backward_with (Finite 1%Q))
              Runs.da_d_step2 Runs.da_d_step2 0 false Runs.da_lsgan_t0)
    as [Hd _].
  - reflexivity.
  - exact Hd.
Defined.

Lemma dagan_pretraining_leaves_generator_witness :
  exists t',
    TrainDagan.run
      (fun t s => TrainDagan.train_dis_once Runs.gen2 Runs.gen2
                    (Runs.da_backward_with (Finite 1%Q)) Runs.da_d_step2
                    s true t)
      Runs.da_u0 [0; 1; 2] = Ok t' /\
    TrainDagan.G t' = TrainDagan.G Runs.da_u0 /\
    TrainDagan.src_pos t' = 3%nat.
Proof.
  destruct (TrainDagan.run
              (fun t s => TrainDagan.train_dis_once Runs.gen2 Runs.gen2
                            (Runs.da_backward_with (Finite 1%Q))
                            Runs.da_d_step2 s true t)
              Runs.da_u0 [0; 1; 2]) as [t'|e] eqn:E;
    [|vm_compute in E; discriminate E].
  exists t'. split; [reflexivity|].
  destruct (dagan_pretraining_leaves_generator Runs.gen2 Runs.gen2
              (Runs.da_backward_with (Finite 1%Q)) Runs.da_d_step2
              [0; 1; 2] Runs.da_u0 t' E) as (HG & _ & Hsp & _).
  split; [exact HG|rewrite Hsp; reflexivity].
Defined.

Lemma dagan_checkpoint_round_trip_witness :
  exists t' v info,
    TrainDagan.validate (fun _ _ _ => [(1, 2, 4%nat, 3)]%Q) 5 Runs.da_u0
    = Ok t' /\
    TrainDagan.saved t'
    = TrainDagan.saved Runs.da_u0 ++ [(pretty 5 +:+ ".pth", v, info);
                                      ("latest.pth", v, info)].
Proof.
  destruct (TrainDagan.validate (fun _ _ _ => [(1, 2, 4%nat, 3)]%Q) 5
              Runs.da_u0) as [t'|e] eqn:E;
    [|vm_compute in E; discriminate E].
  destruct (dagan_checkpoint_round_trip (fun _ _ _ => [(1, 2, 4%nat, 3)]%Q)
              5 Runs.da_u0 t' E) as (v & info & Hsaved & _).
  exists t', v, info. split; [reflexivity|exact Hsaved].
Defined.

(** ** The optimizer of the domain-adversarial loop
    (src/train_dagan.py) *)



(** ** The patch classifier (src/domain_cls.py) *)

Section ConvPatch.
Import DomainCls ConvPatchShape.
Local Open Scope nat_scope.

Lemma conv_patch_layers_shape (norm_type : pyval) (ln : bool) (n : nat)
    (layers : list pyval) :
  forall (in_channel : pyval) (l : nat) (net : list layer),
  conv_patch_layers norm_type ln n in_channel l layers = Ok net ->
  n = l + length layers ->
  length (convs net) = length layers /\
  chained in_channel (convs net) /\
  length net
  = length layers + (length layers - 1) * (if ln then 2 else 1) /\
  length (List.filter is_leaky net) = length layers - 1 /\
  (layers <> [] -> exists c, last net = Some c /\ is_Some (conv_io c)).
Proof.
  induction layers as [|lconf rest IH]; intros in_channel l net Hnet Hn.
  - injection Hnet as <-. simpl. repeat split; congruence.
  - cbn [conv_patch_layers] in Hnet.
    apply bind_Ok in Hnet. destruct Hnet as (oc & _ & Hnet).
    apply bind_Ok in Hnet. destruct Hnet as (k & _ & Hnet).
    apply bind_Ok in Hnet. destruct Hnet as (s & _ & Hnet).
    apply bind_Ok in Hnet. destruct Hnet as (p & _ & Hnet).
    apply bind_Ok in Hnet. destruct Hnet as (more & Hmore & Hnet).
    injection Hnet as <-.
    destruct (IH oc (S l) more Hmore ltac:(simpl in Hn; lia))
      as (Hc & Hch & Hlen & Hlk & Hlast).
    simpl in Hn.
    destruct (l =? n - 1) eqn:El.
    + apply Nat.eqb_eq in El.
      assert (Hrest : rest = []) by (apply length_zero_iff_nil; lia).
      subst rest. simpl in Hmore. injection Hmore as <-.
      rewrite andb_false_r. simpl.
      repeat split; try reflexivity. intros _. eexists. split; eauto.
    + apply Nat.eqb_neq in El.
      assert (Hrest : rest <> []).
      { intros ->. simpl in Hn. lia. }
      assert (Hpos : 1 <= length rest).
      { destruct rest; [contradiction|simpl; lia]. }
      rewrite andb_true_r. simpl negb. cbv iota.
      destruct (Hlast Hrest) as (c & Hc1 & Hc2).
      assert (Hmne : more <> []) by (intros ->; discriminate).
      destruct ln; simpl; rewrite ?Hc, ?Hlen, ?Hlk;
        (split; [reflexivity|]; split; [split; [reflexivity|exact Hch]|];
         split; [lia|]; split; [lia|]; intros _; exists c;
         split; [|exact Hc2]).
      * destruct more as [|m0 more']; [contradiction|]. exact Hc1.
      * destruct more as [|m0 more']; [contradiction|]. exact Hc1.
Qed.


End ConvPatch.


(** ** The entry point (main.py) *)

(** X26. [main.py] selects a solver for eight modes only: any other
    mode exits, and so does ['dacluster'] without [--test]; the modes
    ['pimt'], ['freeze'], ['perturb'], ['augm'] and ['limit'] ignore
    [--test]; and for no mode and flag is the solver taken from the
    unsupervised, the cmvn or the transnorm trainer. *)
Theorem main_select_solver_modes (mode : string) (test : bool) :
  (mode ∉ ["baseline"; "dagan"; "pimt"; "freeze"; "perturb"; "augm";
           "limit"; "dacluster"] ->
   Main.select_solver mode test = Raise SystemExit) /\
  (mode ∈ ["pimt"; "freeze"; "perturb"; "augm"; "limit"] ->
   Main.select_solver mode test = Main.select_solver mode (negb test) /\
   is_ok (Main.select_solver mode test) = true) /\
  (forall m, Main.select_solver mode test = Ok m ->
             m ∉ Main.unreachable_trainers).
Proof.
  split; [|split].
  - intros Hnot.
    assert (Hne : forall s,
              s ∈ ["baseline"; "dagan"; "pimt"; "freeze"; "perturb"; "augm";
                   "limit"; "dacluster"] -> String.eqb mode s = false).
    { intros s Hs. apply String.eqb_neq. intros ->. contradiction. }
    unfold Main.select_solver.
    rewrite !Hne by (rewrite !elem_of_cons; tauto). reflexivity.
  - rewrite !elem_of_cons, elem_of_nil.
    intros [->|[->|[->|[->|[->|[]]]]]]; destruct test; split; reflexivity.
  - intros m Hm. unfold Main.select_solver in Hm.
    unfold Main.unreachable_trainers. rewrite !elem_of_cons, elem_of_nil.
    repeat match type of Hm with
           | (if String.eqb ?a ?b then _ else _) = _ =>
               destruct (String.eqb a b)
           | (if negb ?b then _ else _) = _ => destruct b; simpl in Hm
           end;
      try discriminate Hm; injection Hm as <-;
      intros [E|[E|[E|[]]]]; discriminate E.
Qed.

(** ** The mixing script (data/make_mix/create_wsj0vctk_2mix.py) *)

Section MakeMixProps.
Context {F : Type} `{FloatOps F}.
Variable fabs : F -> F.
Variable np_max : list F -> result F.
Variable one nine_tenths : F.
Local Open Scope nat_scope.

Lemma align_fit (min_max : string) (s1 s2 : list F) :
  MakeMix.align min_max s1 s2
  = (MakeMix.fit (MakeMix.common_length min_max (length s1) (length s2)) s1,
     MakeMix.fit (MakeMix.common_length min_max (length s1) (length s2)) s2).
Proof.
  unfold MakeMix.align, MakeMix.common_length, MakeMix.fit.
  destruct (String.eqb min_max "max").
  - destruct (length s1 <? length s2) eqn:E1.
    + apply Nat.ltb_lt in E1.
      rewrite Nat.max_r by lia.
      rewrite (take_ge s1), (take_ge s2) by lia.
      replace (length s2 - length s2) with O by lia.
      simpl. rewrite app_nil_r. reflexivity.
    + apply Nat.ltb_ge in E1.
      rewrite Nat.max_l by lia.
      rewrite (take_ge s1), (take_ge s2) by lia.
      replace (length s1 - length s1) with O by lia.
      simpl. rewrite app_nil_r.
      destruct (length s2 <? length s1) eqn:E2; [reflexivity|].
      apply Nat.ltb_ge in E2.
      replace (length s1 - length s2) with O by lia.
      simpl. rewrite app_nil_r. reflexivity.
  - destruct (length s1 <? length s2) eqn:E1.
    + apply Nat.ltb_lt in E1.
      rewrite Nat.min_l by lia.
      replace (length s1 - length s1) with O by lia.
      replace (length s1 - length s2) with O by lia.
      simpl. rewrite !app_nil_r, (take_ge s1) by lia. reflexivity.
    + apply Nat.ltb_ge in E1.
      rewrite Nat.min_r by lia.
      replace (length s2 - length s1) with O by lia.
      replace (length s2 - length s2) with O by lia.
      simpl. rewrite !app_nil_r, (take_ge s2) by lia.
      destruct (length s2 <? length s1) eqn:E2; [reflexivity|].
      apply Nat.ltb_ge in E2. rewrite take_ge by lia. reflexivity.
Qed.

Lemma fit_length (T : nat) (s : list F) : length (MakeMix.fit T s) = T.
Proof.
  unfold MakeMix.fit. rewrite length_app, length_take, length_replicate. lia.
Qed.


End MakeMixProps.


(** ** Switching the evaluation domain (src/train_transnorm.py) *)

Section TransNormProps.
Context {A : Type}.
Local Open Scope nat_scope.

Lemma getitem_nat {B} (l : list B) (i : nat) (x : B) :
  l !! i = Some x -> Py.getitem l (Z.of_nat i) = Ok x.
Proof.
  intros Hl. unfold Py.getitem. cbv zeta.
  assert (E : (Z.of_nat i <? 0)%Z = false) by (apply Z.ltb_ge; lia).
  rewrite !E, Nat2Z.id, Hl. reflexivity.
Qed.

Lemma position_nat (n i : nat) : TransNorm.position n (Z.of_nat i) = i.
Proof.
  unfold TransNorm.position.
  assert (E : (Z.of_nat i <? 0)%Z = false) by (apply Z.ltb_ge; lia).
  rewrite E. apply Nat2Z.id.
Qed.

(** A position of the grid determines its row and its column. *)
Lemma grid_inj (X a b c d : nat) :
  b < X -> d < X -> a * X + b = c * X + d -> a = c /\ b = d.
Proof.
  intros Hb Hd He.
  assert (a = c).
  { destruct (Nat.lt_trichotomy a c) as [Hl|[Heq|Hg]]; [|exact Heq|]; nia. }
  subst. lia.
Qed.

Variable source : bool.
Variable X R : nat.
Variable net : list (list (TransNorm.block A)).
Hypothesis HX : 0 < X.
Hypothesis HR : length net = R.
Hypothesis Hrows : Forall (fun row => length row = X) net.

Lemma switch_next (j : nat) :
  j < X * R ->
  TransNorm.switch source (Z.of_nat X)
    (TransNorm.switched_upto source X j net) (Z.of_nat j)
  = Ok (TransNorm.switched_upto source X (S j) net).
Proof.
  intros Hj. unfold TransNorm.switch.
  assert (E0 : (Z.of_nat X =? 0)%Z = false) by (apply Z.eqb_neq; lia).
  rewrite E0.
  rewrite <- Nat2Z.inj_div, <- Nat2Z.inj_mod.
  set (r := j / X). set (x := j mod X).
  assert (Hr : r < R) by (apply Nat.Div0.div_lt_upper_bound; exact Hj).
  assert (Hx : x < X) by (apply Nat.mod_upper_bound; lia).
  assert (Hjrx : r * X + x = j).
  { unfold r, x. pose proof (Nat.div_mod_eq j X). lia. }
  destruct (lookup_lt_is_Some_2 net r ltac:(lia)) as [row Hrow].
  assert (Hlen : length row = X).
  { rewrite Forall_forall in Hrows. apply Hrows.
    apply list_elem_of_lookup. eauto. }
  destruct (lookup_lt_is_Some_2 row x ltac:(lia)) as [b Hb].
  set (f := fun (k r' x' : nat) (b' : TransNorm.block A) =>
              if r' * X + x' <? k then TransNorm.set_mode source b' else b').
  assert (Hup : forall k, TransNorm.switched_upto source X k net
                          = imap (fun r' row' => imap (f k r') row') net)
    by reflexivity.
  assert (Hrow' : TransNorm.switched_upto source X j net !! r
                  = Some (imap (f j r) row)).
  { rewrite Hup, list_lookup_imap, Hrow. reflexivity. }
  assert (Hb' : imap (f j r) row !! x = Some b).
  { rewrite list_lookup_imap, Hb. simpl. unfold f.
    destruct (r * X + x <? j) eqn:E; [apply Nat.ltb_lt in E; lia|].
    reflexivity. }
  rewrite (getitem_nat _ _ _ Hrow'), bind_Ok_l.
  rewrite (getitem_nat _ _ _ Hb'), bind_Ok_l.
  rewrite !position_nat. f_equal.
  apply list_eq. intros i.
  destruct (decide (i = r)) as [->|Hne].
  - rewrite list_lookup_insert_eq
      by (rewrite Hup, length_imap; lia).
    rewrite Hup, list_lookup_imap, Hrow. simpl. f_equal.
    apply list_eq. intros x'.
    destruct (decide (x' = x)) as [->|Hnx].
    + rewrite list_lookup_insert_eq by (rewrite length_imap; lia).
      rewrite list_lookup_imap, Hb. simpl. unfold f.
      destruct (r * X + x <? S j) eqn:E; [reflexivity|].
      apply Nat.ltb_ge in E. lia.
    + rewrite list_lookup_insert_ne by congruence.
      rewrite !list_lookup_imap.
      destruct (row !! x') as [b'|] eqn:Eb'; [|reflexivity].
      simpl. unfold f. f_equal.
      assert (Hx' : x' < X).
      { rewrite <- Hlen. apply lookup_lt_Some with b'. exact Eb'. }
      destruct (r * X + x' <? j) eqn:E1, (r * X + x' <? S j) eqn:E2;
        try reflexivity.
      * apply Nat.ltb_lt in E1. apply Nat.ltb_ge in E2. lia.
      * apply Nat.ltb_ge in E1. apply Nat.ltb_lt in E2.
        assert (r * X + x' = r * X + x) by lia.
        destruct (grid_inj X r x' r x Hx' Hx ltac:(lia)). contradiction.
  - rewrite list_lookup_insert_ne by congruence.
    rewrite !Hup, !list_lookup_imap.
    destruct (net !! i) as [row'|] eqn:Ei; [|reflexivity].
    simpl. f_equal. apply imap_ext. intros x' b' Hb''.
    assert (Hlen' : length row' = X).
    { rewrite Forall_forall in Hrows. apply Hrows.
      apply list_elem_of_lookup. eauto. }
    assert (Hx' : x' < X).
    { rewrite <- Hlen'. apply lookup_lt_Some with b'. exact Hb''. }
    unfold f.
    destruct (i * X + x' <? j) eqn:E1, (i * X + x' <? S j) eqn:E2;
      try reflexivity.
    + apply Nat.ltb_lt in E1. apply Nat.ltb_ge in E2. lia.
    + apply Nat.ltb_ge in E1. apply Nat.ltb_lt in E2.
      destruct (grid_inj X i x' r x Hx' Hx ltac:(lia)). contradiction.
Qed.

Lemma switch_all_upto (k : nat) :
  forall j, j + k <= X * R ->
  TransNorm.switch_all source (Z.of_nat X)
    (TransNorm.switched_upto source X j net) (Z.of_nat <$> seq j k)
  = Ok (TransNorm.switched_upto source X (j + k) net).
Proof.
  induction k as [|k IH]; intros j Hjk.
  - simpl. rewrite Nat.add_0_r. reflexivity.
  - cbn [seq fmap list_fmap TransNorm.switch_all].
    rewrite switch_next by lia. rewrite bind_Ok_l.
    rewrite (IH (S j)) by lia. do 2 f_equal. lia.
Qed.

Lemma switched_upto_0 : TransNorm.switched_upto source X 0 net = net.
Proof.
  apply list_eq. intros r. unfold TransNorm.switched_upto.
  rewrite list_lookup_imap.
  destruct (net !! r) as [row|]; [|reflexivity]. simpl. f_equal.
  apply list_eq. intros x. rewrite list_lookup_imap.
  destruct (row !! x); reflexivity.
Qed.

Lemma switched_upto_all :
  TransNorm.switched_upto source X (X * R) net
  = (fun row : list (TransNorm.block A) => TransNorm.set_mode source <$> row)
    <$> net.
Proof.
  apply list_eq. intros r. unfold TransNorm.switched_upto.
  rewrite list_lookup_imap, list_lookup_fmap.
  destruct (net !! r) as [row|] eqn:Er; [|reflexivity]. simpl. f_equal.
  assert (Hr : r < R).
  { rewrite <- HR. apply lookup_lt_Some with row. exact Er. }
  assert (Hlen : length row = X).
  { rewrite Forall_forall in Hrows. apply Hrows.
    apply list_elem_of_lookup. eauto. }
  apply list_eq. intros x. rewrite list_lookup_imap, list_lookup_fmap.
  destruct (row !! x) as [b|] eqn:Eb; [|reflexivity]. simpl.
  assert (Hx : x < X).
  { rewrite <- Hlen. apply lookup_lt_Some with b. exact Eb. }
  destruct (r * X + x <? X * R) eqn:E; [reflexivity|].
  apply Nat.ltb_ge in E. nia.
Qed.

(** X28. On a separator of [R] repeats of [X] blocks,
    [change_eval_domain] returns and has put both normalisation layers
    of every block in the requested mode, leaving the rest of every
    block as it was: the index arithmetic [l // X], [l % X] visits
    each block of the grid once and never leaves it. *)
Theorem change_eval_domain_switches_every_block :
  TransNorm.change_eval_domain source (Z.of_nat X) (Z.of_nat R) net
  = Ok ((fun row : list (TransNorm.block A) => TransNorm.set_mode source <$> row)
    <$> net).
Proof.
  unfold TransNorm.change_eval_domain, range.
  rewrite <- Nat2Z.inj_mul, Nat2Z.id.
  rewrite <- switched_upto_0 at 1.
  rewrite (switch_all_upto (X * R) 0) by lia.
  rewrite Nat.add_0_l, switched_upto_all. reflexivity.
Qed.

End TransNormProps.

Lemma change_eval_domain_switches_every_block_witness :
  TransNorm.change_eval_domain true 2 2
    [[TransNorm.Block false false 0%nat; TransNorm.Block false true 1%nat];
     [TransNorm.Block true false 2%nat; TransNorm.Block false false 3%nat]]
  = Ok [[TransNorm.Block true true 0%nat; TransNorm.Block true true 1%nat];
        [TransNorm.Block true true 2%nat; TransNorm.Block true true 3%nat]].
Proof.
  apply (change_eval_domain_switches_every_block true 2 2
           [[TransNorm.Block false false 0%nat;
             TransNorm.Block false true 1%nat];
            [TransNorm.Block true false 2%nat;
             TransNorm.Block false false 3%nat]]).
  - lia.
  - reflexivity.
  - repeat constructor.
Defined.

(** ** Degenerate segment lengths (src/dataset.py) *)

(** X29. On a manifest that is not empty, [wsj0.__init__] cannot
    build a dataset from a degenerate segment length: with
    [seg_len = -1] the attribute [seg_len] is never assigned and the
    first utterance raises [AttributeError]; with a segment length
    that truncates to zero samples the chunking of the first utterance
    divides by zero (in modes ['cv'] and ['tt'], and in mode ['tr']
    when all chunks are asked for). *)
Theorem init_degenerate_segment
    {F : Type} `{FloatOps F} (fs : Dataset.disk F) (d : Dataset.manifest)
    (sl_arg : Q) (pl oc : bool) (m : Dataset.mode)
    (uid : string) (u : Dataset.utt) (rest : Dataset.manifest)
    (path : string) (utt_len : Z) :
  d = (uid, u) :: rest ->
  u !! "mix" = Some (path, utt_len) ->
  0 <= utt_len ->
  (Qeq_bool sl_arg (-1) = true ->
   Dataset.init fs d sl_arg pl oc m = Raise (AttributeError "seg_len")) /\
  (Qeq_bool sl_arg (-1) = false ->
   py_int (sl_arg * inject_Z 8000) = 0 ->
   m <> Dataset.Tr \/ oc = false ->
   Dataset.init fs d sl_arg pl oc m = Raise ZeroDivisionError).
Proof.
  intros -> Hmix Hlen. unfold Dataset.init. split.
  - intros ->. cbn [Dataset.init_id_list]. unfold Dataset.init_entry, map_get.
    rewrite Hmix. destruct m; reflexivity.
  - intros -> Hz Hmode. rewrite Hz.
    cbn [Dataset.init_id_list]. unfold Dataset.init_entry, map_get.
    rewrite Hmix. simpl.
    assert (Hge : (utt_len >=? 0) = true).
    { destruct (utt_len >=? 0) eqn:E; [reflexivity|lia]. }
    destruct m; simpl; try reflexivity.
    rewrite Hge. destruct Hmode as [Hm| ->]; [contradiction|]. reflexivity.
Qed.

Lemma init_degenerate_segment_witness :
  Dataset.init Runs.disk1 Runs.manifest1 (-1) false false Dataset.Cv
  = Raise (AttributeError "seg_len") /\
  Dataset.init Runs.disk1 Runs.manifest1 (1 # 16000) false false Dataset.Cv
  = Raise ZeroDivisionError.
Proof.
  split.
  - destruct (init_degenerate_segment Runs.disk1 Runs.manifest1 (-1) false
                false Dataset.Cv "a" Runs.utt_a [] "mix/a.wav" 5)
      as [Hminus _].
    + reflexivity.
    + vm_compute. reflexivity.
    + lia.
    + apply Hminus. reflexivity.
  - destruct (init_degenerate_segment Runs.disk1 Runs.manifest1 (1 # 16000)
                false false Dataset.Cv "a" Runs.utt_a [] "mix/a.wav" 5)
      as [_ Hzero].
    + reflexivity.
    + vm_compute. reflexivity.
    + lia.
    + apply Hzero; [reflexivity|reflexivity|left; discriminate].
Defined.

(** ** The validation pass of the cmvn loop (src/train_cmvn.py) *)

Section CmvnValidMeans.
Context {F : Type} `{FloatOps F}.
Variable gender_mapper : string -> string -> string.
Variable dset : string.
Local Open Scope nat_scope.

Abbreviation of_gender g l :=
  (filter (fun it : string * F => gender_mapper it.1 dset = g) l).

Abbreviation v_covers a :=
  (forall g, g ∈ TrainCmvn.genders ->
     is_Some (TrainCmvn.gender_cnt a !! g) /\
     is_Some (TrainCmvn.gender_sisnri a !! g)).

Abbreviation v_tracked a l a' :=
  (forall g,
     TrainCmvn.gender_cnt a' !! g
     = (fun c => c + length (of_gender g l)) <$> TrainCmvn.gender_cnt a !! g /\
     TrainCmvn.gender_sisnri a' !! g
     = (fun s => foldl fadd s (snd <$> of_gender g l))
       <$> TrainCmvn.gender_sisnri a !! g).

Lemma v_tracked_app a a1 a2 l1 l2 :
  v_tracked a l1 a1 -> v_tracked a1 l2 a2 -> v_tracked a (l1 ++ l2) a2.
Proof.
  intros H1 H2 g. destruct (H1 g) as [Hc1 Hs1], (H2 g) as [Hc2 Hs2].
  rewrite filter_app, fmap_app, length_app. split.
  - rewrite Hc2, Hc1. apply fmap_add_add.
  - rewrite Hs2, Hs1. apply fmap_foldl_app.
Qed.

Lemma v_tracked_covers a l a' : v_tracked a l a' -> v_covers a -> v_covers a'.
Proof.
  intros Ht Hc g Hg. destruct (Hc g Hg) as [H1 H2].
  destruct (Ht g) as [-> ->]. split; apply fmap_is_Some; assumption.
Qed.

Lemma valid_items_run (l : list (string * F)) :
  forall a : TrainCmvn.vacc F,
  v_covers a ->
  (forall it, it ∈ l -> gender_mapper it.1 dset ∈ TrainCmvn.genders) ->
  exists a',
    TrainCmvn.valid_items gender_mapper dset a l = Ok a' /\
    TrainCmvn.total_loss a' = TrainCmvn.total_loss a /\
    TrainCmvn.total_sisnri a' = TrainCmvn.total_sisnri a /\
    TrainCmvn.cnt a' = TrainCmvn.cnt a /\
    v_tracked a l a'.
Proof.
  induction l as [|[u x] l IH]; intros a Hc Hl.
  - exists a. split; [reflexivity|]. split; [reflexivity|].
    split; [reflexivity|]. split; [reflexivity|].
    intros g. rewrite filter_nil. simpl.
    rewrite fmap_add_0, fmap_foldl_nil. auto.
  - pose proof (Hl (u, x) ltac:(left)) as Hlab. simpl in Hlab.
    destruct (Hc _ Hlab) as ([c Ec] & [s Es]).
    set (lab := gender_mapper u dset) in *.
    set (a1 := TrainCmvn.VAcc (TrainCmvn.total_loss a)
                 (TrainCmvn.total_sisnri a) (TrainCmvn.cnt a)
                 (<[lab := fadd s x]> (TrainCmvn.gender_sisnri a))
                 (<[lab := S c]> (TrainCmvn.gender_cnt a))).
    assert (H1 : v_tracked a [(u, x)] a1).
    { intros g. rewrite filter_cons, filter_nil. simpl. fold lab.
      destruct (decide (lab = g)) as [<-|Hne]; simpl.
      - rewrite !lookup_insert_eq, Ec, Es. simpl.
        split; f_equal; lia.
      - rewrite !lookup_insert_ne by congruence.
        rewrite fmap_add_0, fmap_foldl_nil. auto. }
    destruct (IH a1 (v_tracked_covers _ _ _ H1 Hc)
                ltac:(intros it Hit; apply Hl; right; exact Hit))
      as (a' & Hrun & Hl' & Hs' & Hn' & Ht').
    exists a'. cbn [TrainCmvn.valid_items]. fold lab.
    unfold Gender.dict_add, Gender.dict_incr, map_get.
    rewrite Es, Ec. rewrite !bind_Ok_l.
    split; [exact Hrun|]. split; [exact Hl'|]. split; [exact Hs'|].
    split; [exact Hn'|].
    apply (v_tracked_app a a1 a' [(u, x)] l H1 Ht').
Qed.

Lemma valid_loader_run (l : list (TrainCmvn.vbatch F)) :
  forall a : TrainCmvn.vacc F,
  v_covers a ->
  (forall it, it ∈ concat (TrainCmvn.vb_items <$> l) ->
     gender_mapper it.1 dset ∈ TrainCmvn.genders) ->
  exists a',
    TrainCmvn.valid_loader gender_mapper dset a l = Ok a' /\
    TrainCmvn.total_loss a'
    = foldl (fun t (b : TrainCmvn.vbatch F) =>
               fadd t (fmul (TrainCmvn.vb_loss b)
                         (f_of_nat (length (TrainCmvn.vb_items b)))))
        (TrainCmvn.total_loss a) l /\
    TrainCmvn.total_sisnri a'
    = foldl (fun t (b : TrainCmvn.vbatch F) =>
               fadd t (fsum (snd <$> TrainCmvn.vb_items b)))
        (TrainCmvn.total_sisnri a) l /\
    TrainCmvn.cnt a'
    = TrainCmvn.cnt a + length (concat (TrainCmvn.vb_items <$> l)) /\
    v_tracked a (concat (TrainCmvn.vb_items <$> l)) a'.
Proof.
  induction l as [|b l IH]; intros a Hc Hl.
  - exists a. split; [reflexivity|]. split; [reflexivity|].
    split; [reflexivity|]. split; [simpl; lia|].
    intros g. simpl. rewrite ?filter_nil. simpl.
    rewrite fmap_add_0, fmap_foldl_nil. auto.
  - simpl in Hl.
    set (a1 := TrainCmvn.VAcc
                 (fadd (TrainCmvn.total_loss a)
                    (fmul (TrainCmvn.vb_loss b)
                       (f_of_nat (length (TrainCmvn.vb_items b)))))
                 (fadd (TrainCmvn.total_sisnri a)
                    (fsum (snd <$> TrainCmvn.vb_items b)))
                 (TrainCmvn.cnt a + length (TrainCmvn.vb_items b))
                 (TrainCmvn.gender_sisnri a) (TrainCmvn.gender_cnt a)).
    destruct (valid_items_run (TrainCmvn.vb_items b) a1 Hc
                ltac:(intros it Hit; apply Hl, elem_of_app; left; exact Hit))
      as (a2 & Hrun2 & Hl2 & Hs2 & Hn2 & Ht2).
    destruct (IH a2 (v_tracked_covers a1 _ _ Ht2 Hc)
                ltac:(intros it Hit; apply Hl, elem_of_app; right; exact Hit))
      as (a' & Hrun & Hl' & Hs' & Hn' & Ht').
    exists a'. cbn [TrainCmvn.valid_loader].
    unfold TrainCmvn.valid_batch. fold a1. rewrite Hrun2, bind_Ok_l.
    split; [exact Hrun|]. split; [|split; [|split]].
    + rewrite Hl', Hl2. reflexivity.
    + rewrite Hs', Hs2. reflexivity.
    + rewrite Hn', Hn2. simpl. rewrite length_app.
      symmetry. apply Nat.add_assoc.
    + simpl. apply (v_tracked_app a1 a2 a' _ _ Ht2 Ht').
Qed.

Lemma gender_meta_run (prefix : string) (a : TrainCmvn.vacc F)
    (keys : list string) :
  forall meta : list (string * F),
  (forall g, g ∈ keys ->
     is_Some (TrainCmvn.gender_sisnri a !! g) /\
     exists c, TrainCmvn.gender_cnt a !! g = Some c /\ c <> O) ->
  TrainCmvn.gender_meta prefix a keys meta
  = Ok (meta
        ++ ((fun g : string =>
               (prefix +:+ "_epoch_" +:+ g +:+ "_sisnri",
                fdiv (default f0 (TrainCmvn.gender_sisnri a !! g))
                  (f_of_nat (default O (TrainCmvn.gender_cnt a !! g)))))
            <$> keys)).
Proof.
  induction keys as [|k keys IH]; intros meta Hk.
  - simpl. rewrite app_nil_r. reflexivity.
  - destruct (Hk k ltac:(left)) as ([s Es] & c & Ec & Hc).
    cbn [TrainCmvn.gender_meta]. unfold map_get. rewrite Es, Ec.
    rewrite !bind_Ok_l. unfold div_count.
    destruct (c =? 0) eqn:E; [apply Nat.eqb_eq in E; contradiction|].
    rewrite bind_Ok_l.
    rewrite IH by (intros g Hg; apply Hk; right; exact Hg).
    rewrite <- app_assoc. simpl. rewrite Es, Ec. reflexivity.
Qed.

(** X30. When the mapper puts every example in one of the three
    categories and every category occurs in the split, [Trainer.valid]
    of the cmvn loop returns, and its metrics are, in this order: the
    batch losses weighted by batch size over the number of examples,
    the summed SI-SNRi over the number of examples, and for ['MF'],
    ['MM'], ['FF'] the summed SI-SNRi of the category over its number
    of examples. *)
Theorem cmvn_valid_returns_means
    (loader : list (TrainCmvn.vbatch F)) (epoch : Z) (no_save : bool)
    (prefix : string) (force_save : bool) :
  (forall it, it ∈ concat (TrainCmvn.vb_items <$> loader) ->
     gender_mapper it.1 dset ∈ TrainCmvn.genders) ->
  (forall g, g ∈ TrainCmvn.genders ->
     TrainCmvn.gender_count gender_mapper dset loader g <> O) ->
  exists out,
    TrainCmvn.valid gender_mapper loader dset epoch no_save prefix force_save
    = Ok out /\
    TrainCmvn.v_meta out
    = [(prefix +:+ "_epoch_loss",
        fdiv (foldl (fun t (b : TrainCmvn.vbatch F) =>
                       fadd t (fmul (TrainCmvn.vb_loss b)
                                 (f_of_nat (length (TrainCmvn.vb_items b)))))
                f0 loader)
          (f_of_nat (length (concat (TrainCmvn.vb_items <$> loader)))));
       (prefix +:+ "_epoch_sisnri",
        fdiv (foldl (fun t (b : TrainCmvn.vbatch F) =>
                       fadd t (fsum (snd <$> TrainCmvn.vb_items b)))
                f0 loader)
          (f_of_nat (length (concat (TrainCmvn.vb_items <$> loader)))))]
      ++ ((fun g : string =>
             (prefix +:+ "_epoch_" +:+ g +:+ "_sisnri",
              fdiv (foldl fadd f0
                      (snd <$> of_gender g
                                 (concat (TrainCmvn.vb_items <$> loader))))
                (f_of_nat
                   (TrainCmvn.gender_count gender_mapper dset loader g))))
          <$> TrainCmvn.genders).
Proof.
  intros Hlab Hcnt.
  set (items := concat (TrainCmvn.vb_items <$> loader)) in *.
  assert (Hin : forall g, g ∈ TrainCmvn.genders -> g ∈ ["MF"; "FF"; "MM"]).
  { intros g. unfold TrainCmvn.genders. rewrite !elem_of_cons. tauto. }
  assert (Hcov : v_covers (TrainCmvn.vacc0 (F := F))).
  { intros g Hg. simpl.
    rewrite (zero_counts_lookup _ _ (Hin g Hg)), (zeros_lookup _ _ (Hin g Hg)).
    eauto. }
  destruct (valid_loader_run loader TrainCmvn.vacc0 Hcov Hlab)
    as (a & Hrun & Hl & Hs & Hn & Ht).
  fold items in Hn, Ht. simpl in Hl, Hs, Hn.
  assert (Hne : length items <> O).
  { pose proof (Hcnt "MM" ltac:(unfold TrainCmvn.genders;
                                rewrite !elem_of_cons; tauto)) as Hmm.
    unfold TrainCmvn.gender_count, TrainCmvn.in_gender in Hmm.
    fold items in Hmm. intros Hz.
    apply length_zero_iff_nil in Hz. rewrite Hz in Hmm.
    apply Hmm. reflexivity. }
  assert (Hfin : forall g, g ∈ TrainCmvn.genders ->
            TrainCmvn.gender_cnt a !! g
            = Some (TrainCmvn.gender_count gender_mapper dset loader g) /\
            TrainCmvn.gender_sisnri a !! g
            = Some (foldl fadd f0 (snd <$> of_gender g items))).
  { intros g Hg. destruct (Ht g) as [-> ->]. simpl.
    rewrite (zero_counts_lookup _ _ (Hin g Hg)), (zeros_lookup _ _ (Hin g Hg)).
    split; reflexivity. }
  unfold TrainCmvn.valid. rewrite Hrun, bind_Ok_l, Hn.
  unfold div_count.
  destruct (length items =? 0) eqn:E; [apply Nat.eqb_eq in E; contradiction|].
  rewrite !bind_Ok_l.
  rewrite gender_meta_run.
  2:{ intros g Hg. destruct (Hfin g Hg) as [Hc Hsi].
      split; [rewrite Hsi; eauto|].
      eexists. split; [exact Hc|]. apply Hcnt, Hg. }
  rewrite bind_Ok_l.
  assert (Hmeta : forall g, g ∈ TrainCmvn.genders ->
            (prefix +:+ "_epoch_" +:+ g +:+ "_sisnri",
             fdiv (default f0 (TrainCmvn.gender_sisnri a !! g))
               (f_of_nat (default O (TrainCmvn.gender_cnt a !! g))))
            = (prefix +:+ "_epoch_" +:+ g +:+ "_sisnri",
               fdiv (foldl fadd f0 (snd <$> of_gender g items))
                 (f_of_nat
                    (TrainCmvn.gender_count gender_mapper dset loader g)))).
  { intros g Hg. destruct (Hfin g Hg) as [-> ->]. reflexivity. }
  assert (Hlist :
            (fun g : string =>
               (prefix +:+ "_epoch_" +:+ g +:+ "_sisnri",
                fdiv (default f0 (TrainCmvn.gender_sisnri a !! g))
                  (f_of_nat (default O (TrainCmvn.gender_cnt a !! g)))))
            <$> TrainCmvn.genders
            = (fun g : string =>
                 (prefix +:+ "_epoch_" +:+ g +:+ "_sisnri",
                  fdiv (foldl fadd f0 (snd <$> of_gender g items))
                    (f_of_nat
                       (TrainCmvn.gender_count gender_mapper dset loader g))))
              <$> TrainCmvn.genders).
  { apply Forall_fmap_ext_1, Forall_forall. intros g Hg.
    apply Hmeta, Hg. }
  rewrite Hlist, Hl, Hs.
  destruct no_save; eexists; (split; [reflexivity|]); reflexivity.
Qed.

End CmvnValidMeans.

Lemma cmvn_valid_returns_means_witness :
  exists out,
    TrainCmvn.valid Runs.mapper_prefix Runs.vloader3 "wsj0" 0 true "wsj0"
      false = Ok out /\
    length (TrainCmvn.v_meta out) = 5%nat /\
    TrainCmvn.v_saved out = [].
Proof.
  destruct (cmvn_valid_returns_means Runs.mapper_prefix "wsj0"
              Runs.vloader3 0 true "wsj0" false)
    as (out & Hout & Hmeta).
  - apply Forall_forall. repeat constructor; vm_compute;
      rewrite !elem_of_cons; auto.
  - intros g Hg. unfold TrainCmvn.genders in Hg.
    rewrite !elem_of_cons, elem_of_nil in Hg.
    destruct Hg as [->|[->|[->|[]]]]; vm_compute; discriminate.
  - exists out. split; [exact Hout|].
    split; [rewrite Hmeta; reflexivity|].
    vm_compute in Hout. injection Hout as <-. reflexivity.
Defined.
